(** * File-sharing system: upload, download and cleanup handlers

    A shallow embedding of the three AWS Lambda handlers of the repository
    ([backend/lambda/upload], [backend/lambda/download],
    [backend/lambda/cleanup]) together with the properties their
    specification states about them.

    The handlers are Python functions that talk to an S3 bucket through a
    process-wide boto3 client, read the wall clock and mint random
    identifiers.  They are embedded as computations in a state-and-exception
    monad over a [world] that holds the bucket, the clock, the identifier
    source, a schedule of failures injected into the client and a log of the
    client calls made.

    Conventions:
    - the world has one bucket, [BUCKET_NAME]; the [bucket] argument of the
      retry helpers is therefore left out;
    - a paginated listing has at most 1000 entries per page, and each page
      is one client call, made when the loop over the pages reaches it;
    - a [DeleteObjects] request that names more than 1000 keys is refused;
    - logging and [print] have no effect that a caller can see and are left
      out;
    - [json], [datetime.fromisoformat], [repr] and the signing functions of
      boto3 are taken as given (record [runtime]); module [Sample] has a
      concrete instance with which the handlers are run on examples. *)

From Stdlib Require Import ZArith String Ascii List Bool Lia.
From Stdlib Require Import SpecFloat.
From stdpp Require Import gmap strings list fin_maps sorting.

#[local] Set Warnings "-register-all".
Local Open Scope string_scope.
Local Open Scope Z_scope.

(** ** Python values *)

(** The values that reach the handlers: what [json.loads] produces and what
    the Lambda runtime passes as the event.  A [PDict] lists the items of
    the dict, whose keys are pairwise distinct. *)
Inductive pyval : Type :=
| PNone
| PBool (b : bool)
| PInt (n : Z)
| PFloat (f : spec_float)
| PStr (s : string)
| PList (l : list pyval)
| PDict (items : list (string * pyval)).

(** [bool(v)], the test behind [if not v]. *)
Definition truthy (v : pyval) : bool :=
  match v with
  | PNone => false
  | PBool b => b
  | PInt n => negb (n =? 0)
  | PFloat (S754_zero _) => false
  | PFloat _ => true
  | PStr s => negb (String.eqb s EmptyString)
  | PList l => match l with [] => false | _ => true end
  | PDict items => match items with [] => false | _ => true end
  end.

(** [isinstance(v, int)]: [bool] is a subclass of [int]. *)
Definition isinstance_int (v : pyval) : bool :=
  match v with
  | PInt _ | PBool _ => true
  | _ => false
  end.

(** The integer a value of type [int] (or [bool]) stands for in a
    comparison. *)
Definition int_value (v : pyval) : Z :=
  match v with
  | PInt n => n
  | PBool true => 1
  | _ => 0
  end.

Fixpoint assoc_get {A : Type} (key : string) (items : list (string * A)) : option A :=
  match items with
  | [] => None
  | (k, v) :: rest => if String.eqb k key then Some v else assoc_get key rest
  end.

(** [d.get(key)] on a dict: [None] for a missing key. *)
Definition dict_get (key : string) (items : list (string * pyval)) : pyval :=
  match assoc_get key items with
  | Some v => v
  | None => PNone
  end.

(** [x in xs] for a list of strings [xs]: only a [str] can be equal to one
    of them. *)
Definition in_strings (v : pyval) (xs : list string) : bool :=
  match v with
  | PStr s => existsb (String.eqb s) xs
  | _ => false
  end.

(** ** Decimal text *)

Definition digit_char (d : Z) : ascii :=
  ascii_of_nat (48 + Z.to_nat (d mod 10)).

(** The last [width] decimal digits of [n], most significant first. *)
Fixpoint digits_padded (width : nat) (n : Z) : string :=
  match width with
  | O => EmptyString
  | S w => digits_padded w (n / 10) +:+ String (digit_char n) EmptyString
  end.

Fixpoint digits_fuel (fuel : nat) (n : Z) : string :=
  match fuel with
  | O => EmptyString
  | S f => if n <? 10 then String (digit_char n) EmptyString
           else digits_fuel f (n / 10) +:+ String (digit_char n) EmptyString
  end.

(** [str(n)] for an integer. *)
Definition str_of_int (n : Z) : string :=
  if n <? 0 then "-" +:+ digits_fuel (S (Z.to_nat (Z.log2 (- n)))) (- n)
  else digits_fuel (S (Z.to_nat (Z.log2 n))) n.

(** ** Naive datetimes

    A naive [datetime] is the number of microseconds since
    0001-01-01T00:00:00, the origin of Python's proleptic calendar. *)

Definition SECOND : Z := 1000000.
Definition HOUR : Z := 3600 * SECOND.
Definition DAY : Z := 24 * HOUR.

(** [datetime.max], 9999-12-31T23:59:59.999999. *)
Definition DATETIME_MAX : Z := 3652059 * DAY - 1.

(** Year, month and day of the day number [days] counted from 0001-01-01. *)
Definition civil_from_days (days : Z) : Z * Z * Z :=
  let z := days + 306 in
  let era := z / 146097 in
  let doe := z - era * 146097 in
  let yoe := (doe - doe / 1460 + doe / 36524 - doe / 146096) / 365 in
  let doy := doe - (365 * yoe + yoe / 4 - yoe / 100) in
  let mp := (5 * doy + 2) / 153 in
  let d := doy - (153 * mp + 2) / 5 + 1 in
  let m := if mp <? 10 then mp + 3 else mp - 9 in
  let y := yoe + era * 400 + (if m <=? 2 then 1 else 0) in
  (y, m, d).

(** [datetime.isoformat()] of a naive datetime: the fraction is printed only
    when it is not zero. *)
Definition isoformat (t : Z) : string :=
  let '(y, m, d) := civil_from_days (t / DAY) in
  let tod := t mod DAY in
  let us := tod mod SECOND in
  digits_padded 4 y +:+ "-" +:+ digits_padded 2 m +:+ "-" +:+ digits_padded 2 d +:+
  "T" +:+ digits_padded 2 (tod / HOUR) +:+ ":" +:+
  digits_padded 2 (tod / (60 * SECOND) mod 60) +:+ ":" +:+
  digits_padded 2 (tod / SECOND mod 60) +:+
  (if us =? 0 then EmptyString else "." +:+ digits_padded 6 us).

(** What [datetime.fromisoformat] returns: a naive datetime, or one that
    carries a UTC offset. *)
Inductive datetime : Type :=
| Naive (t : Z)
| Aware (t : Z) (utcoffset : Z).

(** ** Exceptions *)

(** The exceptions the handlers can meet.  [ClientError] is botocore's, with
    the code found at [e.response['Error']['Code']]; [PyError] stands for
    every other subclass of [Exception] ([TypeError], [AttributeError],
    [ValueError] and its subclasses, [OverflowError], ...).  The message is
    what [str(e)] returns. *)
Inductive exn : Type :=
| ClientError (code : string) (message : string)
| KeyError (key : string)
| PyError (cls : string) (message : string).

(** [str(e)]; for a [KeyError] it is the [repr] of the missing key. *)
Definition str_exn (e : exn) : string :=
  match e with
  | ClientError _ m => m
  | KeyError k => "'" +:+ k +:+ "'"
  | PyError _ m => m
  end.

Definition is_KeyError (e : exn) : bool :=
  match e with
  | KeyError _ => true
  | _ => false
  end.

(** ** Library functions

    Pure functions of the Python standard library and of boto3 whose text
    output or accepted grammar the handlers do not depend on.  They are
    taken as given; every theorem holds for all of them. *)
Record runtime : Type := {
  (** [bytes.decode('utf-8')]; [None] when it raises [UnicodeDecodeError] *)
  decode_utf8 : string -> option string;
  (** [json.loads]; [None] when it raises [JSONDecodeError] *)
  json_loads : string -> option pyval;
  (** [json.dumps] *)
  json_dumps : pyval -> string;
  (** [datetime.fromisoformat] on a [str]; [None] when it raises
      [ValueError] *)
  fromisoformat : string -> option datetime;
  (** [repr] of a float, a list or a dict *)
  repr_compound : pyval -> string;
  (** the signed form [generate_presigned_post] computes from the key, the
      content type, the size bound and the validity in seconds *)
  presigned_post : string -> string -> Z -> Z -> pyval;
  (** the signed URL [generate_presigned_url] computes for [get_object]
      from the key, the content disposition and the validity in seconds *)
  presigned_url : string -> string -> Z -> string
}.

(** [str(v)], also what an f-string puts for [{v}]. *)
Definition format_value (rt : runtime) (v : pyval) : string :=
  match v with
  | PStr s => s
  | PNone => "None"
  | PBool true => "True"
  | PBool false => "False"
  | PInt n => str_of_int n
  | _ => repr_compound rt v
  end.

(** ** The world *)

Record s3_object : Type := {
  Body : string;
  ContentType : option string;
  Metadata : list (string * string)
}.

(** Calls made to the S3 client and to [time.sleep], in order. *)
Inductive action : Type :=
| GetObject (key : string)
| PutObject (key : string) (obj : s3_object)
| HeadObject (key : string)
| ListCommonPrefixes
| ListObjects (prefix : string)
| DeleteObjects (keys : list string)
| PresignedPost (key : string)
| PresignedUrl (key : string)
| Sleep (seconds : Z).

(** - [objects]: the contents of the bucket [BUCKET_NAME];
    - [faults]: what the next client calls meet, one entry per call:
      [Some e] makes the call raise [e] without touching the bucket, [None]
      lets it through; once the schedule is used up every call goes
      through;
    - [log]: the calls made so far;
    - [clock], [reads]: [datetime.utcnow()] returns [clock reads] and
      advances [reads];
    - [uuids], [minted]: likewise for [str(uuid.uuid4())]. *)
Record world : Type := {
  objects : gmap string s3_object;
  faults : list (option exn);
  log : list action;
  clock : nat -> Z;
  reads : nat;
  uuids : nat -> string;
  minted : nat
}.

Definition set_objects (m : gmap string s3_object) (w : world) : world :=
  {| objects := m; faults := faults w; log := log w; clock := clock w;
     reads := reads w; uuids := uuids w; minted := minted w |}.

Definition set_faults (fs : list (option exn)) (w : world) : world :=
  {| objects := objects w; faults := fs; log := log w; clock := clock w;
     reads := reads w; uuids := uuids w; minted := minted w |}.

Definition add_log (a : action) (w : world) : world :=
  {| objects := objects w; faults := faults w; log := log w ++ [a]; clock := clock w;
     reads := reads w; uuids := uuids w; minted := minted w |}.

Definition set_reads (n : nat) (w : world) : world :=
  {| objects := objects w; faults := faults w; log := log w; clock := clock w;
     reads := n; uuids := uuids w; minted := minted w |}.

Definition set_minted (n : nat) (w : world) : world :=
  {| objects := objects w; faults := faults w; log := log w; clock := clock w;
     reads := reads w; uuids := uuids w; minted := n |}.

(** ** Computations that may raise *)

Inductive outcome (A : Type) : Type :=
| Returned (a : A)
| Raised (e : exn).
Arguments Returned {A} a.
Arguments Raised {A} e.

Definition M (A : Type) : Type := world -> outcome A * world.

Definition ret {A : Type} (a : A) : M A := fun w => (Returned a, w).

Definition raise {A : Type} (e : exn) : M A := fun w => (Raised e, w).

Definition bind {A B : Type} (c : M A) (k : A -> M B) : M B :=
  fun w =>
    match c w with
    | (Returned a, w') => k a w'
    | (Raised e, w') => (Raised e, w')
    end.

Notation "x <- c ;; k" := (bind c (fun x => k))
  (at level 100, c at next level, right associativity).
Notation "c ;;; k" := (bind c (fun _ => k))
  (at level 100, right associativity).

(** [try: body / except ... as e: handler e]; the handler dispatches on the
    class of [e]. *)
Definition try_except {A : Type} (body : M A) (handler : exn -> M A) : M A :=
  fun w =>
    match body w with
    | (Returned a, w') => (Returned a, w')
    | (Raised e, w') => handler e w'
    end.

(** A value that is needed but may fail to exist. *)
Definition lift_option {A : Type} (o : option A) (e : exn) : M A :=
  match o with
  | Some a => ret a
  | None => raise e
  end.

(** [datetime.utcnow()] *)
Definition utcnow : M Z :=
  fun w => (Returned (clock w (reads w)), set_reads (S (reads w)) w).

(** [str(uuid.uuid4())] *)
Definition uuid4 : M string :=
  fun w => (Returned (uuids w (minted w)), set_minted (S (minted w)) w).

(** [time.sleep(seconds)] *)
Definition sleep (seconds : Z) : M unit :=
  fun w => (Returned tt, add_log (Sleep seconds) w).

(** ** The S3 client *)

(** Every client call is logged and meets the next entry of the failure
    schedule. *)
Definition client_call (a : action) : M unit :=
  fun w =>
    let w1 := add_log a w in
    match faults w with
    | [] => (Returned tt, w1)
    | None :: rest => (Returned tt, set_faults rest w1)
    | Some e :: rest => (Raised e, set_faults rest w1)
    end.

Definition NoSuchKey : exn :=
  ClientError "NoSuchKey"
    "An error occurred (NoSuchKey) when calling the GetObject operation: The specified key does not exist.".

Definition HeadNotFound : exn :=
  ClientError "404"
    "An error occurred (404) when calling the HeadObject operation: Not Found".

(** [s3_client.get_object(Bucket=BUCKET_NAME, Key=key)]: raises
    [ClientError] with code [NoSuchKey] for a key that is not there. *)
Definition get_object (key : string) : M s3_object :=
  client_call (GetObject key) ;;;
  fun w => match objects w !! key with
           | Some o => (Returned o, w)
           | None => (Raised NoSuchKey, w)
           end.

(** [s3_client.head_object(Bucket=BUCKET_NAME, Key=key)]: returns the
    (non-empty) response dict for a key that is there and raises
    [ClientError] with code [404] for one that is not. *)
Definition head_object (key : string) : M s3_object :=
  client_call (HeadObject key) ;;;
  fun w => match objects w !! key with
           | Some o => (Returned o, w)
           | None => (Raised HeadNotFound, w)
           end.

(** [s3_client.put_object(Bucket=BUCKET_NAME, Key=key, ...)] *)
Definition put_object (key : string) (obj : s3_object) : M unit :=
  client_call (PutObject key obj) ;;;
  fun w => (Returned tt, set_objects (<[key := obj]> (objects w)) w).

(** The part of a key up to and including its first ["/"], if it has one. *)
Fixpoint common_prefix (key : string) : option string :=
  match key with
  | EmptyString => None
  | String c rest =>
      if Ascii.eqb c "/" then Some "/"
      else option_map (String c) (common_prefix rest)
  end.

Definition key_le (a b : string) : Prop := String.leb a b = true.

#[local] Instance key_le_dec (a b : string) : Decision (key_le a b).
Proof. unfold key_le. apply _. Defined.

(** The keys of the bucket in the order S3 lists them. *)
Definition sorted_keys (m : gmap string s3_object) : list string :=
  merge_sort key_le (elements (dom m)).

(** One entry per distinct first element, in the order of [keys]. *)
Fixpoint dedup_strings (seen : list string) (l : list string) : list string :=
  match l with
  | [] => []
  | x :: rest =>
      if existsb (String.eqb x) seen then dedup_strings seen rest
      else x :: dedup_strings (x :: seen) rest
  end.

(** *** Paged listings

    [list_objects_v2] returns at most [MaxKeys] entries per request, 1000
    unless the caller asks otherwise, and the sweeper does not.  A
    paginator makes one request per page, and makes it when the loop over
    its pages reaches that page. *)
Definition PAGE_SIZE : nat := 1000.

Fixpoint pages_of {A : Type} (size fuel : nat) (l : list A) : list (list A) :=
  match fuel, l with
  | S fuel', _ :: _ => take size l :: pages_of size fuel' (drop size l)
  | _, _ => []
  end.

(** The pages of a listing with the entries [l]: [PAGE_SIZE] entries per
    page but for the last; a listing without entries is one empty page. *)
Definition paginate {A : Type} (l : list A) : list (list A) :=
  match l with
  | [] => [[]]
  | _ :: _ => pages_of PAGE_SIZE (length l) l
  end.

(** The entry of a listing with [Delimiter='/'] that stands for [key]: its
    common prefix if it has one (an entry of [CommonPrefixes]), else the
    key itself (an entry of [Contents]). *)
Definition listing_entry (key : string) : string :=
  default key (common_prefix key).

(** The entries of the listing with [Delimiter='/'], in the order S3
    returns them; a common prefix is one entry, however many keys it rolls
    up, and counts as one towards the size of a page. *)
Definition listing_entries (m : gmap string s3_object) : list string :=
  dedup_strings [] (List.map listing_entry (sorted_keys m)).

(** [paginator.paginate(Bucket=BUCKET_NAME, Delimiter='/')]: the pages the
    loop of the sweeper will fetch, as entries; no request is made yet.
    Between two pages the sweeper deletes only keys under prefixes of pages
    it has fetched, so the later pages are those of the listing as it is
    when the paginator is made. *)
Definition paginate_common_prefixes : M (list (list string)) :=
  fun w => (Returned (paginate (listing_entries (objects w))), w).

(** The request that fetches one page of that listing. *)
Definition fetch_common_prefixes : M unit :=
  client_call ListCommonPrefixes.

(** [page['CommonPrefixes']], each entry given by its [Prefix]; empty when
    the page has no such entry. *)
Definition CommonPrefixes (page : list string) : list string :=
  omap common_prefix page.

(** One request per page, in order; the keys of the pages fetched. *)
Fixpoint fetch_pages (a : action) (pages : list (list string)) : M (list string) :=
  match pages with
  | [] => ret []
  | page :: rest =>
      client_call a ;;;
      keys <- fetch_pages a rest ;;
      ret (page ++ keys)%list
  end.

(** The loop over [paginator.paginate(Bucket=BUCKET_NAME, Prefix=prefix)]
    that collects the [Key] of every entry of [Contents] of every page.
    Nothing is written between two pages. *)
Definition list_objects (prefix : string) : M (list string) :=
  pages <- (fun w => (Returned (paginate (List.filter (String.prefix prefix)
                                            (sorted_keys (objects w)))), w)) ;;
  fetch_pages (ListObjects prefix) pages.

(** A [DeleteObjects] request names at most 1000 keys. *)
Definition MAX_DELETE_KEYS : nat := 1000.

Definition MalformedXML : exn :=
  ClientError "MalformedXML"
    "An error occurred (MalformedXML) when calling the DeleteObjects operation: The XML you provided was not well-formed or did not validate against our published schema".

(** [s3_client.delete_objects(Bucket=BUCKET_NAME, Delete={'Objects': ...})]:
    S3 refuses a request that names more than [MAX_DELETE_KEYS] keys and
    then deletes nothing; a request it accepts deletes every key it
    names. *)
Definition delete_objects (keys : list string) : M unit :=
  client_call (DeleteObjects keys) ;;;
  if (MAX_DELETE_KEYS <? length keys)%nat then raise MalformedXML
  else fun w => (Returned tt, set_objects (foldr delete (objects w) keys) w).

(** ** Responses *)

(** The dict a handler returns.  [headers] is [None] when the dict has no
    such entry; [body] is the text [json.dumps] produced. *)
Record response : Type := {
  statusCode : Z;
  headers : option (list (string * string));
  body : string
}.

Definition JSON_HEADERS : list (string * string) :=
  [("Content-Type", "application/json"); ("Access-Control-Allow-Origin", "*")].

(** The response of the upload and download handlers with [code] and a body
    [{'error': message}]. *)
Definition error_response (rt : runtime) (code : Z) (message : string) : response :=
  {| statusCode := code;
     headers := Some JSON_HEADERS;
     body := json_dumps rt (PDict [("error", PStr message)]) |}.

(** [v[key]] for a string [key]: only a dict can be indexed by a string. *)
Definition subscript (v : pyval) (key : string) : M pyval :=
  match v with
  | PDict items => lift_option (assoc_get key items) (KeyError key)
  | _ => raise (PyError "TypeError" "object is not subscriptable by a str")
  end.

(** The items of [v] when [v.get] exists, that is when [v] is a dict. *)
Definition dict_items (v : pyval) : M (list (string * pyval)) :=
  match v with
  | PDict items => ret items
  | _ => raise (PyError "AttributeError" "object has no attribute 'get'")
  end.

(** [json.loads(obj['Body'].read().decode('utf-8'))] *)
Definition read_json (rt : runtime) (obj : s3_object) : M pyval :=
  text <- lift_option (decode_utf8 rt (Body obj))
            (PyError "UnicodeDecodeError" "invalid utf-8") ;;
  lift_option (json_loads rt text) (PyError "JSONDecodeError" "invalid JSON").

(** [datetime.fromisoformat(v)]: a [TypeError] for anything but a [str]. *)
Definition parse_datetime (rt : runtime) (v : pyval) : M datetime :=
  match v with
  | PStr s => lift_option (fromisoformat rt s)
                (PyError "ValueError" ("Invalid isoformat string: " +:+ s))
  | _ => raise (PyError "TypeError" "fromisoformat: argument must be str")
  end.

(** [current_time > expiration] for the naive [current_time] that
    [datetime.utcnow()] returns: comparing it with an aware datetime raises
    [TypeError]. *)
Definition naive_gt (current_time : Z) (expiration : datetime) : M bool :=
  match expiration with
  | Naive t => ret (current_time >? t)
  | Aware _ _ => raise (PyError "TypeError" "can't compare offset-naive and offset-aware datetimes")
  end.

(** The error codes both retry loops take for transient. *)
Definition TRANSIENT_CODES : list string :=
  ["SlowDown"; "InternalError"; "ServiceUnavailable"].

(** ** The upload handler: [backend/lambda/upload/lambda_function.py] *)

Module Upload.

Definition MAX_FILE_SIZE : Z := 10 * 1024 * 1024.

Definition ALLOWED_CONTENT_TYPES : list string :=
  ["image/jpeg"; "image/png"; "image/gif"; "image/webp";
   "application/pdf"; "application/msword";
   "application/vnd.openxmlformats-officedocument.wordprocessingml.document";
   "text/plain"; "text/csv"; "application/zip"; "application/x-zip-compressed";
   "application/vnd.ms-excel";
   "application/vnd.openxmlformats-officedocument.spreadsheetml.sheet";
   "application/vnd.ms-powerpoint";
   "application/vnd.openxmlformats-officedocument.presentationml.presentation";
   "video/mp4"; "video/quicktime"; "audio/mpeg"; "audio/mp4"].

Definition UPLOAD_URL_EXPIRY : Z := 300.

Definition MAX_RETRIES : nat := 3.

(** The [while retries < max_retries] loop of [s3_put_with_retry];
    [left] is [max_retries - retries], so the loop condition holds exactly
    when [left] is a successor.  Leaving the loop by its condition falls
    off the end of the function, which returns [None]. *)
Fixpoint put_loop (key : string) (obj : s3_object) (left retries : nat) : M pyval :=
  match left with
  | O => ret PNone
  | S left' =>
      try_except
        (put_object key obj ;;; ret (PBool true))
        (fun e =>
           match e with
           | ClientError error_code _ =>
               if existsb (String.eqb error_code) TRANSIENT_CODES then
                 let retries := S retries in
                 match left' with
                 | S _ => sleep (2 ^ Z.of_nat retries) ;;; put_loop key obj left' retries
                 | O => raise e
                 end
               else raise e
           | _ => raise e
           end)
  end.

(** [s3_put_with_retry(bucket, key, body, metadata, content_type,
    max_retries)] for the one bucket of the world.  An entry of [params] is
    set only for an argument that is given ([Metadata] only when it is not
    empty). *)
Definition s3_put_with_retry (key : string) (body : option string)
    (metadata : option (list (string * string))) (content_type : option string)
    (max_retries : nat) : M pyval :=
  let metadata := match metadata with Some m => m | None => [] end in
  put_loop key
    {| Body := match body with Some b => b | None => EmptyString end;
       ContentType := content_type;
       Metadata := metadata |}
    max_retries 0.

Section handler.
Variable rt : runtime.

(** [generate_upload_url(file_id, filename, content_type, file_size)]; the
    [except] clause logs and raises again. *)
Definition generate_upload_url (file_id : string) (filename content_type file_size : pyval)
    : M pyval :=
  let s3_key := file_id +:+ "/" +:+ format_value rt filename in
  client_call (PresignedPost s3_key) ;;;
  ret (presigned_post rt s3_key (format_value rt content_type) MAX_FILE_SIZE UPLOAD_URL_EXPIRY).

(** [json.loads(event['body']) if isinstance(event.get('body'), str) else
    event.get('body', {})] *)
Definition request_body (event : pyval) : M pyval :=
  items <- dict_items event ;;
  match assoc_get "body" items with
  | Some (PStr s) =>
      lift_option (json_loads rt s) (PyError "JSONDecodeError" "invalid JSON")
  | Some v => ret v
  | None => ret (PDict [])
  end.

(** [timedelta(hours=24)] added to a datetime: [OverflowError] past
    [datetime.max]. *)
Definition plus_24_hours (t : Z) : M Z :=
  if t + 24 * HOUR >? DATETIME_MAX then
    raise (PyError "OverflowError" "date value out of range")
  else ret (t + 24 * HOUR).

(** The statements of the [try] block that follow the parsing of the
    request body, [body] being the items of the dict it gave. *)
Definition process_request (body : list (string * pyval)) : M response :=
  let filename := dict_get "filename" body in
  let content_type := dict_get "content_type" body in
  let file_size := dict_get "file_size" body in
  if negb (truthy filename) then
    ret (error_response rt 400 "Filename is required")
  else if negb (truthy content_type) then
    ret (error_response rt 400 "Content type is required")
  else if negb (truthy file_size) || negb (isinstance_int file_size) then
    ret (error_response rt 400 "Valid file size is required")
  else if int_value file_size >? MAX_FILE_SIZE then
    ret (error_response rt 400 "File size exceeds the maximum limit of 10.0MB")
  else if negb (in_strings content_type ALLOWED_CONTENT_TYPES) then
    ret (error_response rt 400
           ("Content type " +:+ format_value rt content_type +:+ " is not allowed"))
  else
    file_id <- uuid4 ;;
    now <- utcnow ;;
    expiration_time <- plus_24_hours now ;;
    let expiration_timestamp := isoformat expiration_time in
    upload_time <- utcnow ;;
    let metadata :=
      PDict [("original_filename", filename);
             ("content_type", content_type);
             ("expiration_time", PStr expiration_timestamp);
             ("upload_time", PStr (isoformat upload_time));
             ("file_size", PStr (format_value rt file_size))] in
    s3_put_with_retry (file_id +:+ "/metadata.json") (Some (json_dumps rt metadata))
      None (Some "application/json") MAX_RETRIES ;;;
    upload_data <- generate_upload_url file_id filename content_type file_size ;;
    let download_path := "/download/" +:+ file_id in
    ret {| statusCode := 200;
           headers := Some JSON_HEADERS;
           body := json_dumps rt
                     (PDict [("file_id", PStr file_id);
                             ("upload_data", upload_data);
                             ("download_path", PStr download_path);
                             ("expiration_time", PStr expiration_timestamp)]) |}.

(** The body of the [try] statement of [lambda_handler]; [body.get]
    exists only for a dict. *)
Definition lambda_handler_try (event : pyval) : M response :=
  body <- request_body event ;;
  body <- dict_items body ;;
  process_request body.

(** [lambda_handler(event, context)]: the request time is read before the
    [try]; every exception of the body is caught by [except Exception]. *)
Definition lambda_handler (event context : pyval) : M response :=
  request_time <- utcnow ;;
  try_except (lambda_handler_try event)
    (fun e => ret (error_response rt 500 "An internal server error occurred")).

End handler.
End Upload.

(** ** The download handler: [backend/lambda/download/lambda_function.py] *)

Module Download.

Definition DOWNLOAD_URL_EXPIRY : Z := 900.

Definition MAX_RETRIES : nat := 3.

(** The [while retries < max_retries] loop of [s3_get_with_retry], with
    [left = max_retries - retries] as in [Upload.put_loop].  [NoSuchKey]
    makes the function return [None]. *)
Fixpoint get_loop (key : string) (left retries : nat) : M (option s3_object) :=
  match left with
  | O => ret None
  | S left' =>
      try_except
        (response <- get_object key ;; ret (Some response))
        (fun e =>
           match e with
           | ClientError error_code _ =>
               if String.eqb error_code "NoSuchKey" then ret None
               else if existsb (String.eqb error_code) TRANSIENT_CODES then
                 let retries := S retries in
                 match left' with
                 | S _ => sleep (2 ^ Z.of_nat retries) ;;; get_loop key left' retries
                 | O => raise e
                 end
               else raise e
           | _ => raise e
           end)
  end.

(** [s3_get_with_retry(bucket, key, max_retries)] for the one bucket of the
    world. *)
Definition s3_get_with_retry (key : string) (max_retries : nat) : M (option s3_object) :=
  get_loop key max_retries 0.

(** A boto3 response dict always has a [ResponseMetadata] entry, so it is
    never empty. *)
Definition response_truthy (r : s3_object) : bool := true.

Section handler.
Variable rt : runtime.

(** [generate_download_url(file_id, filename)]; the [except] clause logs and
    raises again. *)
Definition generate_download_url (file_id filename : pyval) : M string :=
  let s3_key := format_value rt file_id +:+ "/" +:+ format_value rt filename in
  client_call (PresignedUrl s3_key) ;;;
  ret (presigned_url rt s3_key
         ("attachment; filename=" +:+ String (ascii_of_nat 34) (format_value rt filename)
            +:+ String (ascii_of_nat 34) EmptyString)
         DOWNLOAD_URL_EXPIRY).

(** [is_file_expired(expiration_time)]: whatever the [try] raises makes the
    file count as expired. *)
Definition is_file_expired (expiration_time : pyval) : M bool :=
  try_except
    (expiration_datetime <- parse_datetime rt expiration_time ;;
     current_time <- utcnow ;;
     naive_gt current_time expiration_datetime)
    (fun e => ret true).

(** The body of the [try] statement of [lambda_handler]. *)
Definition lambda_handler_try (event : pyval) : M response :=
  path_parameters <- subscript event "pathParameters" ;;
  file_id <- subscript path_parameters "file_id" ;;
  let metadata_key := format_value rt file_id +:+ "/metadata.json" in
  metadata_response <- s3_get_with_retry metadata_key MAX_RETRIES ;;
  match metadata_response with
  | None => ret (error_response rt 404 "File not found")
  | Some metadata_response =>
      metadata <- read_json rt metadata_response ;;
      metadata <- dict_items metadata ;;
      let original_filename := dict_get "original_filename" metadata in
      let content_type := dict_get "content_type" metadata in
      let expiration_time := dict_get "expiration_time" metadata in
      expired <- is_file_expired expiration_time ;;
      if expired then ret (error_response rt 404 "File has expired")
      else
        let file_key := format_value rt file_id +:+ "/" +:+ format_value rt original_filename in
        file_exists_response <- head_object file_key ;;
        if negb (response_truthy file_exists_response) then
          ret (error_response rt 404 "File content not found")
        else
          download_url <- generate_download_url file_id original_filename ;;
          ret {| statusCode := 200;
                 headers := Some JSON_HEADERS;
                 body := json_dumps rt
                           (PDict [("download_url", PStr download_url);
                                   ("filename", original_filename);
                                   ("content_type", content_type);
                                   ("expiration_time", expiration_time)]) |}
  end.

(** [lambda_handler(event, context)]: [except KeyError] comes first, then
    [except Exception]. *)
Definition lambda_handler (event context : pyval) : M response :=
  request_time <- utcnow ;;
  try_except (lambda_handler_try event)
    (fun e =>
       if is_KeyError e then
         ret (error_response rt 400 ("Missing required parameter: " +:+ str_exn e))
       else
         ret (error_response rt 500 "An internal server error occurred")).

End handler.
End Download.

(** ** The cleanup handler: [backend/lambda/cleanup/lambda_function.py] *)

Module Cleanup.

(** [s.rstrip('/')] *)
Fixpoint rstrip_slash (s : string) : string :=
  match s with
  | EmptyString => EmptyString
  | String c rest =>
      match rstrip_slash rest with
      | EmptyString => if Ascii.eqb c "/" then EmptyString else String c EmptyString
      | r => String c r
      end
  end.

Section handler.
Variable rt : runtime.

(** The body of the inner [try] statement, for one entry of
    [CommonPrefixes]; it returns the new value of [deleted_count]. *)
Definition process_prefix_try (file_id : string) (deleted_count : Z) : M Z :=
  metadata_response <- get_object (file_id +:+ "/metadata.json") ;;
  metadata <- read_json rt metadata_response ;;
  expiration_value <- subscript metadata "expiration_time" ;;
  expiration_time <- parse_datetime rt expiration_value ;;
  current_time <- utcnow ;;
  expired <- naive_gt current_time expiration_time ;;
  if expired then
    objects_to_delete <- list_objects (file_id +:+ "/") ;;
    match objects_to_delete with
    | [] => ret deleted_count
    | _ => delete_objects objects_to_delete ;;; ret (deleted_count + 1)
    end
  else ret deleted_count.

(** One turn of the loop over [CommonPrefixes]: the state is
    [(deleted_count, checked_count)]; [except Exception] prints and goes
    on. *)
Definition process_prefix (counts : Z * Z) (prefix : string) : M (Z * Z) :=
  let '(deleted_count, checked_count) := counts in
  let file_id := rstrip_slash prefix in
  let checked_count := checked_count + 1 in
  deleted_count <- try_except (process_prefix_try file_id deleted_count)
                     (fun e => ret deleted_count) ;;
  ret (deleted_count, checked_count).

Fixpoint for_each {S A : Type} (f : S -> A -> M S) (s : S) (l : list A) : M S :=
  match l with
  | [] => ret s
  | x :: rest => s' <- f s x ;; for_each f s' rest
  end.

Definition completed_message (checked_count deleted_count : Z) : string :=
  "Cleanup completed. Checked " +:+ str_of_int checked_count +:+ " files, deleted "
    +:+ str_of_int deleted_count +:+ " expired files.".

(** One turn of the loop [for page in pages]: the paginator fetches the
    page, then the handler goes through its [CommonPrefixes]. *)
Definition process_page (counts : Z * Z) (page : list string) : M (Z * Z) :=
  fetch_common_prefixes ;;;
  for_each process_prefix counts (CommonPrefixes page).

(** The body of the outer [try] statement. *)
Definition lambda_handler_try : M response :=
  pages <- paginate_common_prefixes ;;
  counts <- for_each process_page (0, 0) pages ;;
  let '(deleted_count, checked_count) := counts in
  ret {| statusCode := 200;
         headers := None;
         body := json_dumps rt
                   (PDict [("message", PStr (completed_message checked_count deleted_count))]) |}.

(** [lambda_handler(event, context)] *)
Definition lambda_handler (event context : pyval) : M response :=
  try_except lambda_handler_try
    (fun e =>
       ret {| statusCode := 500;
              headers := None;
              body := json_dumps rt
                        (PDict [("error", PStr ("An error occurred: " +:+ str_exn e))]) |}).

End handler.
End Cleanup.

(** ** A concrete runtime for running the handlers

    An instance of [runtime] that agrees with Python on a fragment that is
    enough to run the handlers on examples: JSON text made of objects,
    arrays, integers, [true], [false], [null] and strings without escapes;
    timestamps in the form [isoformat] prints, with an optional UTC
    offset. *)

Module Sample.

Definition dquote : ascii := ascii_of_nat 34.

Definition quoted (s : string) : string :=
  String dquote s +:+ String dquote EmptyString.

Fixpoint join (sep : string) (l : list string) : string :=
  match l with
  | [] => EmptyString
  | [x] => x
  | x :: rest => x +:+ sep +:+ join sep rest
  end.

Fixpoint json_dumps (v : pyval) : string :=
  match v with
  | PNone => "null"
  | PBool true => "true"
  | PBool false => "false"
  | PInt n => str_of_int n
  | PFloat _ => "NaN"
  | PStr s => quoted s
  | PList l => "[" +:+ join ", " (List.map json_dumps l) +:+ "]"
  | PDict items =>
      "{" +:+ join ", " (List.map (fun kv => quoted (fst kv) +:+ ": " +:+ json_dumps (snd kv)) items)
          +:+ "}"
  end.

Definition digit_of (c : ascii) : option Z :=
  let n := Z.of_nat (nat_of_ascii c) in
  if (48 <=? n) && (n <=? 57) then Some (n - 48) else None.

Definition is_space (c : ascii) : bool :=
  let n := nat_of_ascii c in
  (n =? 32)%nat || (n =? 9)%nat || (n =? 10)%nat || (n =? 13)%nat.

Fixpoint skip_spaces (s : string) : string :=
  match s with
  | String c rest => if is_space c then skip_spaces rest else s
  | EmptyString => s
  end.

(** The digits at the front of [s], as a number, with how many there were. *)
Fixpoint read_digits (s : string) (acc : Z) (count : nat) : Z * nat * string :=
  match s with
  | String c rest =>
      match digit_of c with
      | Some d => read_digits rest (10 * acc + d) (S count)
      | None => (acc, count, s)
      end
  | EmptyString => (acc, count, s)
  end.

(** The characters up to the closing quote; a backslash or a control
    character is outside the fragment. *)
Fixpoint read_string (s : string) : option (string * string) :=
  match s with
  | EmptyString => None
  | String c rest =>
      if Ascii.eqb c dquote then Some (EmptyString, rest)
      else if Ascii.eqb c "\" || (nat_of_ascii c <? 32)%nat then None
      else match read_string rest with
           | Some (body, rest') => Some (String c body, rest')
           | None => None
           end
  end.

Definition read_number (s : string) : option (pyval * string) :=
  let '(negative, s1) :=
    match s with
    | String "-" rest => (true, rest)
    | _ => (false, s)
    end in
  let '(n, count, rest) := read_digits s1 0 O in
  match count with
  | O => None
  | _ =>
      match rest with
      | String "." _ | String "e" _ | String "E" _ => None
      | _ => Some (PInt (if negative then - n else n), rest)
      end
  end.

Definition read_literal (word : string) (v : pyval) (s : string) : option (pyval * string) :=
  if String.prefix word s
  then Some (v, String.substring (String.length word) (String.length s - String.length word) s)
  else None.

Fixpoint read_value (fuel : nat) (s : string) : option (pyval * string) :=
  match fuel with
  | O => None
  | S fuel =>
      match skip_spaces s with
      | String "{" rest =>
          match skip_spaces rest with
          | String "}" rest' => Some (PDict [], rest')
          | _ => match read_members fuel rest with
                 | Some (items, rest') => Some (PDict items, rest')
                 | None => None
                 end
          end
      | String "[" rest =>
          match skip_spaces rest with
          | String "]" rest' => Some (PList [], rest')
          | _ => match read_elements fuel rest with
                 | Some (l, rest') => Some (PList l, rest')
                 | None => None
                 end
          end
      | String "t" _ as s' => read_literal "true" (PBool true) s'
      | String "f" _ as s' => read_literal "false" (PBool false) s'
      | String "n" _ as s' => read_literal "null" PNone s'
      | String c rest as s' =>
          if Ascii.eqb c dquote then
            match read_string rest with
            | Some (str, rest') => Some (PStr str, rest')
            | None => None
            end
          else read_number s'
      | EmptyString => None
      end
  end
with read_elements (fuel : nat) (s : string) : option (list pyval * string) :=
  match fuel with
  | O => None
  | S fuel =>
      match read_value fuel s with
      | Some (v, rest) =>
          match skip_spaces rest with
          | String "," rest' =>
              match read_elements fuel rest' with
              | Some (l, rest'') => Some (v :: l, rest'')
              | None => None
              end
          | String "]" rest' => Some ([v], rest')
          | _ => None
          end
      | None => None
      end
  end
with read_members (fuel : nat) (s : string) : option (list (string * pyval) * string) :=
  match fuel with
  | O => None
  | S fuel =>
      match skip_spaces s with
      | String c rest =>
          if Ascii.eqb c dquote then
            match read_string rest with
            | Some (key, rest1) =>
                match skip_spaces rest1 with
                | String ":" rest2 =>
                    match read_value fuel rest2 with
                    | Some (v, rest3) =>
                        match skip_spaces rest3 with
                        | String "," rest4 =>
                            match read_members fuel rest4 with
                            | Some (items, rest5) => Some ((key, v) :: items, rest5)
                            | None => None
                            end
                        | String "}" rest4 => Some ([(key, v)], rest4)
                        | _ => None
                        end
                    | None => None
                    end
                | _ => None
                end
            | None => None
            end
          else None
      | EmptyString => None
      end
  end.

Definition json_loads (s : string) : option pyval :=
  match read_value (S (String.length s)) s with
  | Some (v, rest) =>
      match skip_spaces rest with
      | EmptyString => Some v
      | _ => None
      end
  | None => None
  end.

Definition decode_utf8 (s : string) : option string :=
  if forallb (fun c => (nat_of_ascii c <? 128)%nat) (list_ascii_of_string s)
  then Some s else None.

(** The day number, counted from 0001-01-01, of a date of the proleptic
    Gregorian calendar. *)
Definition days_from_civil (y m d : Z) : Z :=
  let y := if m <=? 2 then y - 1 else y in
  let era := y / 400 in
  let yoe := y - era * 400 in
  let doy := (153 * (if m >? 2 then m - 3 else m + 9) + 2) / 5 + d - 1 in
  let doe := yoe * 365 + yoe / 4 - yoe / 100 + doy in
  era * 146097 + doe - 306.

Definition is_leap (y : Z) : bool :=
  (y mod 4 =? 0) && (negb (y mod 100 =? 0) || (y mod 400 =? 0)).

Definition days_in_month (y m : Z) : Z :=
  if m =? 2 then (if is_leap y then 29 else 28)
  else if (m =? 4) || (m =? 6) || (m =? 9) || (m =? 11) then 30
  else 31.

(** Exactly [width] digits, then the rest. *)
Definition read_field (width : nat) (s : string) : option (Z * string) :=
  let '(n, count, rest) := read_digits (String.substring 0 width s) 0 O in
  if (count =? width)%nat && (String.length (String.substring 0 width s) =? width)%nat
  then Some (n, String.substring width (String.length s - width) s)
  else None.

Definition expect (c : ascii) (s : string) : option string :=
  match s with
  | String c' rest => if Ascii.eqb c c' then Some rest else None
  | EmptyString => None
  end.

(** [YYYY-MM-DDTHH:MM:SS], then [.ffffff] or nothing, then [+HH:MM],
    [-HH:MM] or nothing. *)
Definition fromisoformat (s : string) : option datetime :=
  '(y, s) ← read_field 4 s; s ← expect "-" s;
  '(m, s) ← read_field 2 s; s ← expect "-" s;
  '(d, s) ← read_field 2 s; s ← expect "T" s;
  '(hh, s) ← read_field 2 s; s ← expect ":" s;
  '(mm, s) ← read_field 2 s; s ← expect ":" s;
  '(ss, s) ← read_field 2 s;
  '(us, s) ← match s with
             | String "." rest => read_field 6 rest
             | _ => Some (0, s)
             end;
  if (1 <=? y) && (1 <=? m) && (m <=? 12) && (1 <=? d) && (d <=? days_in_month y m)
     && (hh <? 24) && (mm <? 60) && (ss <? 60)
  then
    let t := days_from_civil y m d * DAY + hh * HOUR + mm * 60 * SECOND + ss * SECOND + us in
    match s with
    | EmptyString => Some (Naive t)
    | String sign rest =>
        if Ascii.eqb sign "+" || Ascii.eqb sign "-" then
          '(oh, rest) ← read_field 2 rest; rest ← expect ":" rest;
          '(om, rest) ← read_field 2 rest;
          match rest with
          | EmptyString =>
              if (oh <? 24) && (om <? 60) then
                let offset := (oh * 60 + om) * 60 * SECOND in
                Some (Aware t (if Ascii.eqb sign "-" then - offset else offset))
              else None
          | _ => None
          end
        else None
    end
  else None.

(** Signed forms and URLs are opaque to the handlers; these stand-ins keep
    what they were computed from visible. *)
Definition presigned_post (key content_type : string) (max_size expires_in : Z) : pyval :=
  PDict [("url", PStr "https://file-sharing-system.s3.amazonaws.com/");
         ("fields", PDict [("Content-Type", PStr content_type); ("key", PStr key)])].

Definition presigned_url (key disposition : string) (expires_in : Z) : string :=
  "https://file-sharing-system.s3.amazonaws.com/" +:+ key.

(** No example formats a float or a container. *)
Definition repr_compound (v : pyval) : string := json_dumps v.

Definition rt : runtime :=
  Build_runtime decode_utf8 json_loads json_dumps fromisoformat repr_compound
    presigned_post presigned_url.

End Sample.

(** ** Vocabulary of the statements *)

(** The world once [datetime.utcnow()] has been read once more. *)
Definition tick (w : world) : world := set_reads (S (reads w)) w.

(** The failure classes of the retry policy. *)
Definition transient (e : exn) : bool :=
  match e with
  | ClientError code _ => existsb (String.eqb code) TRANSIENT_CODES
  | _ => false
  end.

Definition not_found (e : exn) : bool :=
  match e with
  | ClientError code _ => String.eqb code "NoSuchKey"
  | _ => false
  end.

(** What the client call number [i] from now (counting from 0) meets. *)
Definition call_fault (w : world) (i : nat) : option exn :=
  match faults w !! i with
  | Some (Some e) => Some e
  | _ => None
  end.

(** [n] attempts of [call], the first being attempt number [attempt], with
    a sleep of [2 ^ attempt] seconds after every attempt but the last. *)
Fixpoint retry_trace (call : action) (attempt n : nat) : list action :=
  match n with
  | O => []
  | S O => [call]
  | S n' => call :: Sleep (2 ^ Z.of_nat attempt) :: retry_trace call (S attempt) n'
  end.

(** The responses the handlers give for an unexpected failure and for an
    identifier without metadata. *)
Definition internal_error (rt : runtime) : response :=
  error_response rt 500 "An internal server error occurred".

Definition file_not_found (rt : runtime) : response :=
  error_response rt 404 "File not found".

(** A response whose body is a JSON object with one [error] string. *)
Definition error_shaped (rt : runtime) (r : response) : Prop :=
  exists message, body r = json_dumps rt (PDict [("error", PStr message)]).

(** A response whose body is a JSON object. *)
Definition json_bodied (rt : runtime) (r : response) : Prop :=
  exists items, body r = json_dumps rt (PDict items).

(** The identifier a download event asks for: [event['pathParameters']['file_id']]. *)
Definition requested_file_id (event : pyval) : option pyval :=
  match event with
  | PDict items =>
      match assoc_get "pathParameters" items with
      | Some (PDict path_parameters) => assoc_get "file_id" path_parameters
      | _ => None
      end
  | _ => None
  end.

(** The download handler, started in [w] for [file_id], finds the metadata
    record [metadata]: its get, retries included, returns an object whose
    body is the JSON text of the dict [metadata]; [w'] is the world right
    after the get. *)
Definition reads_metadata (rt : runtime) (file_id : pyval) (w : world)
    (metadata : list (string * pyval)) (w' : world) : Prop :=
  exists obj text,
    Download.s3_get_with_retry (format_value rt file_id +:+ "/metadata.json")
      Download.MAX_RETRIES (tick w) = (Returned (Some obj), w') /\
    decode_utf8 rt (Body obj) = Some text /\
    json_loads rt text = Some (PDict metadata).

(** The download handler, started in [w] for [file_id], finds no metadata
    record. *)
Definition finds_no_metadata (rt : runtime) (file_id : pyval) (w w' : world) : Prop :=
  Download.s3_get_with_retry (format_value rt file_id +:+ "/metadata.json")
    Download.MAX_RETRIES (tick w) = (Returned None, w').

(** [datetime.fromisoformat] raises on [v]. *)
Definition unparseable (rt : runtime) (v : pyval) : Prop :=
  match v with
  | PStr s => fromisoformat rt s = None
  | _ => True
  end.

(** The fields of the request an upload event carries, when its body is a
    dict or the JSON text of one. *)
Definition request_fields (rt : runtime) (event : pyval) : option (list (string * pyval)) :=
  match event with
  | PDict items =>
      match assoc_get "body" items with
      | Some (PStr s) =>
          match json_loads rt s with
          | Some (PDict fields) => Some fields
          | _ => None
          end
      | Some (PDict fields) => Some fields
      | Some _ => None
      | None => Some []
      end
  | _ => None
  end.

(** The timestamp the sweeper reads as the expiration time of the item
    [file_id] in the bucket [m]: the metadata record is there, is the JSON
    text of a dict, and its [expiration_time] is a string that
    [datetime.fromisoformat] accepts; the timestamp is naive or carries a
    UTC offset.  [None]: the record is absent or unreadable, or has no
    such string. *)
Definition expiration_of (rt : runtime) (m : gmap string s3_object) (file_id : string)
    : option datetime :=
  match m !! (file_id +:+ "/metadata.json") with
  | Some obj =>
      match decode_utf8 rt (Body obj) with
      | Some text =>
          match json_loads rt text with
          | Some (PDict items) =>
              match assoc_get "expiration_time" items with
              | Some (PStr s) => fromisoformat rt s
              | _ => None
              end
          | _ => None
          end
      | None => None
      end
  | None => None
  end.

(** The keys of the item [file_id] in the bucket [m], as S3 lists them. *)
Definition item_keys (m : gmap string s3_object) (file_id : string) : list string :=
  List.filter (String.prefix (file_id +:+ "/")) (sorted_keys m).

(** The keys of the item fit in one [DeleteObjects] request. *)
Definition deletable (m : gmap string s3_object) (file_id : string) : bool :=
  (length (item_keys m file_id) <=? MAX_DELETE_KEYS)%nat.

(** The prefixes the sweeper goes through, over all pages. *)
Definition item_prefixes (m : gmap string s3_object) : list string :=
  CommonPrefixes (listing_entries m).

(** The sweep as a sequence of steps: the fetch of a page, or the turn of
    the inner loop for one prefix. *)
Inductive step : Type :=
| Fetch
| Item (prefix : string).

Definition steps_of_page (page : list string) : list step :=
  Fetch :: List.map Item (CommonPrefixes page).

Definition items_of (l : list step) : list string :=
  omap (fun s => match s with Item p => Some p | Fetch => None end) l.

Definition run_step (rt : runtime) (counts : Z * Z) (s : step) : M (Z * Z) :=
  match s with
  | Fetch => fetch_common_prefixes ;;; ret counts
  | Item prefix => Cleanup.process_prefix rt counts prefix
  end.

(** [key] is an object of the item [file_id]: it starts with [file_id],
    which has no ["/"], followed by ["/"]. *)
Definition belongs_to (key file_id : string) : Prop :=
  common_prefix key = Some (file_id +:+ "/").

(** The response of the cleanup handler to a failure of the sweep as a
    whole. *)
Definition sweep_failed (rt : runtime) (e : exn) : response :=
  {| statusCode := 500;
     headers := None;
     body := json_dumps rt (PDict [("error", PStr ("An error occurred: " +:+ str_exn e))]) |}.

(** The seconds slept in a trace of calls. *)
Fixpoint total_sleep (l : list action) : Z :=
  match l with
  | [] => 0
  | Sleep seconds :: rest => seconds + total_sleep rest
  | _ :: rest => total_sleep rest
  end.

(** The worlds [w] and [w'] hold the same bucket, clock and identifier
    source: they differ at most in the log and the failure schedule. *)
Definition same_state (w w' : world) : Prop :=
  objects w' = objects w /\ clock w' = clock w /\ reads w' = reads w /\
  uuids w' = uuids w /\ minted w' = minted w.

(** A computation that leaves the bucket as it found it. *)
Definition read_only {A : Type} (c : M A) : Prop :=
  forall w o w', c w = (o, w') -> objects w' = objects w.

(** The key of the content object the download handler looks for. *)
Definition content_key (rt : runtime) (file_id : pyval) (metadata : list (string * pyval))
    : string :=
  format_value rt file_id +:+ "/" +:+ format_value rt (dict_get "original_filename" metadata).

(** The [ResponseContentDisposition] the download handler asks for. *)
Definition content_disposition (rt : runtime) (metadata : list (string * pyval)) : string :=
  "attachment; filename=" +:+
  String (ascii_of_nat 34) (format_value rt (dict_get "original_filename" metadata))
  +:+ String (ascii_of_nat 34) EmptyString.

(** The metadata record the upload handler builds from the fields of a
    request, the expiration time and the upload time. *)
Definition metadata_record (rt : runtime) (fields : list (string * pyval))
    (expiration_time upload_time : Z) : pyval :=
  PDict [("original_filename", dict_get "filename" fields);
         ("content_type", dict_get "content_type" fields);
         ("expiration_time", PStr (isoformat expiration_time));
         ("upload_time", PStr (isoformat upload_time));
         ("file_size", PStr (format_value rt (dict_get "file_size" fields)))].

(** The object the upload handler puts at [{file_id}/metadata.json]. *)
Definition metadata_object (rt : runtime) (fields : list (string * pyval))
    (expiration_time upload_time : Z) : s3_object :=
  {| Body := json_dumps rt (metadata_record rt fields expiration_time upload_time);
     ContentType := Some "application/json";
     Metadata := [] |}.

(** The world in which the upload handler, started in [w] with a request
    it accepts, makes its put: the clock has been read three times and one
    identifier has been minted. *)
Definition before_put (w : world) : world :=
  tick (tick (set_minted (S (minted w)) (tick w))).

(** The key of the content object an accepted upload is signed for. *)
Definition upload_key (rt : runtime) (file_id : string) (fields : list (string * pyval))
    : string :=
  file_id +:+ "/" +:+ format_value rt (dict_get "filename" fields).

(** The response to an accepted upload. *)
Definition upload_accepted (rt : runtime) (file_id : string) (fields : list (string * pyval))
    (expiration_time : Z) : response :=
  {| statusCode := 200;
     headers := Some JSON_HEADERS;
     body := json_dumps rt
               (PDict [("file_id", PStr file_id);
                       ("upload_data",
                        presigned_post rt (upload_key rt file_id fields)
                          (format_value rt (dict_get "content_type" fields))
                          Upload.MAX_FILE_SIZE Upload.UPLOAD_URL_EXPIRY);
                       ("download_path", PStr ("/download/" +:+ file_id));
                       ("expiration_time", PStr (isoformat expiration_time))]) |}.

(** The fields of a request pass the five checks of the upload handler. *)
Definition accepted (fields : list (string * pyval)) : bool :=
  truthy (dict_get "filename" fields) &&
  truthy (dict_get "content_type" fields) &&
  truthy (dict_get "file_size" fields) &&
  isinstance_int (dict_get "file_size" fields) &&
  (int_value (dict_get "file_size" fields) <=? Upload.MAX_FILE_SIZE) &&
  in_strings (dict_get "content_type" fields) Upload.ALLOWED_CONTENT_TYPES.

(** ** Scenarios

    Concrete worlds and events on which the handlers are run. *)

Module Scenario.

(** 2024-01-01T00:00:00 *)
Definition T2024 : Z := 738885 * DAY.

(** A clock that advances by one microsecond between two of its first
    readings. *)
Definition ticking (n : nat) : Z :=
  match n with
  | O => T2024
  | 1%nat => T2024 + 1
  | 2%nat => T2024 + 2
  | _ => T2024 + 3
  end.

Definition frozen (n : nat) : Z := T2024.

Definition uuid_source (n : nat) : string :=
  match n with
  | O => "uuid-0"
  | _ => "uuid-1"
  end.

Definition object_of (body : string) : s3_object :=
  {| Body := body; ContentType := None; Metadata := [] |}.

Definition bucket (l : list (string * string)) : gmap string s3_object :=
  list_to_map (List.map (fun kv => (fst kv, object_of (snd kv))) l).

Definition world_of (l : list (string * string)) (fs : list (option exn)) (clk : nat -> Z) : world :=
  {| objects := bucket l; faults := fs; log := []; clock := clk; reads := O;
     uuids := uuid_source; minted := O |}.

(** The metadata text the upload handler writes. *)
Definition metadata_text (filename content_type expiration_time upload_time file_size : string) : string :=
  Sample.json_dumps
    (PDict [("original_filename", PStr filename); ("content_type", PStr content_type);
            ("expiration_time", PStr expiration_time); ("upload_time", PStr upload_time);
            ("file_size", PStr file_size)]).

Definition download_event (file_id : string) : pyval :=
  PDict [("pathParameters", PDict [("file_id", PStr file_id)])].

(** An API Gateway event: the body is JSON text. *)
Definition upload_event (filename content_type : string) (file_size : pyval) : pyval :=
  PDict [("body", PStr (Sample.json_dumps
                          (PDict [("filename", PStr filename);
                                  ("content_type", PStr content_type);
                                  ("file_size", file_size)])))].

(** An item that expired a year ago, content included. *)
Definition expired_item : list (string * string) :=
  [("abc/metadata.json",
    metadata_text "a.txt" "text/plain" "2023-01-02T00:00:00" "2023-01-01T00:00:00" "100");
   ("abc/a.txt", "hello")].

(** An item that is still live but whose content was never uploaded. *)
Definition item_without_content : list (string * string) :=
  [("abc/metadata.json",
    metadata_text "a.txt" "text/plain" "2024-01-02T00:00:00" "2024-01-01T00:00:00" "100")].

(** An item whose expiration time is not a timestamp. *)
Definition item_with_bad_expiration : list (string * string) :=
  [("abc/metadata.json",
    metadata_text "a.txt" "text/plain" "tomorrow" "2024-01-01T00:00:00" "100");
   ("abc/a.txt", "hello")].

(** An item whose metadata record is not JSON text. *)
Definition item_with_corrupt_metadata : list (string * string) :=
  [("abc/metadata.json", "{{{"); ("abc/a.txt", "hello")].

(** A live item, an expired one, one with a corrupted metadata record, one
    without any, and an object outside every item. *)
Definition mixed_items : list (string * string) :=
  [("live/metadata.json",
    metadata_text "b.txt" "text/plain" "2024-01-01T12:00:00" "2023-12-31T12:00:00" "5");
   ("live/b.txt", "world");
   ("old/metadata.json",
    metadata_text "a.txt" "text/plain" "2023-01-02T00:00:00" "2023-01-01T00:00:00" "100");
   ("old/a.txt", "hello");
   ("bad/metadata.json", "{{{");
   ("bad/c.txt", "x");
   ("orphan/d.txt", "y");
   ("readme", "z")].

(** A live item with its content. *)
Definition live_item : list (string * string) :=
  [("abc/metadata.json",
    metadata_text "a.txt" "text/plain" "2024-01-02T00:00:00" "2024-01-01T00:00:00" "100");
   ("abc/a.txt", "hello")].

(** An item whose expiration time, long past, carries a UTC offset. *)
Definition item_with_offset : list (string * string) :=
  [("abc/metadata.json",
    metadata_text "a.txt" "text/plain" "2023-01-02T00:00:00+00:00" "2023-01-01T00:00:00" "100");
   ("abc/a.txt", "hello")].

Definition AccessDenied : exn :=
  ClientError "AccessDenied"
    "An error occurred (AccessDenied) when calling the ListObjectsV2 operation: Access Denied".

Definition Throttled : exn :=
  ClientError "Throttling"
    "An error occurred (Throttling) when calling the ListObjectsV2 operation: Rate exceeded".

Definition SlowDown : exn :=
  ClientError "SlowDown"
    "An error occurred (SlowDown) when calling the GetObject operation: Please reduce your request rate.".

End Scenario.

(** * Properties *)

(** ** The text of numbers and timestamps *)

Example isoformat_2024 : isoformat ((738886 - 1) * DAY) = "2024-01-01T00:00:00".
Proof. vm_compute. reflexivity. Qed.
Example isoformat_leap : isoformat ((738886 + 59 - 1) * DAY + 23 * HOUR + 59 * 60 * SECOND + 59 * SECOND + 5)
  = "2024-02-29T23:59:59.000005".
Proof. vm_compute. reflexivity. Qed.
Example isoformat_max : isoformat DATETIME_MAX = "9999-12-31T23:59:59.999999".
Proof. vm_compute. reflexivity. Qed.
Example isoformat_min : isoformat 0 = "0001-01-01T00:00:00".
Proof. vm_compute. reflexivity. Qed.
Example str_of_int_ex : str_of_int (-10485761) = "-10485761" /\ str_of_int 0 = "0" /\ str_of_int 100 = "100".
Proof. vm_compute. auto. Qed.

(** ** Computations *)

Lemma bind_Returned {A B : Type} (c : M A) (k : A -> M B) (w w' : world) (b : B) :
  bind c k w = (Returned b, w') ->
  exists a w1, c w = (Returned a, w1) /\ k a w1 = (Returned b, w').
Proof.
  unfold bind. destruct (c w) as [[a|e] w1]; intros H.
  - eauto.
  - discriminate.
Qed.

Lemma bind_eq {A B : Type} (c : M A) (k : A -> M B) (w w1 : world) (a : A) :
  c w = (Returned a, w1) -> bind c k w = k a w1.
Proof. unfold bind. intros ->. reflexivity. Qed.

Lemma bind_raised {A B : Type} (c : M A) (k : A -> M B) (w w1 : world) (e : exn) :
  c w = (Raised e, w1) -> bind c k w = (Raised e, w1).
Proof. unfold bind. intros ->. reflexivity. Qed.

Ltac bind_inv H :=
  let a := fresh "a" in
  let w1 := fresh "w" in
  let Hc := fresh "Hc" in
  apply bind_Returned in H; destruct H as (a & w1 & Hc & H).

Ltac finish_attempt :=
  repeat apply conj;
  try (intros; lia); try reflexivity; try assumption; try (simpl in *; congruence).

(** ** The retry loops *)

Lemma call_fault_cons (w : world) (f : option exn) (rest : list (option exn)) (w1 : world) (i : nat) :
  faults w = f :: rest -> faults w1 = rest -> call_fault w (S i) = call_fault w1 i.
Proof. unfold call_fault. intros -> ->. reflexivity. Qed.

Lemma retry_trace_step (call : action) (attempt n : nat) :
  (1 <= n)%nat ->
  retry_trace call attempt (S n) =
  call :: Sleep (2 ^ Z.of_nat attempt) :: retry_trace call (S attempt) n.
Proof. destruct n; [lia | reflexivity]. Qed.

Lemma get_loop_spec (key : string) (left : nat) :
  forall (retries : nat) (w : world),
  (1 <= left)%nat ->
  exists (n : nat) (r : outcome (option s3_object)) (w' : world),
    Download.get_loop key left retries w = (r, w') /\
    (1 <= n <= left)%nat /\
    log w' = (log w ++ retry_trace (GetObject key) (S retries) n)%list /\
    faults w' = drop n (faults w) /\
    objects w' = objects w /\
    (forall i, (i < n - 1)%nat -> exists e, call_fault w i = Some e /\ transient e = true) /\
    match call_fault w (n - 1) with
    | Some e =>
        if not_found e then r = Returned None
        else r = Raised e /\ (transient e = true -> n = left)
    | None => r = Returned (objects w !! key)
    end.
Proof.
  induction left as [|left IH]; intros retries w Hleft; [lia|].
  simpl. unfold try_except, bind, get_object, client_call, bind.
  destruct (faults w) as [|[e|] rest] eqn:Hf.
  - (* the schedule is used up: the call is served *)
    exists 1%nat. simpl. unfold call_fault. rewrite Hf. simpl.
    destruct (objects w !! key) eqn:Hk; simpl; rewrite ?Hk; simpl;
      eexists _, _; (split; [reflexivity|]); simpl;
      finish_attempt.
  - (* the call raises [e] *)
    simpl.
    destruct e as [code msg|k|cls msg];
      try (exists 1%nat; eexists _, _; (split; [reflexivity|]); simpl;
           unfold call_fault; rewrite Hf; simpl;
           finish_attempt).
    destruct (String.eqb code "NoSuchKey") eqn:Hnf.
    { exists 1%nat; eexists _, _; (split; [reflexivity|]); simpl;
        unfold call_fault; rewrite Hf; simpl; rewrite Hnf.
      finish_attempt. }
    destruct (existsb (String.eqb code) TRANSIENT_CODES) eqn:Ht;
      pose proof Ht as Ht'; simpl in Ht'; rewrite Ht'; clear Ht'.
    2: { exists 1%nat; eexists _, _; (split; [reflexivity|]); simpl;
           unfold call_fault; rewrite Hf; simpl; rewrite Hnf.
         finish_attempt. }
    destruct left as [|left'].
    { exists 1%nat; eexists _, _; (split; [reflexivity|]); simpl;
        unfold call_fault; rewrite Hf; simpl; rewrite Hnf.
      finish_attempt. }
    set (w2 := add_log (Sleep (2 ^ Z.of_nat (S retries)))
                 (set_faults rest (add_log (GetObject key) w))).
    destruct (IH (S retries) w2 ltac:(lia)) as (n & r & w' & Hrun & Hn & Hlog & Hfa & Hobj & Hpre & Hlast).
    exists (S n), r, w'. split; [exact Hrun|].
    split; [lia|]. split.
    { rewrite Hlog. rewrite retry_trace_step by lia. subst w2. simpl.
      rewrite <- !app_assoc. reflexivity. }
    split; [rewrite Hfa; reflexivity|].
    split; [rewrite Hobj; reflexivity|].
    split.
    { intros i Hi. destruct i as [|i].
      - exists (ClientError code msg). unfold call_fault. rewrite Hf. simpl. auto.
      - rewrite (call_fault_cons w (Some (ClientError code msg)) rest w2 i Hf eq_refl).
        apply Hpre. lia. }
    replace (S n - 1)%nat with (S (n - 1)) by lia.
    rewrite (call_fault_cons w (Some (ClientError code msg)) rest w2 (n - 1) Hf eq_refl).
    destruct (call_fault w2 (n - 1)) as [e|].
    + destruct (not_found e); [exact Hlast|].
      destruct Hlast as [Hr Hb]. split; [exact Hr|]. intros He. rewrite (Hb He). reflexivity.
    + exact Hlast.
  - (* the call goes through *)
    exists 1%nat. simpl. unfold call_fault. rewrite Hf. simpl.
    destruct (objects w !! key) eqn:Hk; simpl; rewrite ?Hk; simpl;
      eexists _, _; (split; [reflexivity|]); simpl;
      finish_attempt.
Qed.

Lemma put_loop_spec (key : string) (obj : s3_object) (left : nat) :
  forall (retries : nat) (w : world),
  (1 <= left)%nat ->
  exists (n : nat) (r : outcome pyval) (w' : world),
    Upload.put_loop key obj left retries w = (r, w') /\
    (1 <= n <= left)%nat /\
    log w' = (log w ++ retry_trace (PutObject key obj) (S retries) n)%list /\
    faults w' = drop n (faults w) /\
    (forall i, (i < n - 1)%nat -> exists e, call_fault w i = Some e /\ transient e = true) /\
    match call_fault w (n - 1) with
    | Some e =>
        r = Raised e /\ (transient e = true -> n = left) /\ objects w' = objects w
    | None => r = Returned (PBool true) /\ objects w' = <[key := obj]> (objects w)
    end.
Proof.
  induction left as [|left IH]; intros retries w Hleft; [lia|].
  simpl. unfold try_except, bind, put_object, client_call, bind.
  destruct (faults w) as [|[e|] rest] eqn:Hf.
  - exists 1%nat. simpl. unfold call_fault. rewrite Hf. simpl.
    eexists _, _; (split; [reflexivity|]); simpl. finish_attempt.
  - simpl.
    destruct e as [code msg|k|cls msg];
      try (exists 1%nat; eexists _, _; (split; [reflexivity|]); simpl;
           unfold call_fault; rewrite Hf; simpl; finish_attempt).
    destruct (existsb (String.eqb code) TRANSIENT_CODES) eqn:Ht;
      pose proof Ht as Ht'; simpl in Ht'; rewrite Ht'; clear Ht'.
    2: { exists 1%nat; eexists _, _; (split; [reflexivity|]); simpl;
           unfold call_fault; rewrite Hf; simpl. finish_attempt. }
    destruct left as [|left'].
    { exists 1%nat; eexists _, _; (split; [reflexivity|]); simpl;
        unfold call_fault; rewrite Hf; simpl. finish_attempt. }
    set (w2 := add_log (Sleep (2 ^ Z.of_nat (S retries)))
                 (set_faults rest (add_log (PutObject key obj) w))).
    destruct (IH (S retries) w2 ltac:(lia)) as (n & r & w' & Hrun & Hn & Hlog & Hfa & Hpre & Hlast).
    exists (S n), r, w'. split; [exact Hrun|].
    split; [lia|]. split.
    { rewrite Hlog. rewrite retry_trace_step by lia. subst w2. simpl.
      rewrite <- !app_assoc. reflexivity. }
    split; [rewrite Hfa; reflexivity|].
    split.
    { intros i Hi. destruct i as [|i].
      - exists (ClientError code msg). unfold call_fault. rewrite Hf. simpl. auto.
      - rewrite (call_fault_cons w (Some (ClientError code msg)) rest w2 i Hf eq_refl).
        apply Hpre. lia. }
    replace (S n - 1)%nat with (S (n - 1)) by lia.
    rewrite (call_fault_cons w (Some (ClientError code msg)) rest w2 (n - 1) Hf eq_refl).
    destruct (call_fault w2 (n - 1)) as [e|].
    + destruct Hlast as (Hr & Hb & Ho). split; [exact Hr|]. split; [|exact Ho].
      intros He. rewrite (Hb He). reflexivity.
    + exact Hlast.
  - exists 1%nat. simpl. unfold call_fault. rewrite Hf. simpl.
    eexists _, _; (split; [reflexivity|]); simpl. finish_attempt.
Qed.

(** Three transient failures in a row: three calls, a sleep of 2 and of 4
    seconds between them, and the last failure is raised. *)
Example get_gives_up_after_three_attempts :
  let w := Scenario.world_of Scenario.expired_item
             [Some Scenario.SlowDown; Some Scenario.SlowDown; Some Scenario.SlowDown]
             Scenario.ticking in
  let result := Download.s3_get_with_retry "abc/metadata.json" Download.MAX_RETRIES w in
  fst result = Raised Scenario.SlowDown /\
  log (snd result)
  = [GetObject "abc/metadata.json"; Sleep 2; GetObject "abc/metadata.json"; Sleep 4;
     GetObject "abc/metadata.json"].
Proof. vm_compute. split; reflexivity. Qed.

(** Two transient failures, then the object. *)
Example get_succeeds_on_third_attempt :
  let w := Scenario.world_of Scenario.expired_item
             [Some Scenario.SlowDown; Some Scenario.SlowDown] Scenario.ticking in
  let result := Download.s3_get_with_retry "abc/metadata.json" Download.MAX_RETRIES w in
  fst result = Returned (objects w !! "abc/metadata.json") /\
  log (snd result)
  = [GetObject "abc/metadata.json"; Sleep 2; GetObject "abc/metadata.json"; Sleep 4;
     GetObject "abc/metadata.json"].
Proof. vm_compute. split; reflexivity. Qed.
(** C6.  The retry policy of the object store client.  A put or a get makes
    [n] calls, at least one and at most [MAX_RETRIES = 3]; between two
    calls it sleeps [2 ^ attempt] seconds, [attempt] being the number of
    the call that failed; every call but the last met a transient failure
    ([SlowDown], [InternalError], [ServiceUnavailable]).  The last call
    decides the result: a get that finds no object or meets [NoSuchKey]
    returns [None] at once; any other failure is raised to the caller, at
    once unless it is transient, in which case all three calls were used. *)
Theorem retry_policy (key : string) (body : option string)
    (metadata : option (list (string * string))) (content_type : option string) (w : world) :
  let obj := {| Body := match body with Some b => b | None => EmptyString end;
                ContentType := content_type;
                Metadata := match metadata with Some m => m | None => [] end |} in
  (exists (n : nat) (r : outcome pyval) (w' : world),
     Upload.s3_put_with_retry key body metadata content_type Upload.MAX_RETRIES w = (r, w') /\
     (1 <= n <= 3)%nat /\
     log w' = (log w ++ retry_trace (PutObject key obj) 1 n)%list /\
     faults w' = drop n (faults w) /\
     (forall i, (i < n - 1)%nat -> exists e, call_fault w i = Some e /\ transient e = true) /\
     match call_fault w (n - 1) with
     | Some e => r = Raised e /\ (transient e = true -> n = 3%nat) /\ objects w' = objects w
     | None => r = Returned (PBool true) /\ objects w' = <[key := obj]> (objects w)
     end) /\
  (exists (n : nat) (r : outcome (option s3_object)) (w' : world),
     Download.s3_get_with_retry key Download.MAX_RETRIES w = (r, w') /\
     (1 <= n <= 3)%nat /\
     log w' = (log w ++ retry_trace (GetObject key) 1 n)%list /\
     faults w' = drop n (faults w) /\
     objects w' = objects w /\
     (forall i, (i < n - 1)%nat -> exists e, call_fault w i = Some e /\ transient e = true) /\
     match call_fault w (n - 1) with
     | Some e =>
         if not_found e then r = Returned None
         else r = Raised e /\ (transient e = true -> n = 3%nat)
     | None => r = Returned (objects w !! key)
     end).
Proof.
  intros obj. split.
  - apply (put_loop_spec key obj Upload.MAX_RETRIES 0 w). unfold Upload.MAX_RETRIES. lia.
  - apply (get_loop_spec key Download.MAX_RETRIES 0 w). unfold Download.MAX_RETRIES. lia.
Qed.

(** ** Totality of the handlers *)

Lemma upload_try_returns (rt : runtime) (event : pyval) (w w' : world) (r : response) :
  Upload.lambda_handler_try rt event w = (Returned r, w') ->
  (statusCode r = 200 /\ headers r = Some JSON_HEADERS /\ json_bodied rt r) \/
  (exists message, r = error_response rt 400 message).
Proof.
  unfold Upload.lambda_handler_try. intros H.
  bind_inv H. bind_inv H. unfold Upload.process_request in H.
  repeat match type of H with
         | (if ?c then _ else _) _ = _ => destruct c
         end;
    try (unfold ret in H; injection H as <- <-; right; eauto; fail).
  repeat bind_inv H. unfold ret in H. injection H as <- <-. left.
  repeat split. eexists. reflexivity.
Qed.

Lemma download_try_returns (rt : runtime) (event : pyval) (w w' : world) (r : response) :
  Download.lambda_handler_try rt event w = (Returned r, w') ->
  (statusCode r = 200 /\ headers r = Some JSON_HEADERS /\ json_bodied rt r) \/
  (exists message, r = error_response rt 404 message).
Proof.
  unfold Download.lambda_handler_try. intros H.
  do 3 bind_inv H.
  destruct a1 as [metadata_response|].
  2: { unfold ret in H. injection H as <- <-. right. eauto. }
  do 3 bind_inv H.
  destruct a3.
  { unfold ret in H. injection H as <- <-. right. eauto. }
  bind_inv H. unfold Download.response_truthy in H. simpl in H.
  bind_inv H. unfold ret in H. injection H as <- <-. left.
  repeat split. eexists. reflexivity.
Qed.

Lemma error_response_shaped (rt : runtime) (code : Z) (message : string) :
  error_shaped rt (error_response rt code message).
Proof. exists message. reflexivity. Qed.

Lemma upload_handler_returns (rt : runtime) (event context : pyval) (w : world) :
  exists (r : response) (w' : world),
    Upload.lambda_handler rt event context w = (Returned r, w') /\
    headers r = Some JSON_HEADERS /\ json_bodied rt r /\
    (statusCode r = 200 \/
     (statusCode r = 400 \/ statusCode r = 500) /\ error_shaped rt r).
Proof.
  unfold Upload.lambda_handler, bind, utcnow, try_except.
  destruct (Upload.lambda_handler_try rt event (set_reads (S (reads w)) w))
    as [[r|e] w'] eqn:Htry.
  - exists r, w'. split; [reflexivity|].
    destruct (upload_try_returns rt event _ _ _ Htry) as [(Hs & Hh & Hb)|[message ->]].
    + auto.
    + repeat split; [eexists; reflexivity|].
      right. split; [auto | apply error_response_shaped].
  - eexists _, _. split; [reflexivity|].
    repeat split; [eexists; reflexivity|].
    right. split; [auto | apply error_response_shaped].
Qed.

Lemma download_handler_returns (rt : runtime) (event context : pyval) (w : world) :
  exists (r : response) (w' : world),
    Download.lambda_handler rt event context w = (Returned r, w') /\
    headers r = Some JSON_HEADERS /\ json_bodied rt r /\
    (statusCode r = 200 \/
     (statusCode r = 400 \/ statusCode r = 404 \/ statusCode r = 500) /\ error_shaped rt r).
Proof.
  unfold Download.lambda_handler, bind, utcnow, try_except.
  destruct (Download.lambda_handler_try rt event (set_reads (S (reads w)) w))
    as [[r|e] w'] eqn:Htry.
  - exists r, w'. split; [reflexivity|].
    destruct (download_try_returns rt event _ _ _ Htry) as [(Hs & Hh & Hb)|[message ->]].
    + auto.
    + repeat split; [eexists; reflexivity|].
      right. split; [auto | apply error_response_shaped].
  - destruct (is_KeyError e); eexists _, _; (split; [reflexivity|]);
      (repeat split; [eexists; reflexivity|]);
      right; (split; [auto | apply error_response_shaped]).
Qed.

Lemma cleanup_handler_returns (rt : runtime) (event context : pyval) (w : world) :
  exists (r : response) (w' : world),
    Cleanup.lambda_handler rt event context w = (Returned r, w') /\
    (statusCode r = 200 \/ statusCode r = 500 /\ error_shaped rt r).
Proof.
  unfold Cleanup.lambda_handler, try_except.
  destruct (Cleanup.lambda_handler_try rt w) as [[r|e] w'] eqn:Htry.
  - exists r, w'. split; [reflexivity|]. left.
    unfold Cleanup.lambda_handler_try in Htry.
    bind_inv Htry. bind_inv Htry. destruct a0 as [deleted_count checked_count].
    unfold ret in Htry. injection Htry as <- <-. reflexivity.
  - eexists _, _. split; [reflexivity|]. right. split; [reflexivity|].
    eexists. reflexivity.
Qed.

(** C10.  For every event and every world (whatever the bucket holds and
    whatever failures the client meets) the upload and the download handler
    return a response and raise nothing.  The response has the JSON headers
    and a JSON object as body; its status is 200, or it is 400 or 500 for
    an upload and 400, 404 or 500 for a download, with an [error] string as
    body. *)
Theorem handlers_total (rt : runtime) (event context : pyval) (w : world) :
  (exists (r : response) (w' : world),
     Upload.lambda_handler rt event context w = (Returned r, w') /\
     headers r = Some JSON_HEADERS /\ json_bodied rt r /\
     (statusCode r = 200 \/
      (statusCode r = 400 \/ statusCode r = 500) /\ error_shaped rt r)) /\
  (exists (r : response) (w' : world),
     Download.lambda_handler rt event context w = (Returned r, w') /\
     headers r = Some JSON_HEADERS /\ json_bodied rt r /\
     (statusCode r = 200 \/
      (statusCode r = 400 \/ statusCode r = 404 \/ statusCode r = 500) /\ error_shaped rt r)).
Proof.
  split.
  - apply upload_handler_returns.
  - apply download_handler_returns.
Qed.

(** ** The download handler *)

(** What the handler does up to the expiry test, for a request that names
    an identifier whose metadata record is found. *)
Lemma download_with_metadata (rt : runtime) (event context : pyval) (w w1 : world)
    (file_id : pyval) (metadata : list (string * pyval)) :
  requested_file_id event = Some file_id ->
  reads_metadata rt file_id w metadata w1 ->
  Download.lambda_handler rt event context w =
  try_except
    (expired <- Download.is_file_expired rt (dict_get "expiration_time" metadata) ;;
     if expired then ret (error_response rt 404 "File has expired")
     else
       file_exists_response <-
         head_object (format_value rt file_id +:+ "/"
                        +:+ format_value rt (dict_get "original_filename" metadata)) ;;
       download_url <-
         Download.generate_download_url rt file_id (dict_get "original_filename" metadata) ;;
       ret {| statusCode := 200;
              headers := Some JSON_HEADERS;
              body := json_dumps rt
                        (PDict [("download_url", PStr download_url);
                                ("filename", dict_get "original_filename" metadata);
                                ("content_type", dict_get "content_type" metadata);
                                ("expiration_time", dict_get "expiration_time" metadata)]) |})
    (fun e =>
       if is_KeyError e then
         ret (error_response rt 400 ("Missing required parameter: " +:+ str_exn e))
       else ret (internal_error rt))
    w1.
Proof.
  intros Hid (obj & text & Hget & Hdec & Hjson).
  unfold requested_file_id in Hid.
  destruct event as [| | | | |l|items]; try discriminate.
  destruct (assoc_get "pathParameters" items) as [pp|] eqn:Hpp; [|discriminate].
  destruct pp as [| | | | |l|path_parameters]; try discriminate.
  unfold Download.lambda_handler, Download.lambda_handler_try, try_except, bind, utcnow.
  fold (tick w). unfold internal_error. simpl. rewrite Hpp. simpl. rewrite Hid. simpl.
  rewrite Hget. unfold read_json, bind. rewrite Hdec. simpl. rewrite Hjson. simpl.
  destruct (Download.is_file_expired rt (dict_get "expiration_time" metadata) w1)
    as [[[|]|e] w2]; reflexivity.
Qed.

(** The handler for a request that names an identifier without metadata
    record. *)
Lemma download_without_metadata (rt : runtime) (event context : pyval) (w w1 : world)
    (file_id : pyval) :
  requested_file_id event = Some file_id ->
  finds_no_metadata rt file_id w w1 ->
  Download.lambda_handler rt event context w = (Returned (file_not_found rt), w1).
Proof.
  intros Hid Hget. unfold finds_no_metadata in Hget.
  unfold requested_file_id in Hid.
  destruct event as [| | | | |l|items]; try discriminate.
  destruct (assoc_get "pathParameters" items) as [pp|] eqn:Hpp; [|discriminate].
  destruct pp as [| | | | |l|path_parameters]; try discriminate.
  unfold Download.lambda_handler, Download.lambda_handler_try.
  unfold bind at 1. unfold utcnow at 1. fold (tick w).
  unfold try_except, bind at 1. simpl. rewrite Hpp. simpl.
  unfold bind at 1. simpl. rewrite Hid. simpl.
  unfold bind at 1. rewrite Hget. reflexivity.
Qed.

Lemma is_file_expired_unparseable (rt : runtime) (v : pyval) (w : world) :
  unparseable rt v -> Download.is_file_expired rt v w = (Returned true, w).
Proof.
  intros Hv. unfold Download.is_file_expired, try_except, bind, parse_datetime.
  destruct v; try reflexivity.
  simpl in Hv. rewrite Hv. reflexivity.
Qed.

Lemma is_file_expired_naive (rt : runtime) (s : string) (t : Z) (w : world) :
  fromisoformat rt s = Some (Naive t) ->
  Download.is_file_expired rt (PStr s) w = (Returned (clock w (reads w) >? t), tick w).
Proof.
  intros Hs. unfold Download.is_file_expired, try_except, bind, parse_datetime.
  rewrite Hs. reflexivity.
Qed.

(** C7.  When the metadata record of the requested identifier is found and
    its [expiration_time] does not parse as a timestamp (it is not a string,
    or [datetime.fromisoformat] rejects it), the download handler answers
    404 with the error of an expired file; it makes no further client call,
    so nothing is served and the failure is not a server error. *)
Theorem unparseable_expiration_is_expired (rt : runtime) (event context : pyval)
    (w w1 : world) (file_id : pyval) (metadata : list (string * pyval)) :
  requested_file_id event = Some file_id ->
  reads_metadata rt file_id w metadata w1 ->
  unparseable rt (dict_get "expiration_time" metadata) ->
  Download.lambda_handler rt event context w
  = (Returned (error_response rt 404 "File has expired"), w1) /\
  statusCode (error_response rt 404 "File has expired") = 404.
Proof.
  intros Hid Hmeta Hbad. split; [|reflexivity].
  rewrite (download_with_metadata rt event context w w1 file_id metadata Hid Hmeta).
  unfold try_except, bind.
  rewrite (is_file_expired_unparseable rt _ w1 Hbad). reflexivity.
Qed.

Lemma unparseable_expiration_is_expired_witness :
  Download.lambda_handler Sample.rt (Scenario.download_event "abc") PNone
    (Scenario.world_of Scenario.item_with_bad_expiration [] Scenario.ticking)
  = (Returned (error_response Sample.rt 404 "File has expired"),
     add_log (GetObject "abc/metadata.json")
       (tick (Scenario.world_of Scenario.item_with_bad_expiration [] Scenario.ticking))) /\
  statusCode (error_response Sample.rt 404 "File has expired") = 404.
Proof.
  apply (unparseable_expiration_is_expired Sample.rt (Scenario.download_event "abc") PNone
           (Scenario.world_of Scenario.item_with_bad_expiration [] Scenario.ticking) _
           (PStr "abc")
           [("original_filename", PStr "a.txt"); ("content_type", PStr "text/plain");
            ("expiration_time", PStr "tomorrow"); ("upload_time", PStr "2024-01-01T00:00:00");
            ("file_size", PStr "100")]).
  - reflexivity.
  - eexists _, _. split; [vm_compute; reflexivity|].
    split; [vm_compute; reflexivity | vm_compute; reflexivity].
  - vm_compute. reflexivity.
Defined.

(** C1, as amended.  When the metadata record of the requested identifier
    is found and its [expiration_time] parses to a naive timestamp that the
    clock has passed, the download handler answers 404 with the error
    [File has expired]; when no metadata record is found it answers 404
    with the error [File not found].  The two answers have the same status
    and the same headers. *)
Theorem expired_download (rt : runtime) (event context : pyval) (w w1 : world)
    (file_id : pyval) :
  requested_file_id event = Some file_id ->
  (forall (metadata : list (string * pyval)) (s : string) (t : Z),
     reads_metadata rt file_id w metadata w1 ->
     dict_get "expiration_time" metadata = PStr s ->
     fromisoformat rt s = Some (Naive t) ->
     t < clock w1 (reads w1) ->
     Download.lambda_handler rt event context w
     = (Returned (error_response rt 404 "File has expired"), tick w1)) /\
  (finds_no_metadata rt file_id w w1 ->
   Download.lambda_handler rt event context w
   = (Returned (error_response rt 404 "File not found"), w1)) /\
  statusCode (error_response rt 404 "File has expired")
  = statusCode (error_response rt 404 "File not found") /\
  headers (error_response rt 404 "File has expired")
  = headers (error_response rt 404 "File not found").
Proof.
  intros Hid. split; [|split; [|split; reflexivity]].
  - intros metadata s t Hmeta Hexp Hs Hpast.
    rewrite (download_with_metadata rt event context w w1 file_id metadata Hid Hmeta).
    unfold try_except, bind. rewrite Hexp.
    rewrite (is_file_expired_naive rt s t w1 Hs).
    replace (clock w1 (reads w1) >? t) with true by (symmetry; apply Z.gtb_lt; lia).
    reflexivity.
  - intros Hnone. apply (download_without_metadata rt event context w w1 file_id Hid Hnone).
Qed.

Lemma expired_download_witness :
  Download.lambda_handler Sample.rt (Scenario.download_event "abc") PNone
    (Scenario.world_of Scenario.expired_item [] Scenario.ticking)
  = (Returned (error_response Sample.rt 404 "File has expired"),
     tick (add_log (GetObject "abc/metadata.json")
             (tick (Scenario.world_of Scenario.expired_item [] Scenario.ticking)))).
Proof.
  refine (proj1 (expired_download Sample.rt (Scenario.download_event "abc") PNone
                   (Scenario.world_of Scenario.expired_item [] Scenario.ticking) _
                   (PStr "abc") _)
            [("original_filename", PStr "a.txt"); ("content_type", PStr "text/plain");
             ("expiration_time", PStr "2023-01-02T00:00:00");
             ("upload_time", PStr "2023-01-01T00:00:00"); ("file_size", PStr "100")]
            "2023-01-02T00:00:00" (738521 * DAY) _ _ _ _).
  - reflexivity.
  - eexists _, _. split; [vm_compute; reflexivity|].
    split; [vm_compute; reflexivity | vm_compute; reflexivity].
  - reflexivity.
  - vm_compute. reflexivity.
  - vm_compute. reflexivity.
Defined.

(** C1, as stated, fails.  The item [abc] has a metadata record whose
    [expiration_time], 2023-01-02, parses and lies in the past; the handler
    answers with a body that is not the one it gives for an identifier
    without metadata record. *)
Lemma expired_is_told_apart_from_missing :
  let expired := Scenario.world_of Scenario.expired_item [] Scenario.ticking in
  let missing := Scenario.world_of [] [] Scenario.ticking in
  let event := Scenario.download_event "abc" in
  (exists metadata w1 t,
     reads_metadata Sample.rt (PStr "abc") expired metadata w1 /\
     dict_get "expiration_time" metadata = PStr "2023-01-02T00:00:00" /\
     Sample.fromisoformat "2023-01-02T00:00:00" = Some (Naive t) /\
     t < clock w1 (reads w1)) /\
  finds_no_metadata Sample.rt (PStr "abc") missing
    (add_log (GetObject "abc/metadata.json") (tick missing)) /\
  fst (Download.lambda_handler Sample.rt event PNone missing)
  = Returned (error_response Sample.rt 404 "File not found") /\
  fst (Download.lambda_handler Sample.rt event PNone expired)
  = Returned (error_response Sample.rt 404 "File has expired") /\
  body (error_response Sample.rt 404 "File has expired")
  <> body (error_response Sample.rt 404 "File not found").
Proof.
  intros expired missing event. split; [|split; [|split; [|split]]].
  - eexists _, _, _. split; [|split; [|split]].
    + eexists _, _. split; [vm_compute; reflexivity|].
    split; [vm_compute; reflexivity | vm_compute; reflexivity].
    + reflexivity.
    + vm_compute. reflexivity.
    + vm_compute. reflexivity.
  - vm_compute. reflexivity.
  - vm_compute. reflexivity.
  - vm_compute. reflexivity.
  - vm_compute. discriminate.
Qed.

(** What the handler does for a live item whose content object is absent
    when the client meets no failure: [head_object] raises, and the
    exception ends in [except Exception]. *)
Lemma missing_content_is_internal_error (rt : runtime) (event context : pyval)
    (w w1 : world) (file_id : pyval) (metadata : list (string * pyval)) (s : string) (t : Z) :
  requested_file_id event = Some file_id ->
  reads_metadata rt file_id w metadata w1 ->
  dict_get "expiration_time" metadata = PStr s ->
  fromisoformat rt s = Some (Naive t) ->
  clock w1 (reads w1) <= t ->
  faults w1 = [] ->
  objects w1 !! (format_value rt file_id +:+ "/"
                   +:+ format_value rt (dict_get "original_filename" metadata)) = None ->
  fst (Download.lambda_handler rt event context w) = Returned (internal_error rt).
Proof.
  intros Hid Hmeta Hexp Hs Hlive Hfaults Habsent.
  rewrite (download_with_metadata rt event context w w1 file_id metadata Hid Hmeta).
  unfold try_except, bind. rewrite Hexp.
  rewrite (is_file_expired_naive rt s t w1 Hs).
  replace (clock w1 (reads w1) >? t) with false by (symmetry; rewrite Z.gtb_ltb; apply Z.ltb_ge; lia).
  unfold head_object, bind, client_call. simpl. rewrite Hfaults. simpl.
  rewrite Habsent. reflexivity.
Qed.

(** C2, on the code.  The item [abc] has a metadata record that expires
    tomorrow and no content object at [abc/a.txt]; the client meets no
    failure.  The handler answers with the internal error, status 500, and
    not with the 404 of a missing content. *)
Theorem download_without_content :
  let w := Scenario.world_of Scenario.item_without_content [] Scenario.ticking in
  objects w !! "abc/a.txt" = None /\
  Download.lambda_handler Sample.rt (Scenario.download_event "abc") PNone w
  = (Returned (internal_error Sample.rt),
     add_log (HeadObject "abc/a.txt")
       (tick (add_log (GetObject "abc/metadata.json") (tick w)))) /\
  statusCode (internal_error Sample.rt) = 500 /\
  internal_error Sample.rt <> error_response Sample.rt 404 "File content not found".
Proof.
  intros w. split; [|split; [|split]].
  - vm_compute. reflexivity.
  - vm_compute. reflexivity.
  - reflexivity.
  - discriminate.
Qed.

(** ** The upload handler *)

Lemma upload_with_fields (rt : runtime) (event context : pyval) (w : world)
    (fields : list (string * pyval)) :
  request_fields rt event = Some fields ->
  Upload.lambda_handler rt event context w =
  try_except (Upload.process_request rt fields) (fun e => ret (internal_error rt)) (tick w).
Proof.
  intros Hf. unfold request_fields in Hf.
  unfold Upload.lambda_handler, Upload.lambda_handler_try, Upload.request_body,
    try_except, bind, utcnow, dict_items.
  fold (tick w).
  destruct event as [| | | | |l|items]; try discriminate. simpl.
  destruct (assoc_get "body" items) as [[| | | |s|l|b]|]; try discriminate; simpl.
  - destruct (json_loads rt s) as [[| | | | |l|b]|]; try discriminate.
    injection Hf as <-. reflexivity.
  - injection Hf as <-. reflexivity.
  - injection Hf as <-. reflexivity.
Qed.

Lemma upload_without_fields (rt : runtime) (event context : pyval) (w : world) :
  request_fields rt event = None ->
  Upload.lambda_handler rt event context w = (Returned (internal_error rt), tick w).
Proof.
  intros Hf. unfold request_fields in Hf.
  unfold Upload.lambda_handler, Upload.lambda_handler_try, Upload.request_body,
    try_except, bind, utcnow, dict_items.
  fold (tick w).
  destruct event as [| | | | |l|items]; try reflexivity. simpl.
  destruct (assoc_get "body" items) as [[| | | |s|l|b]|]; try discriminate; try reflexivity.
  simpl. destruct (json_loads rt s) as [[| | | | |l|b]|]; try discriminate; reflexivity.
Qed.

(** The checks of the handler, in the order it makes them.  A request that
    fails one is answered 400 with the message of the first check it fails,
    and the handler has done nothing but read the clock. *)
Lemma upload_validation (rt : runtime) (event context : pyval) (w : world)
    (fields : list (string * pyval)) :
  request_fields rt event = Some fields ->
  let filename := dict_get "filename" fields in
  let content_type := dict_get "content_type" fields in
  let file_size := dict_get "file_size" fields in
  let rejected message :=
    Upload.lambda_handler rt event context w = (Returned (error_response rt 400 message), tick w) in
  (truthy filename = false -> rejected "Filename is required") /\
  (truthy filename = true -> truthy content_type = false ->
   rejected "Content type is required") /\
  (truthy filename = true -> truthy content_type = true ->
   truthy file_size = false \/ isinstance_int file_size = false ->
   rejected "Valid file size is required") /\
  (truthy filename = true -> truthy content_type = true ->
   truthy file_size = true -> isinstance_int file_size = true ->
   int_value file_size > Upload.MAX_FILE_SIZE ->
   rejected "File size exceeds the maximum limit of 10.0MB") /\
  (truthy filename = true -> truthy content_type = true ->
   truthy file_size = true -> isinstance_int file_size = true ->
   int_value file_size <= Upload.MAX_FILE_SIZE ->
   in_strings content_type Upload.ALLOWED_CONTENT_TYPES = false ->
   rejected ("Content type " +:+ format_value rt content_type +:+ " is not allowed")).
Proof.
  intros Hf filename content_type file_size rejected. subst rejected. cbv beta.
  rewrite (upload_with_fields rt event context w fields Hf).
  unfold try_except, Upload.process_request.
  fold filename content_type file_size.
  repeat apply conj.
  - intros ->. reflexivity.
  - intros -> ->. reflexivity.
  - intros -> -> [-> | ->]; simpl; [reflexivity|].
    rewrite orb_true_r. reflexivity.
  - intros -> -> -> -> Hbig. simpl.
    replace (int_value file_size >? Upload.MAX_FILE_SIZE) with true
      by (symmetry; apply Z.gtb_lt; lia).
    reflexivity.
  - intros -> -> -> -> Hsmall ->. simpl.
    replace (int_value file_size >? Upload.MAX_FILE_SIZE) with false
      by (symmetry; rewrite Z.gtb_ltb; apply Z.ltb_ge; lia).
    reflexivity.
Qed.

(** A request is turned down with status 400, before any client call, when
    its [file_size] is an integer above 10 MiB. *)
Lemma upload_rejects_oversized (rt : runtime) (event context : pyval) (w : world)
    (fields : list (string * pyval)) (n : Z) :
  request_fields rt event = Some fields ->
  dict_get "file_size" fields = PInt n ->
  n > 10 * 1024 * 1024 ->
  exists message,
    Upload.lambda_handler rt event context w = (Returned (error_response rt 400 message), tick w).
Proof.
  intros Hf Hsize Hbig.
  destruct (upload_validation rt event context w fields Hf) as (H1 & H2 & H3 & H4 & _).
  rewrite Hsize in *.
  destruct (truthy (dict_get "filename" fields)) eqn:Hname; [|eauto].
  destruct (truthy (dict_get "content_type" fields)) eqn:Htype; [|eauto].
  eexists. apply H4; try reflexivity.
  - simpl. apply negb_true_iff, Z.eqb_neq. lia.
  - simpl. unfold Upload.MAX_FILE_SIZE. lia.
Qed.

(** Likewise when its [content_type] is not in the allow-list. *)
Lemma upload_rejects_disallowed_type (rt : runtime) (event context : pyval) (w : world)
    (fields : list (string * pyval)) :
  request_fields rt event = Some fields ->
  in_strings (dict_get "content_type" fields) Upload.ALLOWED_CONTENT_TYPES = false ->
  exists message,
    Upload.lambda_handler rt event context w = (Returned (error_response rt 400 message), tick w).
Proof.
  intros Hf Htype.
  destruct (upload_validation rt event context w fields Hf) as (H1 & H2 & H3 & H4 & H5).
  destruct (truthy (dict_get "filename" fields)) eqn:Hname; [|eauto].
  destruct (truthy (dict_get "content_type" fields)) eqn:Hct; [|eauto].
  destruct (truthy (dict_get "file_size" fields)) eqn:Hsize; [|eauto].
  destruct (isinstance_int (dict_get "file_size" fields)) eqn:Hint; [|eauto].
  destruct (Z_gt_le_dec (int_value (dict_get "file_size" fields)) Upload.MAX_FILE_SIZE);
    eauto.
Qed.

(** Likewise when its [file_size] is missing, [null], zero, or of a type
    other than [int] and [bool]. *)
Lemma upload_rejects_bad_size (rt : runtime) (event context : pyval) (w : world)
    (fields : list (string * pyval)) :
  request_fields rt event = Some fields ->
  truthy (dict_get "file_size" fields) = false \/
  isinstance_int (dict_get "file_size" fields) = false ->
  exists message,
    Upload.lambda_handler rt event context w = (Returned (error_response rt 400 message), tick w).
Proof.
  intros Hf Hsize.
  destruct (upload_validation rt event context w fields Hf) as (H1 & H2 & H3 & _).
  destruct (truthy (dict_get "filename" fields)) eqn:Hname; [|eauto].
  destruct (truthy (dict_get "content_type" fields)) eqn:Hct; [|eauto].
  eauto.
Qed.

(** C3, on the code.  The request names a file, gives an allowed content
    type and the size [-1]: the third check of the specification, that
    [file_size] is a positive integer, fails.  The handler does not answer
    400: it writes a metadata record and answers 200. *)
Theorem upload_negative_size_writes_metadata :
  let w := Scenario.world_of [] [] Scenario.ticking in
  let event := Scenario.upload_event "a.txt" "text/plain" (PInt (-1)) in
  exists r w',
    request_fields Sample.rt event
    = Some [("filename", PStr "a.txt"); ("content_type", PStr "text/plain");
            ("file_size", PInt (-1))] /\
    Upload.lambda_handler Sample.rt event PNone w = (Returned r, w') /\
    statusCode r = 200 /\
    objects w' !! "uuid-0/metadata.json"
    = Some {| Body := Scenario.metadata_text "a.txt" "text/plain"
                        "2024-01-02T00:00:00.000001" "2024-01-01T00:00:00.000002" "-1";
              ContentType := Some "application/json";
              Metadata := [] |} /\
    objects w !! "uuid-0/metadata.json" = None.
Proof.
  intros w event. eexists _, _.
  split; [vm_compute; reflexivity|].
  split; [vm_compute; reflexivity|].
  split; [reflexivity|].
  split; vm_compute; reflexivity.
Qed.

(** C4, on the code.  A request whose [file_size] is the negative integer
    [-5], and one whose [file_size] is the JSON value [true], are both
    accepted: the handler answers 200. *)
Theorem upload_accepts_invalid_size :
  let w := Scenario.world_of [] [] Scenario.ticking in
  (exists r w',
     Upload.lambda_handler Sample.rt (Scenario.upload_event "a.txt" "text/plain" (PInt (-5)))
       PNone w = (Returned r, w') /\
     statusCode r = 200 /\ log w' <> log w) /\
  (exists r w',
     Upload.lambda_handler Sample.rt (Scenario.upload_event "a.txt" "text/plain" (PBool true))
       PNone w = (Returned r, w') /\
     statusCode r = 200 /\ log w' <> log w).
Proof.
  intros w. split; eexists _, _; (split; [vm_compute; reflexivity|]);
    (split; [reflexivity|]); vm_compute; discriminate.
Qed.

Lemma client_call_objects (a : action) (w w' : world) (o : outcome unit) :
  client_call a w = (o, w') -> objects w' = objects w.
Proof.
  unfold client_call. intros H.
  destruct (faults w) as [|[e|] rest]; injection H as <- <-; reflexivity.
Qed.

(** A put that returns has stored its object. *)
Lemma put_returns (key : string) (body : option string)
    (metadata : option (list (string * string))) (content_type : option string)
    (w w' : world) (v : pyval) :
  Upload.s3_put_with_retry key body metadata content_type Upload.MAX_RETRIES w
  = (Returned v, w') ->
  objects w' =
  <[key := {| Body := match body with Some b => b | None => EmptyString end;
              ContentType := content_type;
              Metadata := match metadata with Some m => m | None => [] end |}]> (objects w).
Proof.
  intros Hrun. unfold Upload.s3_put_with_retry in Hrun.
  match type of Hrun with
  | Upload.put_loop _ ?obj _ _ _ = _ =>
      destruct (put_loop_spec key obj Upload.MAX_RETRIES 0 w ltac:(unfold Upload.MAX_RETRIES; lia))
        as (n & r & w2 & Hrun' & _ & _ & _ & _ & Hlast)
  end.
  rewrite Hrun in Hrun'. injection Hrun' as <- <-.
  destruct (call_fault w (n - 1)).
  - destruct Hlast as [Hr _]. discriminate.
  - apply Hlast.
Qed.

(** C9, as amended.  A successful upload reads the clock twice after the
    request time: the first reading plus 24 hours is the expiration time,
    the second is the upload time.  The metadata record written at
    [{file_id}/metadata.json] holds both in ISO-8601 form, and the response
    returns the same expiration timestamp. *)
Theorem upload_expiration (rt : runtime) (event context : pyval) (w w' : world) (r : response) :
  Upload.lambda_handler rt event context w = (Returned r, w') ->
  statusCode r = 200 ->
  exists (fields : list (string * pyval)) (upload_data : pyval),
    let file_id := uuids w (minted w) in
    let now := clock w (S (reads w)) in
    let upload_time := clock w (S (S (reads w))) in
    let expiration_timestamp := isoformat (now + 24 * HOUR) in
    request_fields rt event = Some fields /\
    objects w' =
    <[file_id +:+ "/metadata.json" :=
        {| Body := json_dumps rt
                     (PDict [("original_filename", dict_get "filename" fields);
                             ("content_type", dict_get "content_type" fields);
                             ("expiration_time", PStr expiration_timestamp);
                             ("upload_time", PStr (isoformat upload_time));
                             ("file_size", PStr (format_value rt (dict_get "file_size" fields)))]);
           ContentType := Some "application/json";
           Metadata := [] |}]> (objects w) /\
    body r = json_dumps rt
               (PDict [("file_id", PStr file_id);
                       ("upload_data", upload_data);
                       ("download_path", PStr ("/download/" +:+ file_id));
                       ("expiration_time", PStr expiration_timestamp)]).
Proof.
  intros Hrun Hok.
  destruct (request_fields rt event) as [fields|] eqn:Hf.
  2: { rewrite (upload_without_fields rt event context w Hf) in Hrun.
       injection Hrun as <- _. discriminate. }
  rewrite (upload_with_fields rt event context w fields Hf) in Hrun.
  unfold try_except in Hrun.
  destruct (Upload.process_request rt fields (tick w)) as [[r0|e] w0] eqn:Htry.
  2: { injection Hrun as <- _. discriminate. }
  injection Hrun as -> ->.
  unfold Upload.process_request in Htry.
  repeat match type of Htry with
         | (if ?c then _ else _) _ = _ => destruct c
         end;
    try (unfold ret in Htry; injection Htry as <- <-; discriminate).
  bind_inv Htry. unfold uuid4 in Hc. injection Hc as <- <-.
  bind_inv Htry. unfold utcnow in Hc. injection Hc as <- <-.
  bind_inv Htry. unfold Upload.plus_24_hours in Hc.
  destruct (_ >? DATETIME_MAX); [discriminate|]. unfold ret in Hc. injection Hc as <- <-.
  bind_inv Htry. unfold utcnow in Hc. injection Hc as <- <-.
  bind_inv Htry. apply put_returns in Hc.
  bind_inv Htry. unfold Upload.generate_upload_url in Hc0.
  bind_inv Hc0. apply client_call_objects in Hc1.
  unfold ret in Hc0. injection Hc0 as <- <-.
  unfold ret in Htry. injection Htry as <- <-.
  exists fields. eexists. cbv zeta.
  split; [reflexivity|]. split; [|reflexivity].
  rewrite Hc1, Hc. reflexivity.
Qed.

Lemma upload_expiration_witness :
  exists (fields : list (string * pyval)) (upload_data : pyval) (r : response) (w' : world),
    Upload.lambda_handler Sample.rt (Scenario.upload_event "a.txt" "text/plain" (PInt 100)) PNone
      (Scenario.world_of [] [] Scenario.ticking) = (Returned r, w') /\
    request_fields Sample.rt (Scenario.upload_event "a.txt" "text/plain" (PInt 100))
    = Some fields /\
    objects w' !! "uuid-0/metadata.json" =
    Some {| Body := Sample.json_dumps
                      (PDict [("original_filename", dict_get "filename" fields);
                              ("content_type", dict_get "content_type" fields);
                              ("expiration_time", PStr "2024-01-02T00:00:00.000001");
                              ("upload_time", PStr "2024-01-01T00:00:00.000002");
                              ("file_size", PStr (format_value Sample.rt (dict_get "file_size" fields)))]);
            ContentType := Some "application/json";
            Metadata := [] |} /\
    body r = Sample.json_dumps
               (PDict [("file_id", PStr "uuid-0");
                       ("upload_data", upload_data);
                       ("download_path", PStr "/download/uuid-0");
                       ("expiration_time", PStr "2024-01-02T00:00:00.000001")]).
Proof.
  edestruct (upload_expiration Sample.rt
               (Scenario.upload_event "a.txt" "text/plain" (PInt 100)) PNone
               (Scenario.world_of [] [] Scenario.ticking))
    as (fields & upload_data & Hfields & Hobjects & Hbody).
  - vm_compute. reflexivity.
  - reflexivity.
  - exists fields, upload_data. eexists _, _.
    split; [vm_compute; reflexivity|].
    split; [exact Hfields|].
    split; [|exact Hbody].
    etransitivity; [apply (f_equal (fun m => m !! "uuid-0/metadata.json") Hobjects)|].
    apply lookup_insert_eq.
Defined.

(** C9, as stated, fails.  The clock advances by one microsecond between
    two readings.  The upload succeeds; the record it writes has
    [expiration_time] 2024-01-02T00:00:00.000001 and [upload_time]
    2024-01-01T00:00:00.000002, which are not 24 hours apart. *)
Lemma expiration_is_not_upload_time_plus_24_hours :
  exists (r : response) (w' : world) (expiration_time upload_time : Z),
    Upload.lambda_handler Sample.rt (Scenario.upload_event "a.txt" "text/plain" (PInt 100)) PNone
      (Scenario.world_of [] [] Scenario.ticking) = (Returned r, w') /\
    statusCode r = 200 /\
    objects w' !! "uuid-0/metadata.json" =
    Some {| Body := Scenario.metadata_text "a.txt" "text/plain"
                      "2024-01-02T00:00:00.000001" "2024-01-01T00:00:00.000002" "100";
            ContentType := Some "application/json";
            Metadata := [] |} /\
    Sample.fromisoformat "2024-01-02T00:00:00.000001" = Some (Naive expiration_time) /\
    Sample.fromisoformat "2024-01-01T00:00:00.000002" = Some (Naive upload_time) /\
    expiration_time <> upload_time + 24 * HOUR.
Proof.
  eexists _, _, _, _.
  split; [vm_compute; reflexivity|].
  split; [reflexivity|].
  split; [vm_compute; reflexivity|].
  split; [vm_compute; reflexivity|].
  split; [vm_compute; reflexivity|].
  vm_compute. discriminate.
Qed.

(** ** Keys and prefixes *)

Lemma append_nil_l (s : string) : EmptyString +:+ s = s.
Proof. reflexivity. Qed.

Lemma append_cons (c : ascii) (s t : string) : String c s +:+ t = String c (s +:+ t).
Proof. reflexivity. Qed.

Lemma append_assoc (a b c : string) : (a +:+ b) +:+ c = a +:+ (b +:+ c).
Proof.
  induction a as [|x a IH]; [reflexivity|].
  rewrite !append_cons. f_equal. exact IH.
Qed.

Lemma prefix_cons (a b : ascii) (s t : string) :
  String.prefix (String a s) (String b t)
  = if ascii_dec a b then String.prefix s t else false.
Proof. reflexivity. Qed.

Lemma prefix_append (s t : string) : String.prefix s (s +:+ t) = true.
Proof.
  induction s as [|c s IH].
  - destruct t; reflexivity.
  - rewrite ?append_cons, prefix_cons. destruct (ascii_dec c c); [exact IH | congruence].
Qed.

Lemma common_prefix_shape (key p : string) :
  common_prefix key = Some p ->
  exists stem, p = stem +:+ "/" /\ common_prefix stem = None /\ String.prefix p key = true.
Proof.
  revert p. induction key as [|c key IH]; intros p H; simpl in H; [discriminate|].
  destruct (Ascii.eqb c "/") eqn:Hc.
  - apply Ascii.eqb_eq in Hc. subst c. injection H as <-.
    exists EmptyString. repeat split. simpl. destruct key; reflexivity.
  - destruct (common_prefix key) as [q|] eqn:Hq; [|discriminate].
    simpl in H. injection H as <-.
    destruct (IH q eq_refl) as (stem & -> & Hstem & Hpre).
    exists (String c stem). repeat split.
    + simpl. rewrite Hc, Hstem. reflexivity.
    + rewrite ?append_cons, prefix_cons. destruct (ascii_dec c c); [exact Hpre | congruence].
Qed.

Lemma prefix_common_prefix (stem key : string) :
  common_prefix stem = None ->
  String.prefix (stem +:+ "/") key = true ->
  common_prefix key = Some (stem +:+ "/").
Proof.
  revert key. induction stem as [|c stem IH]; intros key Hstem Hpre.
  - rewrite ?append_nil_l in *.
    destruct key as [|k key]; [discriminate|]. rewrite prefix_cons in Hpre.
    destruct (ascii_dec "/" k) as [<-|]; [|discriminate]. reflexivity.
  - simpl in Hstem. destruct (Ascii.eqb c "/") eqn:Hc; [discriminate|].
    destruct (common_prefix stem) eqn:Hs; [discriminate|].
    rewrite ?append_cons in *.
    destruct key as [|k key]; [discriminate|]. rewrite prefix_cons in Hpre.
    destruct (ascii_dec c k) as [<-|]; [|discriminate].
    simpl. rewrite Hc. rewrite (IH key eq_refl Hpre). reflexivity.
Qed.

Lemma rstrip_slash_stem (stem : string) :
  common_prefix stem = None -> Cleanup.rstrip_slash (stem +:+ "/") = stem.
Proof.
  induction stem as [|c stem IH]; intros Hstem; [reflexivity|].
  simpl in Hstem. destruct (Ascii.eqb c "/") eqn:Hc; [discriminate|].
  destruct (common_prefix stem) eqn:Hs; [discriminate|].
  rewrite ?append_cons. simpl. rewrite (IH eq_refl). destruct stem; [rewrite Hc|]; reflexivity.
Qed.

Lemma append_slash_inj (a b : string) : a +:+ "/" = b +:+ "/" -> a = b.
Proof.
  revert b. induction a as [|x a IH]; intros [|y b] H;
    rewrite ?append_cons, ?append_nil_l in H.
  - reflexivity.
  - injection H as _ H. destruct b; discriminate.
  - injection H as _ H. destruct a; discriminate.
  - injection H as -> H. rewrite (IH b H). reflexivity.
Qed.

Lemma elem_of_sorted_keys (m : gmap string s3_object) (k : string) :
  k ∈ sorted_keys m <-> is_Some (m !! k).
Proof.
  unfold sorted_keys. rewrite merge_sort_Permutation, elem_of_elements, elem_of_dom.
  reflexivity.
Qed.

Lemma existsb_eqb_elem_of (x : string) (l : list string) :
  existsb (String.eqb x) l = true <-> x ∈ l.
Proof.
  rewrite existsb_exists. split.
  - intros (y & Hy & Heq). apply String.eqb_eq in Heq. subst y.
    apply list_elem_of_In. exact Hy.
  - intros Hx. exists x. split; [apply list_elem_of_In; exact Hx | apply String.eqb_refl].
Qed.

Lemma elem_of_dedup_strings (l seen : list string) (x : string) :
  x ∈ dedup_strings seen l <-> x ∈ l /\ x ∉ seen.
Proof.
  revert seen. induction l as [|y l IH]; intros seen; simpl.
  - rewrite elem_of_nil. tauto.
  - destruct (existsb (String.eqb y) seen) eqn:Hy.
    + apply existsb_eqb_elem_of in Hy. rewrite IH, elem_of_cons.
      split; [tauto|]. intros [[->|Hx] Hn]; tauto.
    + assert (Hn : y ∉ seen).
      { intros Hin. apply existsb_eqb_elem_of in Hin. congruence. }
      rewrite !elem_of_cons, IH, elem_of_cons.
      split.
      * intros [->|[Hx Hs]]; [tauto|]. split; [tauto|]. intros Hin. apply Hs. tauto.
      * intros [[->|Hx] Hs]; [tauto|].
        destruct (decide (x = y)) as [->|Hne]; [tauto|]. right. split; [exact Hx|].
        intros [?|?]; tauto.
Qed.

Lemma NoDup_dedup_strings (l seen : list string) : NoDup (dedup_strings seen l).
Proof.
  revert seen. induction l as [|y l IH]; intros seen; simpl; [constructor|].
  destruct (existsb (String.eqb y) seen); [apply IH|].
  apply NoDup_cons. split; [|apply IH].
  rewrite elem_of_dedup_strings, elem_of_cons. tauto.
Qed.

(** Deleting the keys listed under a prefix removes exactly the keys that
    start with it. *)
Lemma lookup_delete_listed (m : gmap string s3_object) (p k : string) :
  foldr delete m (List.filter (String.prefix p) (sorted_keys m)) !! k
  = if String.prefix p k then None else m !! k.
Proof.
  destruct (String.prefix p k) eqn:Hp.
  - destruct (m !! k) as [o|] eqn:Hk.
    + apply lookup_foldr_delete. apply list_elem_of_In, filter_In. split; [|exact Hp].
      apply list_elem_of_In, elem_of_sorted_keys. eauto.
    + destruct (foldr delete m _ !! k) eqn:Hd; [|reflexivity].
      apply lookup_foldr_delete_Some in Hd. destruct Hd as [_ Hd]. congruence.
  - apply lookup_foldr_delete_not_elem_of. intros Hin.
    apply list_elem_of_In, filter_In in Hin. destruct Hin as [_ Hin]. congruence.
Qed.

(** ** What the client calls leave alone *)

Ltac inv_ret H := unfold ret, raise in H; simpl in H; injection H as <- <-.

Lemma same_state_refl (w : world) : same_state w w.
Proof. repeat split. Qed.

Lemma same_state_trans (w1 w2 w3 : world) :
  same_state w1 w2 -> same_state w2 w3 -> same_state w1 w3.
Proof.
  intros (H1 & H2 & H3 & H4 & H5) (G1 & G2 & G3 & G4 & G5).
  repeat split; congruence.
Qed.

Lemma client_call_state (a : action) (w w' : world) (o : outcome unit) :
  client_call a w = (o, w') -> same_state w w'.
Proof.
  unfold client_call. intros H.
  destruct (faults w) as [|[e|] rest]; injection H as <- <-; repeat split.
Qed.

Lemma get_object_state (key : string) (w w' : world) (o : outcome s3_object) :
  get_object key w = (o, w') -> same_state w w'.
Proof.
  unfold get_object, bind. intros H.
  destruct (client_call (GetObject key) w) as [[[]|e] w1] eqn:Hcall;
    apply client_call_state in Hcall.
  - destruct (objects w1 !! key); injection H as <- <-; exact Hcall.
  - injection H as <- <-. exact Hcall.
Qed.

Lemma head_object_state (key : string) (w w' : world) (o : outcome s3_object) :
  head_object key w = (o, w') -> same_state w w'.
Proof.
  unfold head_object, bind. intros H.
  destruct (client_call (HeadObject key) w) as [[[]|e] w1] eqn:Hcall;
    apply client_call_state in Hcall.
  - destruct (objects w1 !! key); injection H as <- <-; exact Hcall.
  - injection H as <- <-. exact Hcall.
Qed.

Lemma sleep_state (seconds : Z) (w : world) : same_state w (add_log (Sleep seconds) w).
Proof. repeat split. Qed.

Lemma get_loop_state (key : string) (left : nat) :
  forall (retries : nat) (w w' : world) (o : outcome (option s3_object)),
  Download.get_loop key left retries w = (o, w') -> same_state w w'.
Proof.
  induction left as [|left IH]; intros retries w w' o H.
  - inv_ret H. apply same_state_refl.
  - simpl in H. unfold try_except, bind in H.
    destruct (get_object key w) as [[obj|e] w1] eqn:Hget;
      apply get_object_state in Hget.
    + inv_ret H. exact Hget.
    + destruct e as [code msg|k|cls msg];
        try (inv_ret H; exact Hget).
      destruct (String.eqb code "NoSuchKey"); [inv_ret H; exact Hget|].
      destruct (existsb (String.eqb code) TRANSIENT_CODES) eqn:Ht;
        simpl in Ht; rewrite Ht in H; [|inv_ret H; exact Hget].
      destruct left as [|left']; [inv_ret H; exact Hget|].
      unfold sleep in H.
      apply IH in H. apply (same_state_trans w w1 w' Hget).
      apply (same_state_trans w1 _ w' (sleep_state _ w1) H).
Qed.

(** What a get finds, and what it leaves. *)
Lemma get_object_spec (key : string) (w : world) :
  exists (o : outcome s3_object) (w1 : world),
    get_object key w = (o, w1) /\
    same_state w w1 /\
    (forall obj, o = Returned obj -> objects w !! key = Some obj) /\
    (faults w = [] ->
     faults w1 = [] /\
     o = match objects w !! key with
         | Some obj => Returned obj
         | None => Raised NoSuchKey
         end).
Proof.
  unfold get_object, bind, client_call.
  destruct (faults w) as [|[e|] rest] eqn:Hfaults; simpl.
  - destruct (objects w !! key) as [obj|] eqn:Hk.
    + eexists _, _. split; [reflexivity|]. split; [repeat split|].
      split; [intros obj' [= <-]; reflexivity|]. intros _. simpl. auto.
    + eexists _, _. split; [reflexivity|]. split; [repeat split|].
      split; [intros obj' Heq; discriminate|]. intros _. simpl. auto.
  - eexists _, _. split; [reflexivity|]. split; [repeat split|].
    split; [intros obj Heq; discriminate | intros Heq; discriminate].
  - destruct (objects w !! key) as [obj|] eqn:Hk.
    + eexists _, _. split; [reflexivity|]. split; [repeat split|].
      split; [intros obj' [= <-]; reflexivity|]. intros Heq. discriminate.
    + eexists _, _. split; [reflexivity|]. split; [repeat split|].
      split; [intros obj' Heq; discriminate|]. intros Heq. discriminate.
Qed.

(** ** Pages *)

Lemma pages_of_nil {A : Type} (size fuel : nat) : pages_of size fuel (@nil A) = [].
Proof. destruct fuel; reflexivity. Qed.

Lemma concat_pages_of {A : Type} (size fuel : nat) :
  forall l : list A,
  (1 <= size)%nat -> (length l <= fuel)%nat -> concat (pages_of size fuel l) = l.
Proof.
  induction fuel as [|fuel IH]; intros l Hsize Hlen.
  - destruct l; [reflexivity | simpl in Hlen; lia].
  - destruct l as [|x l]; [reflexivity|].
    change (pages_of size (S fuel) (x :: l))
      with (take size (x :: l) :: pages_of size fuel (drop size (x :: l))).
    rewrite concat_cons, IH.
    + apply take_drop.
    + exact Hsize.
    + rewrite length_drop. simpl in *. lia.
Qed.

(** The pages of a listing hold its entries, in order. *)
Lemma concat_paginate {A : Type} (l : list A) : concat (paginate l) = l.
Proof.
  destruct l as [|x l]; [reflexivity|].
  apply concat_pages_of; [unfold PAGE_SIZE; lia | reflexivity].
Qed.

(** A listing always has a first page. *)
Lemma paginate_first {A : Type} (l : list A) :
  exists page rest, paginate l = page :: rest.
Proof.
  destruct l as [|x l]; [eexists _, _; reflexivity|].
  unfold paginate. simpl length.
  eexists _, _. reflexivity.
Qed.

(** A listing of at most [PAGE_SIZE] entries is one page. *)
Lemma paginate_single {A : Type} (l : list A) :
  (length l <= PAGE_SIZE)%nat -> paginate l = [l].
Proof.
  intros Hlen. destruct l as [|x l]; [reflexivity|].
  unfold paginate.
  change (pages_of PAGE_SIZE (length (x :: l)) (x :: l))
    with (take PAGE_SIZE (x :: l)
            :: pages_of PAGE_SIZE (length l) (drop PAGE_SIZE (x :: l))).
  rewrite take_ge by exact Hlen. rewrite drop_ge by exact Hlen.
  rewrite pages_of_nil. reflexivity.
Qed.

(** The requests of a paginator leave the bucket alone; when all go
    through, they give the entries of all pages. *)
Lemma fetch_pages_spec (a : action) (pages : list (list string)) :
  forall w : world,
  exists (o : outcome (list string)) (w1 : world),
    fetch_pages a pages w = (o, w1) /\
    same_state w w1 /\
    (forall keys, o = Returned keys -> keys = concat pages) /\
    (faults w = [] -> faults w1 = [] /\ o = Returned (concat pages)).
Proof.
  induction pages as [|page pages IH]; intros w.
  - exists (Returned []), w. split; [reflexivity|]. split; [apply same_state_refl|].
    split; [intros keys [= <-]; reflexivity | auto].
  - simpl fetch_pages. unfold bind at 1.
    destruct (client_call a w) as [[[]|e] w0] eqn:Hcall.
    + pose proof (client_call_state a w w0 _ Hcall) as Hstate0.
      destruct (IH w0) as (o & w1 & Hrun & Hstate1 & Hkeys & Hfree).
      unfold bind. rewrite Hrun.
      assert (Hfaults0 : faults w = [] -> faults w0 = []).
      { intros Hf. unfold client_call in Hcall. rewrite Hf in Hcall.
        injection Hcall as <-. simpl. exact Hf. }
      destruct o as [keys|e].
      * eexists _, _. split; [reflexivity|].
        split; [apply (same_state_trans w w0 w1 Hstate0 Hstate1)|].
        split.
        -- intros keys' [= <-]. rewrite (Hkeys keys eq_refl). reflexivity.
        -- intros Hf. destruct (Hfree (Hfaults0 Hf)) as [Hf1 Ho].
           split; [exact Hf1|]. rewrite (Hkeys keys eq_refl). reflexivity.
      * eexists _, _. split; [reflexivity|].
        split; [apply (same_state_trans w w0 w1 Hstate0 Hstate1)|].
        split; [intros keys Heq; discriminate|].
        intros Hf. destruct (Hfree (Hfaults0 Hf)) as [_ Ho]. discriminate.
    + pose proof (client_call_state a w w0 _ Hcall) as Hstate0.
      eexists _, _. split; [reflexivity|]. split; [exact Hstate0|].
      split; [intros keys Heq; discriminate|].
      intros Hf. unfold client_call in Hcall. rewrite Hf in Hcall. discriminate.
Qed.

(** The listing of the keys under a prefix. *)
Lemma list_objects_spec (prefix : string) (w : world) :
  exists (o : outcome (list string)) (w1 : world),
    list_objects prefix w = (o, w1) /\
    same_state w w1 /\
    (forall keys, o = Returned keys ->
                  keys = List.filter (String.prefix prefix) (sorted_keys (objects w))) /\
    (faults w = [] ->
     faults w1 = [] /\
     o = Returned (List.filter (String.prefix prefix) (sorted_keys (objects w)))).
Proof.
  unfold list_objects, bind.
  destruct (fetch_pages_spec (ListObjects prefix)
              (paginate (List.filter (String.prefix prefix) (sorted_keys (objects w)))) w)
    as (o & w1 & Hrun & Hstate & Hkeys & Hfree).
  rewrite concat_paginate in Hkeys, Hfree.
  exists o, w1. auto.
Qed.

(** A delete request: it deletes the keys it names, all or none, and none
    when it names too many. *)
Lemma delete_objects_spec (keys : list string) (w : world) :
  exists (o : outcome unit) (w1 : world),
    delete_objects keys w = (o, w1) /\
    clock w1 = clock w /\ reads w1 = reads w /\
    (objects w1 = objects w \/
     (length keys <= MAX_DELETE_KEYS)%nat /\ o = Returned tt /\
     objects w1 = foldr delete (objects w) keys) /\
    (o = Returned tt \/ objects w1 = objects w) /\
    (faults w = [] ->
     faults w1 = [] /\
     ((length keys <= MAX_DELETE_KEYS)%nat ->
      o = Returned tt /\ objects w1 = foldr delete (objects w) keys)).
Proof.
  unfold delete_objects, bind.
  destruct (client_call (DeleteObjects keys) w) as [[[]|e] w0] eqn:Hcall;
    pose proof (client_call_state _ w w0 _ Hcall) as (Hobj & Hclock & Hreads & _).
  - assert (Hfaults0 : faults w = [] -> faults w0 = []).
    { intros Hf. unfold client_call in Hcall. rewrite Hf in Hcall.
      injection Hcall as <-. simpl. exact Hf. }
    destruct (MAX_DELETE_KEYS <? length keys)%nat eqn:Hmany.
    + apply Nat.ltb_lt in Hmany.
      eexists _, _. split; [reflexivity|]. split; [exact Hclock|]. split; [exact Hreads|].
      split; [left; exact Hobj|]. split; [right; exact Hobj|].
      intros Hf. split; [auto|]. intros Hfew. lia.
    + apply Nat.ltb_ge in Hmany.
      eexists _, _. split; [reflexivity|]. simpl.
      split; [exact Hclock|]. split; [exact Hreads|].
      split; [right; rewrite Hobj; auto|]. split; [left; reflexivity|].
      intros Hf. split; [auto|]. intros _. rewrite Hobj. auto.
  - eexists _, _. split; [reflexivity|]. split; [exact Hclock|]. split; [exact Hreads|].
    split; [left; exact Hobj|]. split; [right; exact Hobj|].
    intros Hf. unfold client_call in Hcall. rewrite Hf in Hcall. discriminate.
Qed.

(** ** The cleanup sweeper *)

(** A key lies under the prefix of one item only. *)
Lemma prefix_disjoint (stem stem' key : string) :
  common_prefix stem = None ->
  common_prefix stem' = None ->
  String.prefix (stem +:+ "/") key = true ->
  String.prefix (stem' +:+ "/") key = true ->
  stem = stem'.
Proof.
  intros Hstem Hstem' Hpre Hpre'.
  apply (prefix_common_prefix stem _ Hstem) in Hpre.
  apply (prefix_common_prefix stem' _ Hstem') in Hpre'.
  rewrite Hpre in Hpre'. injection Hpre' as Heq.
  apply append_slash_inj. exact Heq.
Qed.

Lemma metadata_key_prefix (stem : string) :
  String.prefix (stem +:+ "/") (stem +:+ "/metadata.json") = true.
Proof.
  replace (stem +:+ "/metadata.json") with ((stem +:+ "/") +:+ "metadata.json")
    by (rewrite append_assoc; reflexivity).
  apply prefix_append.
Qed.

Lemma NoDup_sorted_keys (m : gmap string s3_object) : NoDup (sorted_keys m).
Proof.
  unfold sorted_keys. rewrite merge_sort_Permutation. apply NoDup_elements.
Qed.

Lemma NoDup_item_keys (m : gmap string s3_object) (stem : string) :
  NoDup (item_keys m stem).
Proof.
  unfold item_keys. apply NoDup_ListNoDup, List.NoDup_filter, NoDup_ListNoDup.
  apply NoDup_sorted_keys.
Qed.

Lemma elem_of_item_keys (m : gmap string s3_object) (stem key : string) :
  key ∈ item_keys m stem <->
  is_Some (m !! key) /\ String.prefix (stem +:+ "/") key = true.
Proof.
  unfold item_keys. rewrite list_elem_of_In, filter_In, <- list_elem_of_In.
  rewrite elem_of_sorted_keys. reflexivity.
Qed.

(** The expiration time and the size of an item depend on its own keys
    only. *)
Lemma expiration_of_ext (rt : runtime) (m1 m2 : gmap string s3_object) (stem : string) :
  m1 !! (stem +:+ "/metadata.json") = m2 !! (stem +:+ "/metadata.json") ->
  expiration_of rt m1 stem = expiration_of rt m2 stem.
Proof. unfold expiration_of. intros ->. reflexivity. Qed.

Lemma deletable_ext (m1 m2 : gmap string s3_object) (stem : string) :
  (forall key, String.prefix (stem +:+ "/") key = true -> m1 !! key = m2 !! key) ->
  deletable m1 stem = deletable m2 stem.
Proof.
  intros Hsame. unfold deletable. f_equal.
  apply Permutation_length, NoDup_Permutation.
  - apply NoDup_item_keys.
  - apply NoDup_item_keys.
  - intros key. rewrite !elem_of_item_keys.
    split; intros [Hin Hpre]; (split; [|exact Hpre]).
    + rewrite <- (Hsame key Hpre). exact Hin.
    + rewrite (Hsame key Hpre). exact Hin.
Qed.

(** The part of a turn that deletes: the keys of the item are listed, page
    by page, and deleted in one request, which S3 refuses when the item
    has too many. *)
Lemma delete_item_spec (stem : string) (deleted_count : Z) (w : world) :
  exists (o : outcome Z) (w1 : world),
    (objects_to_delete <- list_objects (stem +:+ "/") ;;
     match objects_to_delete with
     | [] => ret deleted_count
     | _ => delete_objects objects_to_delete ;;; ret (deleted_count + 1)
     end) w = (o, w1) /\
    clock w1 = clock w /\
    (forall d, o = Returned d -> deleted_count <= d <= deleted_count + 1) /\
    (objects w1 = objects w \/
     deletable (objects w) stem = true /\
     forall k, objects w1 !! k
               = if String.prefix (stem +:+ "/") k then None else objects w !! k) /\
    (faults w = [] ->
     faults w1 = [] /\
     (deletable (objects w) stem = true ->
      forall k, String.prefix (stem +:+ "/") k = true -> objects w1 !! k = None)).
Proof.
  unfold bind at 1.
  destruct (list_objects_spec (stem +:+ "/") w)
    as (o0 & w0 & Hlist & (Hobj0 & Hclock0 & Hreads0 & _) & Hkeys & Hfree0).
  rewrite Hlist. destruct o0 as [keys|e].
  2: { eexists _, _. split; [reflexivity|]. split; [exact Hclock0|].
       split; [intros d Heq; discriminate|]. split; [left; exact Hobj0|].
       intros Hf. destruct (Hfree0 Hf) as [_ Heq]. discriminate. }
  specialize (Hkeys keys eq_refl). fold (item_keys (objects w) stem) in Hkeys.
  destruct keys as [|key keys].
  - eexists _, _. split; [reflexivity|]. split; [exact Hclock0|].
    split; [intros d [= <-]; lia|]. split; [left; exact Hobj0|].
    intros Hf. destruct (Hfree0 Hf) as [Hf0 _]. split; [exact Hf0|].
    intros _ k Hpre. rewrite Hobj0.
    destruct (objects w !! k) as [obj|] eqn:Hk; [|reflexivity].
    exfalso. assert (Hin : k ∈ item_keys (objects w) stem)
      by (apply elem_of_item_keys; rewrite Hk; eauto).
    rewrite <- Hkeys in Hin. apply elem_of_nil in Hin. exact Hin.
  - unfold bind.
    destruct (delete_objects_spec (key :: keys) w0)
      as (o1 & w1 & Hdelete & Hclock1 & _ & Hdone & Hreturned & Hfree1).
    rewrite Hdelete.
    assert (Hgone : (length (key :: keys) <= MAX_DELETE_KEYS)%nat ->
                    objects w1 = foldr delete (objects w0) (key :: keys) ->
                    deletable (objects w) stem = true /\
                    forall k, objects w1 !! k
                              = if String.prefix (stem +:+ "/") k then None
                                else objects w !! k).
    { intros Hfew ->. split.
      - unfold deletable. rewrite <- Hkeys. apply Nat.leb_le. exact Hfew.
      - intros k. rewrite Hkeys, Hobj0. apply lookup_delete_listed. }
    destruct o1 as [[]|e].
    + eexists _, _. split; [reflexivity|]. split; [congruence|].
      split; [intros d [= <-]; lia|].
      split.
      * destruct Hdone as [Hsame|(Hfew & _ & Hdel)]; [left; congruence|].
        right. apply Hgone; assumption.
      * intros Hf. destruct (Hfree0 Hf) as [Hf0 _].
        destruct (Hfree1 Hf0) as [Hf1 Hdel]. split; [exact Hf1|].
        intros Hsmall k Hpre.
        assert (Hfew : (length (key :: keys) <= MAX_DELETE_KEYS)%nat).
        { unfold deletable in Hsmall. rewrite <- Hkeys in Hsmall.
          apply Nat.leb_le. exact Hsmall. }
        destruct (Hdel Hfew) as [_ Hobj1].
        destruct (Hgone Hfew Hobj1) as [_ Hall]. rewrite Hall, Hpre. reflexivity.
    + eexists _, _. split; [reflexivity|]. split; [congruence|].
      split; [intros d Heq; discriminate|].
      split.
      * destruct Hreturned as [Heq|Hsame]; [discriminate|]. left. congruence.
      * intros Hf. destruct (Hfree0 Hf) as [Hf0 _].
        destruct (Hfree1 Hf0) as [Hf1 Hdel]. split; [exact Hf1|].
        intros Hsmall k Hpre.
        assert (Hfew : (length (key :: keys) <= MAX_DELETE_KEYS)%nat).
        { unfold deletable in Hsmall. rewrite <- Hkeys in Hsmall.
          apply Nat.leb_le. exact Hsmall. }
        destruct (Hdel Hfew) as [Heq _]. discriminate.
Qed.

(** The [try] block of a turn, whatever the client meets.  The bucket is
    left as it was, unless the item had a naive expiration time that the
    clock reading of the turn has passed and keys few enough for one
    request: then all its keys may have been deleted, and have been when
    the client met no failure. *)
Lemma process_prefix_try_spec (rt : runtime) (stem : string) (deleted_count : Z) (w : world) :
  exists (o : outcome Z) (w' : world),
    Cleanup.process_prefix_try rt stem deleted_count w = (o, w') /\
    clock w' = clock w /\
    (forall d, o = Returned d -> deleted_count <= d <= deleted_count + 1) /\
    (objects w' = objects w \/
     (exists t, expiration_of rt (objects w) stem = Some (Naive t) /\ t < clock w (reads w)) /\
     deletable (objects w) stem = true /\
     forall k, objects w' !! k
               = if String.prefix (stem +:+ "/") k then None else objects w !! k) /\
    (faults w = [] ->
     faults w' = [] /\
     forall t,
       expiration_of rt (objects w) stem = Some (Naive t) ->
       t < clock w (reads w) ->
       deletable (objects w) stem = true ->
       forall k, String.prefix (stem +:+ "/") k = true -> objects w' !! k = None).
Proof.
  assert (Hkept : forall (o : outcome Z) (w0 : world),
            (forall d, o = Returned d -> d = deleted_count) ->
            clock w0 = clock w ->
            objects w0 = objects w ->
            (faults w = [] ->
             faults w0 = [] /\
             forall t, expiration_of rt (objects w) stem = Some (Naive t) ->
                       t < clock w (reads w) -> False) ->
            exists (o' : outcome Z) (w' : world),
              (o, w0) = (o', w') /\
              clock w' = clock w /\
              (forall d, o' = Returned d -> deleted_count <= d <= deleted_count + 1) /\
              (objects w' = objects w \/
               (exists t, expiration_of rt (objects w) stem = Some (Naive t) /\
                          t < clock w (reads w)) /\
               deletable (objects w) stem = true /\
               forall k, objects w' !! k
                         = if String.prefix (stem +:+ "/") k then None
                           else objects w !! k) /\
              (faults w = [] ->
               faults w' = [] /\
               forall t,
                 expiration_of rt (objects w) stem = Some (Naive t) ->
                 t < clock w (reads w) ->
                 deletable (objects w) stem = true ->
                 forall k, String.prefix (stem +:+ "/") k = true ->
                           objects w' !! k = None)).
  { intros o w0 Hcount Hclock Hobj Hfree. exists o, w0.
    split; [reflexivity|]. split; [exact Hclock|].
    split; [intros d Hd; rewrite (Hcount d Hd); lia|].
    split; [left; exact Hobj|].
    intros Hf. destruct (Hfree Hf) as [Hf0 Hnot]. split; [exact Hf0|].
    intros t Hexp Hpast. exfalso. apply (Hnot t Hexp Hpast). }
  unfold Cleanup.process_prefix_try.
  remember (bind (list_objects (stem +:+ "/")) _) as delete_item eqn:Hdelete_item.
  unfold bind at 1.
  destruct (get_object_spec (stem +:+ "/metadata.json") w)
    as (o1 & w1 & Hget & (Hobj1 & Hclock1 & Hreads1 & _) & Hfound & Hfree1).
  rewrite Hget.
  pose proof (eq_refl (expiration_of rt (objects w) stem)) as Hexp.
  unfold expiration_of at 2 in Hexp.
  destruct o1 as [obj|e].
  2: { apply Hkept; try assumption; [intros d Heq; discriminate|].
       intros Hf. destruct (Hfree1 Hf) as [Hf1 Ho]. split; [exact Hf1|].
       destruct (objects w !! (stem +:+ "/metadata.json")); [discriminate|].
       intros t Ht. rewrite Hexp in Ht. discriminate. }
  rewrite (Hfound obj eq_refl) in Hexp.
  assert (Hfaults1 : faults w = [] -> faults w1 = [])
    by (intros Hf; apply (Hfree1 Hf)).
  unfold read_json, bind, lift_option.
  destruct (decode_utf8 rt (Body obj)) as [text|]; simpl.
  2: { apply Hkept; try assumption; [intros d Heq; discriminate|].
       intros Hf. split; [auto|]. intros t Ht. rewrite Hexp in Ht. discriminate. }
  destruct (json_loads rt text) as [metadata|]; simpl.
  2: { apply Hkept; try assumption; [intros d Heq; discriminate|].
       intros Hf. split; [auto|]. intros t Ht. rewrite Hexp in Ht. discriminate. }
  destruct metadata as [| | | | |l|items]; simpl;
    try (apply Hkept; try assumption; [intros d Heq; discriminate|];
         intros Hf; (split; [auto|]); intros t Ht; rewrite Hexp in Ht; discriminate).
  destruct (assoc_get "expiration_time" items) as [v|]; simpl.
  2: { apply Hkept; try assumption; [intros d Heq; discriminate|].
       intros Hf. split; [auto|]. intros t Ht. rewrite Hexp in Ht. discriminate. }
  destruct v as [| | | |s| |]; simpl;
    try (apply Hkept; try assumption; [intros d Heq; discriminate|];
         intros Hf; (split; [auto|]); intros t Ht; rewrite Hexp in Ht; discriminate).
  destruct (fromisoformat rt s) as [[t|t offset]|]; simpl.
  2, 3: apply Hkept; simpl; try assumption; [intros d Heq; discriminate|];
    intros Hf; (split; [auto|]); intros t' Ht; rewrite Hexp in Ht; discriminate.
  destruct (clock w1 (reads w1) >? t) eqn:Hpast.
  2: { apply Hkept; simpl; try assumption; [intros d [= <-]; reflexivity|].
       intros Hf. split; [auto|]. intros t' Ht Hlt.
       rewrite Hexp in Ht. injection Ht as <-.
       rewrite Hclock1, Hreads1 in Hpast.
       apply Z.gtb_lt in Hlt. congruence. }
  rewrite Hclock1, Hreads1 in Hpast. apply Z.gtb_lt in Hpast.
  subst delete_item.
  destruct (delete_item_spec stem deleted_count (set_reads (S (reads w1)) w1))
    as (o & w' & Hrun & Hclock & Hcount & Hobj & Hfree).
  rewrite Hrun. simpl in Hclock, Hobj, Hfree.
  rewrite Hobj1 in Hobj, Hfree.
  exists o, w'. split; [reflexivity|]. split; [congruence|]. split; [exact Hcount|].
  split.
  - destruct Hobj as [Hsame|[Hsmall Hall]]; [left; exact Hsame|].
    right. split; [exists t; split; [exact Hexp | lia]|]. auto.
  - intros Hf. destruct (Hfree (Hfaults1 Hf)) as [Hf' Hall]. split; [exact Hf'|].
    intros t' _ _ Hsmall. apply (Hall Hsmall).
Qed.

(** One turn of the loop over the prefixes of a page, whatever the client
    meets: it ends normally and counts the item as checked. *)
Lemma process_prefix_spec (rt : runtime) (deleted_count checked_count : Z) (stem : string)
    (w : world) :
  common_prefix stem = None ->
  exists (deleted_count' : Z) (w' : world),
    Cleanup.process_prefix rt (deleted_count, checked_count) (stem +:+ "/") w
    = (Returned (deleted_count', checked_count + 1), w') /\
    clock w' = clock w /\
    deleted_count <= deleted_count' <= deleted_count + 1 /\
    (objects w' = objects w \/
     (exists t, expiration_of rt (objects w) stem = Some (Naive t) /\ t < clock w (reads w)) /\
     deletable (objects w) stem = true /\
     forall k, objects w' !! k
               = if String.prefix (stem +:+ "/") k then None else objects w !! k) /\
    (faults w = [] ->
     faults w' = [] /\
     forall t,
       expiration_of rt (objects w) stem = Some (Naive t) ->
       t < clock w (reads w) ->
       deletable (objects w) stem = true ->
       forall k, String.prefix (stem +:+ "/") k = true -> objects w' !! k = None).
Proof.
  intros Hstem. unfold Cleanup.process_prefix.
  rewrite (rstrip_slash_stem stem Hstem). unfold try_except, bind.
  destruct (process_prefix_try_spec rt stem deleted_count w)
    as (o & w' & Hrun & Hclock & Hcount & Hobj & Hfree).
  rewrite Hrun. destruct o as [d|e].
  - exists d, w'. split; [reflexivity|]. split; [exact Hclock|].
    split; [apply Hcount; reflexivity|]. auto.
  - exists deleted_count, w'. split; [reflexivity|]. split; [exact Hclock|].
    split; [lia|]. auto.
Qed.

(** The sweeper catches whatever one item raises: a turn of its loop always
    ends normally, also when the client fails. *)
Lemma process_prefix_returns (rt : runtime) (counts : Z * Z) (prefix : string) (w : world) :
  exists (counts' : Z * Z) (w' : world),
    Cleanup.process_prefix rt counts prefix w = (Returned counts', w').
Proof.
  destruct counts as [deleted_count checked_count].
  unfold Cleanup.process_prefix, try_except, bind.
  destruct (Cleanup.process_prefix_try rt _ deleted_count w) as [[n|e] w'];
    eexists _, _; reflexivity.
Qed.

(** *** The loops *)

Lemma for_each_cons {S A : Type} (f : S -> A -> M S) (s : S) (x : A) (rest : list A)
    (w : world) :
  Cleanup.for_each f s (x :: rest) w =
  match f s x w with
  | (Returned s', w1) => Cleanup.for_each f s' rest w1
  | (Raised e, w1) => (Raised e, w1)
  end.
Proof. reflexivity. Qed.

Lemma for_each_app {S A : Type} (f : S -> A -> M S) (l1 l2 : list A) :
  forall (s : S) (w : world),
  Cleanup.for_each f s (l1 ++ l2) w =
  match Cleanup.for_each f s l1 w with
  | (Returned s', w1) => Cleanup.for_each f s' l2 w1
  | (Raised e, w1) => (Raised e, w1)
  end.
Proof.
  induction l1 as [|x l1 IH]; intros s w; [reflexivity|].
  rewrite <- app_comm_cons, !for_each_cons.
  destruct (f s x w) as [[s'|e] w1]; [apply IH | reflexivity].
Qed.

Lemma for_each_items (rt : runtime) (l : list string) :
  forall (counts : Z * Z) (w : world),
  Cleanup.for_each (run_step rt) counts (List.map Item l) w
  = Cleanup.for_each (Cleanup.process_prefix rt) counts l w.
Proof.
  induction l as [|p l IH]; intros counts w; [reflexivity|].
  rewrite map_cons, !for_each_cons. simpl run_step.
  destruct (Cleanup.process_prefix rt counts p w) as [[counts'|e] w1];
    [apply IH | reflexivity].
Qed.

(** The loop over the pages is the sequence of the steps of its pages. *)
Lemma for_each_pages (rt : runtime) (pages : list (list string)) :
  forall (counts : Z * Z) (w : world),
  Cleanup.for_each (Cleanup.process_page rt) counts pages w
  = Cleanup.for_each (run_step rt) counts (concat (List.map steps_of_page pages)) w.
Proof.
  induction pages as [|page pages IH]; intros counts w; [reflexivity|].
  rewrite map_cons, concat_cons. unfold steps_of_page at 1.
  rewrite <- app_comm_cons, !for_each_cons.
  unfold Cleanup.process_page. simpl run_step. unfold bind.
  destruct (fetch_common_prefixes w) as [[[]|e] w0]; [|reflexivity].
  unfold ret. rewrite for_each_app, for_each_items.
  destruct (Cleanup.for_each (Cleanup.process_prefix rt) counts (CommonPrefixes page) w0)
    as [[counts'|e] w1]; [apply IH | reflexivity].
Qed.

Lemma items_of_items (l : list string) : items_of (List.map Item l) = l.
Proof.
  induction l as [|p l IH]; [reflexivity|].
  rewrite map_cons. change (items_of (Item p :: List.map Item l))
    with (p :: items_of (List.map Item l)). rewrite IH. reflexivity.
Qed.

Lemma items_of_pages (pages : list (list string)) :
  items_of (concat (List.map steps_of_page pages)) = CommonPrefixes (concat pages).
Proof.
  induction pages as [|page pages IH]; [reflexivity|].
  rewrite map_cons, !concat_cons. unfold CommonPrefixes in *.
  rewrite omap_app, <- IH. unfold items_of at 1. rewrite omap_app.
  fold (items_of (steps_of_page page)).
  fold (items_of (concat (List.map steps_of_page pages))).
  f_equal. unfold steps_of_page.
  change (items_of (Fetch :: List.map Item (CommonPrefixes page)))
    with (items_of (List.map Item (CommonPrefixes page))).
  apply items_of_items.
Qed.

(** *** The prefixes of the listing *)

Lemma common_prefix_idem (key p : string) :
  common_prefix key = Some p -> common_prefix p = Some p.
Proof.
  revert p. induction key as [|c key IH]; intros p Hp; [discriminate|].
  simpl in Hp. destruct (Ascii.eqb c "/") eqn:Hc.
  - injection Hp as <-. reflexivity.
  - destruct (common_prefix key) as [q|]; [|discriminate].
    injection Hp as <-. simpl. rewrite Hc, (IH q eq_refl). reflexivity.
Qed.

Lemma listing_entry_prefix (key p : string) :
  common_prefix (listing_entry key) = Some p -> p = listing_entry key.
Proof.
  unfold listing_entry. destruct (common_prefix key) as [q|] eqn:Hq; simpl.
  - rewrite (common_prefix_idem key q Hq). intros [= <-]. reflexivity.
  - rewrite Hq. discriminate.
Qed.

Lemma elem_of_listing_entries (m : gmap string s3_object) (e : string) :
  e ∈ listing_entries m <-> exists key, is_Some (m !! key) /\ e = listing_entry key.
Proof.
  unfold listing_entries. rewrite elem_of_dedup_strings, list_elem_of_In, in_map_iff.
  split.
  - intros [(key & <- & Hin) _]. exists key. split; [|reflexivity].
    apply elem_of_sorted_keys, list_elem_of_In. exact Hin.
  - intros (key & Hin & ->). split; [|apply not_elem_of_nil].
    exists key. split; [reflexivity|]. apply list_elem_of_In, elem_of_sorted_keys. exact Hin.
Qed.

(** The sweeper goes through the common prefix of every key that has one. *)
Lemma elem_of_item_prefixes (m : gmap string s3_object) (p : string) :
  p ∈ item_prefixes m <-> exists key, is_Some (m !! key) /\ common_prefix key = Some p.
Proof.
  unfold item_prefixes, CommonPrefixes. rewrite list_elem_of_omap. split.
  - intros (e & He & Hp). apply elem_of_listing_entries in He.
    destruct He as (key & Hin & ->). exists key. split; [exact Hin|].
    pose proof (listing_entry_prefix key p Hp) as Heq.
    unfold listing_entry in *. destruct (common_prefix key) as [q|] eqn:Hq; simpl in *.
    + congruence.
    + rewrite Hq in Hp. discriminate.
  - intros (key & Hin & Hp). exists p. split.
    + apply elem_of_listing_entries. exists key. split; [exact Hin|].
      unfold listing_entry. rewrite Hp. reflexivity.
    + apply (common_prefix_idem key p Hp).
Qed.

(** It goes through each of them once. *)
Lemma NoDup_item_prefixes (m : gmap string s3_object) : NoDup (item_prefixes m).
Proof.
  unfold item_prefixes, CommonPrefixes.
  assert (Hown : forall e, e ∈ listing_entries m ->
                           forall p, common_prefix e = Some p -> p = e).
  { intros e He p Hp. apply elem_of_listing_entries in He.
    destruct He as (key & _ & ->). apply listing_entry_prefix. exact Hp. }
  assert (Hnodup : NoDup (listing_entries m)) by apply NoDup_dedup_strings.
  induction (listing_entries m) as [|e l IH]; [constructor|].
  apply NoDup_cons in Hnodup. destruct Hnodup as [Hfresh Hnodup].
  simpl. destruct (common_prefix e) as [p|] eqn:Hp.
  - assert (p = e) by (apply (Hown e); [apply elem_of_cons; auto | exact Hp]). subst p.
    apply NoDup_cons. split.
    + intros Hin. apply list_elem_of_omap in Hin. destruct Hin as (e' & He' & Hp').
      assert (e = e') by (apply (Hown e'); [apply elem_of_cons; auto | exact Hp']).
      subst e'. contradiction.
    + apply IH; [|exact Hnodup]. intros e' He'. apply Hown, elem_of_cons. auto.
  - apply IH; [|exact Hnodup]. intros e' He'. apply Hown, elem_of_cons. auto.
Qed.

Lemma item_prefix_shape (m : gmap string s3_object) (p : string) :
  p ∈ item_prefixes m -> exists stem, p = stem +:+ "/" /\ common_prefix stem = None.
Proof.
  intros Hp. apply elem_of_item_prefixes in Hp. destruct Hp as (key & _ & Hp).
  destruct (common_prefix_shape key p Hp) as (stem & ? & ? & _). eauto.
Qed.

(** *** The sweep *)

Lemma client_call_log (a : action) (w w0 : world) (o : outcome unit) :
  client_call a w = (o, w0) -> log w0 = (log w ++ [a])%list.
Proof.
  unfold client_call. intros H.
  destruct (faults w) as [|[e|] rest]; injection H as <- <-; reflexivity.
Qed.

(** A request that meets no failure. *)
Lemma client_call_returns (a : action) (w : world) :
  call_fault w 0 = None ->
  exists w0, client_call a w = (Returned tt, w0) /\ same_state w w0 /\
             (faults w = [] -> faults w0 = []).
Proof.
  unfold call_fault, client_call. intros Hcall.
  destruct (faults w) as [|[e|] rest] eqn:Hf; simpl in Hcall; [| discriminate |].
  - eexists. split; [reflexivity|]. split; [repeat split|]. intros _. exact Hf.
  - eexists. split; [reflexivity|]. split; [repeat split|]. discriminate.
Qed.

(** A request that meets a failure. *)
Lemma client_call_raises (a : action) (w : world) (e : exn) :
  call_fault w 0 = Some e ->
  exists w0, client_call a w = (Raised e, w0) /\ same_state w w0.
Proof.
  unfold call_fault, client_call. intros Hcall.
  destruct (faults w) as [|[e'|] rest]; simpl in Hcall; try discriminate.
  injection Hcall as <-. eexists. split; [reflexivity|]. repeat split.
Qed.

(** The steps of a sweep over distinct prefixes, whatever the client
    meets.  The clock is left alone.  When the steps end normally every
    prefix has been counted as checked, and at most as many as deleted; they
    end otherwise only by a failed fetch.  A key is left as it was or
    deleted, and deleted only if it lies under a prefix of the sweep whose
    item had keys few enough for one request and a naive expiration time
    that some reading of the clock has passed.  When the client meets no
    failure the steps end normally, and every key of such an item that had
    expired at every reading is deleted. *)
Lemma sweep_steps_spec (rt : runtime) (l : list step) :
  forall (deleted_count checked_count : Z) (w : world),
  NoDup (items_of l) ->
  (forall p, p ∈ items_of l -> exists stem, p = stem +:+ "/" /\ common_prefix stem = None) ->
  exists (o : outcome (Z * Z)) (w' : world),
    Cleanup.for_each (run_step rt) (deleted_count, checked_count) l w = (o, w') /\
    clock w' = clock w /\
    (forall d c, o = Returned (d, c) ->
       c = checked_count + Z.of_nat (length (items_of l)) /\
       deleted_count <= d <= deleted_count + Z.of_nat (length (items_of l))) /\
    (forall e, o = Raised e ->
       Fetch ∈ l /\ exists calls, log w' = (calls ++ [ListCommonPrefixes])%list) /\
    (forall l',
       l = Fetch :: l' ->
       (forall e, call_fault w 0 = Some e -> o = Raised e /\ objects w' = objects w) /\
       (call_fault w 0 = None -> Fetch ∉ l' -> exists counts, o = Returned counts)) /\
    (forall k,
       objects w' !! k = objects w !! k \/
       objects w' !! k = None /\
       exists stem t n,
         (stem +:+ "/") ∈ items_of l /\ common_prefix stem = None /\
         String.prefix (stem +:+ "/") k = true /\
         deletable (objects w) stem = true /\
         expiration_of rt (objects w) stem = Some (Naive t) /\ t < clock w n) /\
    (faults w = [] ->
     faults w' = [] /\ (exists counts, o = Returned counts) /\
     forall k stem t,
       (stem +:+ "/") ∈ items_of l -> common_prefix stem = None ->
       String.prefix (stem +:+ "/") k = true ->
       deletable (objects w) stem = true ->
       expiration_of rt (objects w) stem = Some (Naive t) ->
       (forall n, t < clock w n) ->
       objects w' !! k = None).
Proof.
  induction l as [|s l IH]; intros deleted_count checked_count w Hnodup Hshape.
  - exists (Returned (deleted_count, checked_count)), w.
    split; [reflexivity|]. split; [reflexivity|].
    split; [intros d c [= <- <-]; simpl; lia|].
    split; [intros e Heq; discriminate|].
    split; [intros l' Heq; discriminate|].
    split; [auto|].
    intros Hf. split; [exact Hf|]. split; [eauto|].
    intros k stem t Hin. apply elem_of_nil in Hin. contradiction.
  - rewrite for_each_cons. destruct s as [|p].
    + (* the fetch of a page *)
      change (items_of (Fetch :: l)) with (items_of l) in *.
      simpl run_step. unfold bind, fetch_common_prefixes.
      destruct (client_call ListCommonPrefixes w) as [[[]|e] w0] eqn:Hcall;
        pose proof (client_call_state _ w w0 _ Hcall) as (Hobj0 & Hclock0 & _).
      * unfold ret.
        destruct (IH deleted_count checked_count w0 Hnodup Hshape)
          as (o & w' & Hrun & Hclock & Hcount & Hraised & _ & Hkeys & Hfree).
        rewrite Hobj0, Hclock0 in *.
        exists o, w'. split; [exact Hrun|]. split; [exact Hclock|].
        split; [exact Hcount|].
        split; [intros e He; split; [apply elem_of_cons; auto | apply (Hraised e He)]|].
        split.
        { intros l' [= <-]. split.
          - intros e He. destruct (client_call_raises ListCommonPrefixes w e He)
              as (w1 & Hcall' & _). congruence.
          - intros _ Hnone. destruct o as [counts|e]; [eauto|].
            exfalso. apply Hnone, (proj1 (Hraised e eq_refl)). }
        split; [exact Hkeys|].
        intros Hf. apply Hfree. unfold client_call in Hcall. rewrite Hf in Hcall.
        injection Hcall as <-. exact Hf.
      * exists (Raised e), w0. split; [reflexivity|]. split; [exact Hclock0|].
        split; [intros d c Heq; discriminate|].
        split.
        { intros e' _. split; [apply elem_of_cons; auto|].
          exists (log w). apply (client_call_log _ _ _ _ Hcall). }
        split.
        { intros l' [= <-]. split.
          - intros e' He'. destruct (client_call_raises ListCommonPrefixes w e' He')
              as (w1 & Hcall' & _). split; [congruence | exact Hobj0].
          - intros Hnone. destruct (client_call_returns ListCommonPrefixes w Hnone)
              as (w1 & Hcall' & _). congruence. }
        split; [intros k; left; rewrite Hobj0; reflexivity|].
        intros Hf. unfold client_call in Hcall. rewrite Hf in Hcall. discriminate.
    + (* the turn of one prefix *)
      change (items_of (Item p :: l)) with (p :: items_of l) in *.
      destruct (Hshape p ltac:(apply elem_of_cons; auto)) as (stem & -> & Hstem).
      apply NoDup_cons in Hnodup. destruct Hnodup as [Hfresh Hnodup].
      change (run_step rt (deleted_count, checked_count) (Item (stem +:+ "/")))
        with (Cleanup.process_prefix rt (deleted_count, checked_count) (stem +:+ "/")).
      destruct (process_prefix_spec rt deleted_count checked_count stem w Hstem)
        as (deleted1 & w1 & Hrun1 & Hclock1 & Hcount1 & Hobj1 & Hfree1).
      rewrite Hrun1.
      destruct (IH deleted1 (checked_count + 1) w1 Hnodup
                  ltac:(intros q Hq; apply Hshape, elem_of_cons; auto))
        as (o & w' & Hrun & Hclock & Hcount & Hraised & _ & Hkeys & Hfree).
      (* what the turn did to a key *)
      assert (Hturn : forall k,
                objects w1 !! k = objects w !! k \/
                objects w1 !! k = None /\ String.prefix (stem +:+ "/") k = true /\
                deletable (objects w) stem = true /\
                exists t, expiration_of rt (objects w) stem = Some (Naive t) /\
                          t < clock w (reads w)).
      { intros k. destruct Hobj1 as [Hsame|(Hdue & Hsmall & Hall)];
          [left; rewrite Hsame; reflexivity|].
        rewrite Hall. destruct (String.prefix (stem +:+ "/") k) eqn:Hpre; auto. }
      (* the items further down are seen as they were at the start *)
      assert (Hstable : forall stem',
                (stem' +:+ "/") ∈ items_of l -> common_prefix stem' = None ->
                forall k, String.prefix (stem' +:+ "/") k = true ->
                          objects w1 !! k = objects w !! k).
      { intros stem' Hin Hstem' k Hpre'.
        destruct (Hturn k) as [Hsame|(_ & Hpre & _)]; [exact Hsame|].
        exfalso. apply Hfresh.
        rewrite (prefix_disjoint stem stem' k Hstem Hstem' Hpre Hpre'). exact Hin. }
      assert (Hexpiration : forall stem',
                (stem' +:+ "/") ∈ items_of l -> common_prefix stem' = None ->
                expiration_of rt (objects w1) stem' = expiration_of rt (objects w) stem').
      { intros stem' Hin Hstem'. apply expiration_of_ext.
        apply (Hstable stem' Hin Hstem'), metadata_key_prefix. }
      assert (Hsize : forall stem',
                (stem' +:+ "/") ∈ items_of l -> common_prefix stem' = None ->
                deletable (objects w1) stem' = deletable (objects w) stem').
      { intros stem' Hin Hstem'. apply deletable_ext. apply (Hstable stem' Hin Hstem'). }
      exists o, w'. split; [exact Hrun|]. split; [congruence|].
      split.
      { intros d c Ho. destruct (Hcount d c Ho) as [Hc Hd]. simpl length. lia. }
      split.
      { intros e He. destruct (Hraised e He) as [Hin Hlog].
        split; [apply elem_of_cons; right; exact Hin | exact Hlog]. }
      split; [intros l' Heq; discriminate|].
      split.
      { intros k.
        destruct (Hkeys k) as [Hsame|(Hnone & stem' & t & n & Hin & Hstem' & Hpre & Hsmall
                                      & Hexp & Hpast)].
        - rewrite Hsame.
          destruct (Hturn k) as [Hsame1|(Hnone1 & Hpre & Hsmall & t & Hexp & Hpast)];
            [left; exact Hsame1|].
          right. split; [exact Hnone1|]. exists stem, t, (reads w).
          repeat split; auto. apply elem_of_cons; auto.
        - right. split; [exact Hnone|]. exists stem', t, n.
          rewrite (Hsize stem' Hin Hstem') in Hsmall.
          rewrite (Hexpiration stem' Hin Hstem') in Hexp.
          rewrite Hclock1 in Hpast.
          repeat split; auto. apply elem_of_cons; auto. }
      intros Hf. destruct (Hfree1 Hf) as [Hf1 Hdue1].
      destruct (Hfree Hf1) as (Hf' & Hreturned & Hdue).
      split; [exact Hf'|]. split; [exact Hreturned|].
      intros k stem' t Hin Hstem' Hpre Hsmall Hexp Hpast.
      apply elem_of_cons in Hin. destruct Hin as [Heq|Hin].
      * apply append_slash_inj in Heq. subst stem'.
        assert (Hnone1 : objects w1 !! k = None)
          by (apply (Hdue1 t Hexp (Hpast (reads w)) Hsmall k Hpre)).
        destruct (Hkeys k) as [Hsame|[Hnone _]]; congruence.
      * apply (Hdue k stem' t Hin Hstem' Hpre).
        -- rewrite (Hsize stem' Hin Hstem'). exact Hsmall.
        -- rewrite (Hexpiration stem' Hin Hstem'). exact Hexp.
        -- intros n. rewrite Hclock1. apply Hpast.
Qed.

(** The steps of the sweep of a bucket. *)
Lemma sweep_steps (m : gmap string s3_object) :
  exists rest,
    concat (List.map steps_of_page (paginate (listing_entries m))) = Fetch :: rest /\
    items_of (Fetch :: rest) = item_prefixes m /\
    ((length (listing_entries m) <= PAGE_SIZE)%nat -> Fetch ∉ rest).
Proof.
  pose proof (items_of_pages (paginate (listing_entries m))) as Hitems.
  rewrite concat_paginate in Hitems. fold (item_prefixes m) in Hitems.
  destruct (paginate_first (listing_entries m)) as (page & pages & Hpages).
  rewrite Hpages in Hitems |- *.
  rewrite map_cons, concat_cons in Hitems |- *.
  unfold steps_of_page at 1. unfold steps_of_page at 1 in Hitems.
  rewrite <- app_comm_cons in Hitems |- *.
  eexists. split; [reflexivity|]. split; [exact Hitems|].
  intros Hsingle. rewrite (paginate_single _ Hsingle) in Hpages.
  injection Hpages as <- <-. simpl. rewrite app_nil_r.
  intros Hin. apply list_elem_of_In, in_map_iff in Hin.
  destruct Hin as (p & Heq & _). discriminate.
Qed.

(** The cleanup handler, whatever the client meets. *)
Lemma sweep_handler_spec (rt : runtime) (event context : pyval) (w : world) :
  exists (r : response) (w' : world),
    Cleanup.lambda_handler rt event context w = (Returned r, w') /\
    clock w' = clock w /\
    ((exists e calls,
        r = sweep_failed rt e /\ log w' = (calls ++ [ListCommonPrefixes])%list) \/
     (exists deleted_count,
        r = {| statusCode := 200;
               headers := None;
               body := json_dumps rt
                         (PDict [("message",
                                  PStr (Cleanup.completed_message
                                          (Z.of_nat (length (item_prefixes (objects w))))
                                          deleted_count))]) |} /\
        0 <= deleted_count <= Z.of_nat (length (item_prefixes (objects w))))) /\
    (forall e, call_fault w 0 = Some e -> r = sweep_failed rt e /\ objects w' = objects w) /\
    (call_fault w 0 = None ->
     (length (listing_entries (objects w)) <= PAGE_SIZE)%nat ->
     statusCode r = 200) /\
    (forall key,
       objects w' !! key = objects w !! key \/
       objects w' !! key = None /\
       exists file_id t n,
         belongs_to key file_id /\
         deletable (objects w) file_id = true /\
         expiration_of rt (objects w) file_id = Some (Naive t) /\ t < clock w n) /\
    (faults w = [] ->
     faults w' = [] /\ statusCode r = 200 /\
     forall key file_id t,
       belongs_to key file_id ->
       deletable (objects w) file_id = true ->
       expiration_of rt (objects w) file_id = Some (Naive t) ->
       (forall n, t < clock w n) ->
       objects w' !! key = None).
Proof.
  unfold Cleanup.lambda_handler, Cleanup.lambda_handler_try, try_except.
  unfold bind at 1. unfold paginate_common_prefixes. unfold bind at 1.
  rewrite for_each_pages.
  destruct (sweep_steps (objects w)) as (rest & Hsteps & Hitems & Hsingle).
  rewrite Hsteps.
  destruct (sweep_steps_spec rt (Fetch :: rest) 0 0 w) as
    (o & w' & Hrun & Hclock & Hcount & Hraised & Hfirst & Hkeys & Hfree).
  { rewrite Hitems. apply NoDup_item_prefixes. }
  { rewrite Hitems. apply item_prefix_shape. }
  rewrite Hrun. rewrite Hitems in Hcount, Hkeys, Hfree.
  destruct (Hfirst rest eq_refl) as [Hfails Hgoes].
  (* the key clauses do not depend on how the sweep ends *)
  assert (Hsafe : forall key,
            objects w' !! key = objects w !! key \/
            objects w' !! key = None /\
            exists file_id t n,
              belongs_to key file_id /\
              deletable (objects w) file_id = true /\
              expiration_of rt (objects w) file_id = Some (Naive t) /\ t < clock w n).
  { intros key. destruct (Hkeys key)
      as [Hsame|(Hnone & stem & t & n & _ & Hstem & Hpre & Hsmall & Hexp & Hpast)];
      [left; exact Hsame|].
    right. split; [exact Hnone|]. exists stem, t, n.
    split; [apply prefix_common_prefix; assumption|]. auto. }
  assert (Hdue : faults w = [] ->
            forall key file_id t,
              belongs_to key file_id ->
              deletable (objects w) file_id = true ->
              expiration_of rt (objects w) file_id = Some (Naive t) ->
              (forall n, t < clock w n) ->
              objects w' !! key = None).
  { intros Hf key file_id t Hbelongs Hsmall Hexp Hpast.
    destruct (Hfree Hf) as (_ & _ & Hall).
    destruct (objects w !! key) as [obj|] eqn:Hk.
    2: { destruct (Hsafe key) as [Hsame|[Hnone _]]; congruence. }
    unfold belongs_to in Hbelongs.
    destruct (common_prefix_shape key _ Hbelongs) as (stem & Heq & Hstem & Hpre).
    apply append_slash_inj in Heq. subst stem.
    apply (Hall key file_id t); auto.
    apply elem_of_item_prefixes. exists key. split; [rewrite Hk; eauto | exact Hbelongs]. }
  destruct o as [[deleted_count checked_count]|e].
  - destruct (Hcount _ _ eq_refl) as [-> Hdeleted]. unfold ret.
    eexists _, _. split; [reflexivity|]. split; [exact Hclock|].
    split; [right; exists deleted_count; split; [reflexivity | lia]|].
    split.
    { intros e He. destruct (Hfails e He) as [Heq _]. discriminate. }
    split; [reflexivity|]. split; [exact Hsafe|].
    intros Hf. destruct (Hfree Hf) as (Hf' & _ & _).
    split; [exact Hf'|]. split; [reflexivity|]. apply (Hdue Hf).
  - unfold ret. eexists _, _. split; [reflexivity|]. split; [exact Hclock|].
    split.
    { left. destruct (Hraised e eq_refl) as [_ [calls Hlog]].
      exists e, calls. split; [reflexivity | exact Hlog]. }
    split.
    { intros e' He'. destruct (Hfails e' He') as [[= <-] Hobj]. auto. }
    split.
    { intros Hnone Hone. destruct (Hgoes Hnone (Hsingle Hone)) as [counts Heq].
      discriminate. }
    split; [exact Hsafe|].
    intros Hf. destruct (Hfree Hf) as (_ & [counts Heq] & _). discriminate.
Qed.

(** C5.  An expired item the sweeper never deletes.  The bucket holds one
    item, [abc], whose metadata record gives the expiration time
    [2023-01-02T00:00:00+00:00], and the clock stands at
    [2024-01-01T00:00:00].  The download handler answers 404, the file has
    expired.  The sweeper, meeting no failure, checks the item, deletes
    nothing and answers 200: comparing the clock reading with a timestamp
    that carries a UTC offset raises [TypeError], which the [except] of the
    turn swallows.  Both objects of the item are still there. *)
Theorem sweep_keeps_expired_item_with_offset :
  let w := Scenario.world_of Scenario.item_with_offset [] Scenario.frozen in
  expiration_of Sample.rt (objects w) "abc" = Some (Aware (738521 * DAY) 0) /\
  clock w 0%nat = 738885 * DAY /\
  fst (Download.lambda_handler Sample.rt (Scenario.download_event "abc") PNone w)
  = Returned (error_response Sample.rt 404 "File has expired") /\
  fst (Cleanup.lambda_handler Sample.rt PNone PNone w)
  = Returned
      {| statusCode := 200;
         headers := None;
         body := Sample.json_dumps
                   (PDict [("message",
                            PStr "Cleanup completed. Checked 1 files, deleted 0 expired files.")]) |} /\
  log (snd (Cleanup.lambda_handler Sample.rt PNone PNone w))
  = [ListCommonPrefixes; GetObject "abc/metadata.json"] /\
  objects (snd (Cleanup.lambda_handler Sample.rt PNone PNone w)) = objects w.
Proof.
  cbv zeta.
  split; [vm_compute; reflexivity|].
  split; [vm_compute; reflexivity|].
  split; [vm_compute; reflexivity|].
  split; [vm_compute; reflexivity|].
  split; [vm_compute; reflexivity|].
  vm_compute. reflexivity.
Qed.

(** ** Unexpected failures *)

(** C8, as amended.  Whatever the [try] block of the upload handler raises,
    and whatever that of the download handler raises other than a
    [KeyError], the answer is the one internal error, status 500 with the
    fixed text, which does not depend on the exception.  A failure of the
    sweep as a whole makes the cleanup handler answer 500 with an [error]
    string that ends with the text of the exception.  Every response of the
    three handlers whose status is not 200 has status 400, 404 or 500 and a
    JSON object with an [error] string as body. *)
Theorem unexpected_failures (rt : runtime) (event context : pyval) (w : world) :
  (forall e w',
     Upload.lambda_handler_try rt event (tick w) = (Raised e, w') ->
     Upload.lambda_handler rt event context w = (Returned (internal_error rt), w')) /\
  (forall e w',
     Download.lambda_handler_try rt event (tick w) = (Raised e, w') ->
     is_KeyError e = false ->
     Download.lambda_handler rt event context w = (Returned (internal_error rt), w')) /\
  (forall e w',
     Cleanup.lambda_handler_try rt w = (Raised e, w') ->
     Cleanup.lambda_handler rt event context w = (Returned (sweep_failed rt e), w')) /\
  (forall r w',
     Upload.lambda_handler rt event context w = (Returned r, w') \/
     Download.lambda_handler rt event context w = (Returned r, w') \/
     Cleanup.lambda_handler rt event context w = (Returned r, w') ->
     statusCode r <> 200 ->
     (statusCode r = 400 \/ statusCode r = 404 \/ statusCode r = 500) /\
     error_shaped rt r).
Proof.
  split; [|split; [|split]].
  - intros e w' Htry. unfold Upload.lambda_handler, bind, utcnow, try_except.
    fold (tick w). rewrite Htry. reflexivity.
  - intros e w' Htry Hkey. unfold Download.lambda_handler, bind, utcnow, try_except.
    fold (tick w). rewrite Htry, Hkey. reflexivity.
  - intros e w' Htry. unfold Cleanup.lambda_handler, try_except.
    rewrite Htry. reflexivity.
  - intros r w' Hrun Hstatus. destruct Hrun as [Hrun|[Hrun|Hrun]].
    + destruct (upload_handler_returns rt event context w)
        as (r0 & w0 & Hrun0 & _ & _ & Hcases).
      rewrite Hrun in Hrun0. injection Hrun0 as <- <-.
      destruct Hcases as [?|[[?|?] ?]]; [contradiction| |]; auto.
    + destruct (download_handler_returns rt event context w)
        as (r0 & w0 & Hrun0 & _ & _ & Hcases).
      rewrite Hrun in Hrun0. injection Hrun0 as <- <-.
      destruct Hcases as [?|[[?|[?|?]] ?]]; [contradiction| | |]; auto.
    + destruct (cleanup_handler_returns rt event context w) as (r0 & w0 & Hrun0 & Hcases).
      rewrite Hrun in Hrun0. injection Hrun0 as <- <-.
      destruct Hcases as [?|[? ?]]; [contradiction|]; auto.
Qed.

Lemma unexpected_failures_witness :
  Upload.lambda_handler Sample.rt PNone PNone (Scenario.world_of [] [] Scenario.ticking)
  = (Returned (internal_error Sample.rt), tick (Scenario.world_of [] [] Scenario.ticking)) /\
  Download.lambda_handler Sample.rt (Scenario.download_event "abc") PNone
    (Scenario.world_of Scenario.item_with_corrupt_metadata [] Scenario.ticking)
  = (Returned (internal_error Sample.rt),
     add_log (GetObject "abc/metadata.json")
       (tick (Scenario.world_of Scenario.item_with_corrupt_metadata [] Scenario.ticking))) /\
  Cleanup.lambda_handler Sample.rt PNone PNone
    (Scenario.world_of Scenario.mixed_items [Some Scenario.AccessDenied] Scenario.ticking)
  = (Returned (sweep_failed Sample.rt Scenario.AccessDenied),
     set_faults [] (add_log ListCommonPrefixes
       (Scenario.world_of Scenario.mixed_items [Some Scenario.AccessDenied] Scenario.ticking))).
Proof.
  split; [|split].
  - apply (proj1 (unexpected_failures Sample.rt PNone PNone
                    (Scenario.world_of [] [] Scenario.ticking))
             (PyError "AttributeError" "object has no attribute 'get'")).
    reflexivity.
  - apply (proj1 (proj2 (unexpected_failures Sample.rt (Scenario.download_event "abc") PNone
                    (Scenario.world_of Scenario.item_with_corrupt_metadata [] Scenario.ticking)))
             (PyError "JSONDecodeError" "invalid JSON")).
    + vm_compute. reflexivity.
    + reflexivity.
  - apply (proj1 (proj2 (proj2 (unexpected_failures Sample.rt PNone PNone
                    (Scenario.world_of Scenario.mixed_items [Some Scenario.AccessDenied]
                       Scenario.ticking))))).
    vm_compute. reflexivity.
Defined.

(** C8, as stated, fails.  The listing of the bucket is refused; the
    cleanup handler answers with a body that carries the text of the
    exception: it is not the body of the generic internal error, and it
    changes with the exception. *)
Lemma cleanup_error_carries_the_exception :
  let denied := Scenario.world_of Scenario.mixed_items [Some Scenario.AccessDenied] Scenario.ticking in
  let throttled := Scenario.world_of Scenario.mixed_items [Some Scenario.Throttled] Scenario.ticking in
  fst (Cleanup.lambda_handler_try Sample.rt denied) = Raised Scenario.AccessDenied /\
  fst (Cleanup.lambda_handler_try Sample.rt throttled) = Raised Scenario.Throttled /\
  fst (Cleanup.lambda_handler Sample.rt PNone PNone denied)
  = Returned {| statusCode := 500;
                headers := None;
                body := Sample.json_dumps
                          (PDict [("error",
                                   PStr ("An error occurred: An error occurred (AccessDenied) when calling the ListObjectsV2 operation: Access Denied"))]) |} /\
  fst (Cleanup.lambda_handler Sample.rt PNone PNone denied)
  <> Returned (internal_error Sample.rt) /\
  fst (Cleanup.lambda_handler Sample.rt PNone PNone denied)
  <> fst (Cleanup.lambda_handler Sample.rt PNone PNone throttled).
Proof.
  intros denied throttled.
  split; [vm_compute; reflexivity|].
  split; [vm_compute; reflexivity|].
  split; [vm_compute; reflexivity|].
  split; vm_compute; discriminate.
Qed.

(** * Further properties *)

Lemma read_only_ret {A : Type} (a : A) : read_only (ret a).
Proof. intros w o w' H. injection H as _ <-. reflexivity. Qed.

Lemma read_only_raise {A : Type} (e : exn) : read_only (@raise A e).
Proof. intros w o w' H. injection H as _ <-. reflexivity. Qed.

Lemma read_only_bind {A B : Type} (c : M A) (k : A -> M B) :
  read_only c -> (forall a, read_only (k a)) -> read_only (bind c k).
Proof.
  intros Hc Hk w o w' H. unfold bind in H.
  destruct (c w) as [[a|e] w1] eqn:Hcw.
  - rewrite (Hk a w1 o w' H). apply (Hc w _ w1 Hcw).
  - injection H as _ <-. apply (Hc w _ w1 Hcw).
Qed.

Lemma read_only_try_except {A : Type} (body : M A) (handler : exn -> M A) :
  read_only body -> (forall e, read_only (handler e)) -> read_only (try_except body handler).
Proof.
  intros Hb Hh w o w' H. unfold try_except in H.
  destruct (body w) as [[a|e] w1] eqn:Hbw.
  - injection H as _ <-. apply (Hb w _ w1 Hbw).
  - rewrite (Hh e w1 o w' H). apply (Hb w _ w1 Hbw).
Qed.

Lemma read_only_lift_option {A : Type} (o : option A) (e : exn) : read_only (lift_option o e).
Proof. destruct o; [apply read_only_ret | apply read_only_raise]. Qed.

Lemma read_only_client_call (a : action) : read_only (client_call a).
Proof. intros w o w' H. apply client_call_state in H. apply H. Qed.

Lemma read_only_utcnow : read_only utcnow.
Proof. intros w o w' H. injection H as _ <-. reflexivity. Qed.

Lemma read_only_get_loop (key : string) (left retries : nat) :
  read_only (Download.get_loop key left retries).
Proof. intros w o w' H. apply get_loop_state in H. apply H. Qed.

Lemma read_only_head_object (key : string) : read_only (head_object key).
Proof. intros w o w' H. apply head_object_state in H. apply H. Qed.

Lemma read_only_is_file_expired (rt : runtime) (v : pyval) :
  read_only (Download.is_file_expired rt v).
Proof.
  unfold Download.is_file_expired. apply read_only_try_except.
  - apply read_only_bind.
    + unfold parse_datetime. destruct v; try apply read_only_raise.
      apply read_only_lift_option.
    + intros d. apply read_only_bind; [apply read_only_utcnow|].
      intros now. unfold naive_gt. destruct d; [apply read_only_ret | apply read_only_raise].
  - intros e. apply read_only_ret.
Qed.

Lemma read_only_download_try (rt : runtime) (event : pyval) :
  read_only (Download.lambda_handler_try rt event).
Proof.
  unfold Download.lambda_handler_try.
  apply read_only_bind.
  { unfold subscript. destruct event; try apply read_only_raise. apply read_only_lift_option. }
  intros path_parameters. apply read_only_bind.
  { unfold subscript. destruct path_parameters; try apply read_only_raise.
    apply read_only_lift_option. }
  intros file_id. apply read_only_bind; [apply read_only_get_loop|].
  intros [metadata_response|]; [|apply read_only_ret].
  apply read_only_bind.
  { unfold read_json. apply read_only_bind; [apply read_only_lift_option|].
    intros text. apply read_only_lift_option. }
  intros metadata. apply read_only_bind.
  { unfold dict_items. destruct metadata; try apply read_only_raise. apply read_only_ret. }
  intros items. apply read_only_bind; [apply read_only_is_file_expired|].
  intros [|]; [apply read_only_ret|].
  apply read_only_bind; [apply read_only_head_object|].
  intros response. simpl.
  apply read_only_bind; [|intros url; apply read_only_ret].
  unfold Download.generate_download_url.
  apply read_only_bind; [apply read_only_client_call|]. intros _. apply read_only_ret.
Qed.

(** X1.  The download handler never changes the bucket: whatever the event,
    the contents of the bucket and the failures of the client, the objects
    are after the call what they were before. *)
Theorem download_is_read_only (rt : runtime) (event context : pyval) (w : world) :
  objects (snd (Download.lambda_handler rt event context w)) = objects w.
Proof.
  assert (H : read_only (Download.lambda_handler rt event context)).
  { unfold Download.lambda_handler. apply read_only_bind; [apply read_only_utcnow|].
    intros _. apply read_only_try_except; [apply read_only_download_try|].
    intros e. destruct (is_KeyError e); apply read_only_ret. }
  destruct (Download.lambda_handler rt event context w) as [o w'] eqn:Hrun.
  apply (H w o w' Hrun).
Qed.

Lemma download_live_item (rt : runtime) (event context : pyval) (w w1 : world)
    (file_id : pyval) (metadata : list (string * pyval)) (s : string) (t : Z)
    (content : s3_object) :
  requested_file_id event = Some file_id ->
  reads_metadata rt file_id w metadata w1 ->
  dict_get "expiration_time" metadata = PStr s ->
  fromisoformat rt s = Some (Naive t) ->
  clock w1 (reads w1) <= t ->
  faults w1 = [] ->
  objects w1 !! content_key rt file_id metadata = Some content ->
  Download.lambda_handler rt event context w =
  (Returned
     {| statusCode := 200;
        headers := Some JSON_HEADERS;
        body := json_dumps rt
                  (PDict [("download_url",
                           PStr (presigned_url rt (content_key rt file_id metadata)
                                   (content_disposition rt metadata)
                                   Download.DOWNLOAD_URL_EXPIRY));
                          ("filename", dict_get "original_filename" metadata);
                          ("content_type", dict_get "content_type" metadata);
                          ("expiration_time", PStr s)]) |},
   add_log (PresignedUrl (content_key rt file_id metadata))
     (add_log (HeadObject (content_key rt file_id metadata)) (tick w1))).
Proof.
  intros Hid Hmeta Hexp Hs Hlive Hfaults Hcontent.
  rewrite (download_with_metadata rt event context w w1 file_id metadata Hid Hmeta).
  unfold try_except, bind. rewrite Hexp.
  rewrite (is_file_expired_naive rt s t w1 Hs).
  replace (clock w1 (reads w1) >? t) with false
    by (symmetry; rewrite Z.gtb_ltb; apply Z.ltb_ge; lia).
  unfold content_key in *.
  unfold head_object, bind, client_call. simpl. rewrite Hfaults. simpl.
  rewrite Hcontent.
  unfold Download.generate_download_url, bind, client_call. simpl. rewrite Hfaults.
  reflexivity.
Qed.

(** X2.  The download of a live item.  The metadata record is found, its
    expiration time parses to a naive timestamp that the clock has not
    passed (the instant of expiry included), the content object is there
    and the client meets no further failure: the handler answers 200 with
    a presigned URL for the content key, valid 900 seconds and asking for
    an attachment named after the original file, together with the
    filename, the content type and the expiration time of the record.  It
    has then made one [head_object] and one signing call. *)
Theorem download_serves_live_item (rt : runtime) (event context : pyval) (w w1 : world)
    (file_id : pyval) (metadata : list (string * pyval)) (s : string) (t : Z)
    (content : s3_object) :
  requested_file_id event = Some file_id ->
  reads_metadata rt file_id w metadata w1 ->
  dict_get "expiration_time" metadata = PStr s ->
  fromisoformat rt s = Some (Naive t) ->
  clock w1 (reads w1) <= t ->
  faults w1 = [] ->
  objects w1 !! content_key rt file_id metadata = Some content ->
  Download.lambda_handler rt event context w =
  (Returned
     {| statusCode := 200;
        headers := Some JSON_HEADERS;
        body := json_dumps rt
                  (PDict [("download_url",
                           PStr (presigned_url rt (content_key rt file_id metadata)
                                   (content_disposition rt metadata)
                                   Download.DOWNLOAD_URL_EXPIRY));
                          ("filename", dict_get "original_filename" metadata);
                          ("content_type", dict_get "content_type" metadata);
                          ("expiration_time", PStr s)]) |},
   add_log (PresignedUrl (content_key rt file_id metadata))
     (add_log (HeadObject (content_key rt file_id metadata)) (tick w1))).
Proof.
  exact (download_live_item rt event context w w1 file_id metadata s t content).
Qed.

Lemma download_serves_live_item_witness :
  Download.lambda_handler Sample.rt (Scenario.download_event "abc") PNone
    (Scenario.world_of Scenario.live_item [] Scenario.frozen)
  = (Returned
       {| statusCode := 200;
          headers := Some JSON_HEADERS;
          body := Sample.json_dumps
                    (PDict [("download_url",
                             PStr "https://file-sharing-system.s3.amazonaws.com/abc/a.txt");
                            ("filename", PStr "a.txt");
                            ("content_type", PStr "text/plain");
                            ("expiration_time", PStr "2024-01-02T00:00:00")]) |},
     add_log (PresignedUrl "abc/a.txt")
       (add_log (HeadObject "abc/a.txt")
          (tick (add_log (GetObject "abc/metadata.json")
                   (tick (Scenario.world_of Scenario.live_item [] Scenario.frozen)))))).
Proof.
  refine (download_serves_live_item Sample.rt (Scenario.download_event "abc") PNone
            (Scenario.world_of Scenario.live_item [] Scenario.frozen) _ (PStr "abc")
            [("original_filename", PStr "a.txt"); ("content_type", PStr "text/plain");
             ("expiration_time", PStr "2024-01-02T00:00:00");
             ("upload_time", PStr "2024-01-01T00:00:00"); ("file_size", PStr "100")]
            "2024-01-02T00:00:00" (738886 * DAY) (Scenario.object_of "hello") _ _ _ _ _ _ _).
  - reflexivity.
  - exists (Scenario.object_of
              (Scenario.metadata_text "a.txt" "text/plain" "2024-01-02T00:00:00"
                 "2024-01-01T00:00:00" "100")).
    eexists. split; [vm_compute; reflexivity|].
    split; [vm_compute; reflexivity | vm_compute; reflexivity].
  - reflexivity.
  - vm_compute. reflexivity.
  - vm_compute. discriminate.
  - reflexivity.
  - vm_compute. reflexivity.
Defined.

(** X3.  A download request without identifier.  An event that is a dict
    without [pathParameters], or whose [pathParameters] is a dict without
    [file_id], is answered 400 with a message that names the missing key.
    An event that is not a dict, or whose [pathParameters] is not a dict
    (API Gateway sends [null] for a route without parameters), is answered
    with the internal error, status 500.  No client call is made in any of
    these cases. *)
Theorem download_without_identifier (rt : runtime) (context : pyval) (w : world) :
  (forall items,
     assoc_get "pathParameters" items = None ->
     Download.lambda_handler rt (PDict items) context w
     = (Returned (error_response rt 400 "Missing required parameter: 'pathParameters'"),
        tick w)) /\
  (forall items path_parameters,
     assoc_get "pathParameters" items = Some (PDict path_parameters) ->
     assoc_get "file_id" path_parameters = None ->
     Download.lambda_handler rt (PDict items) context w
     = (Returned (error_response rt 400 "Missing required parameter: 'file_id'"), tick w)) /\
  (forall items v,
     assoc_get "pathParameters" items = Some v ->
     (forall path_parameters, v <> PDict path_parameters) ->
     Download.lambda_handler rt (PDict items) context w
     = (Returned (internal_error rt), tick w)) /\
  (forall event,
     (forall items, event <> PDict items) ->
     Download.lambda_handler rt event context w = (Returned (internal_error rt), tick w)).
Proof.
  unfold Download.lambda_handler, Download.lambda_handler_try, try_except, bind, utcnow.
  fold (tick w). split; [|split; [|split]].
  - intros items Hpp. simpl. rewrite Hpp. reflexivity.
  - intros items path_parameters Hpp Hid. simpl. rewrite Hpp. simpl. rewrite Hid. reflexivity.
  - intros items v Hpp Hv. simpl. rewrite Hpp. simpl.
    destruct v; try reflexivity. exfalso. eapply Hv. reflexivity.
  - intros event Hev. destruct event; try reflexivity. exfalso. eapply Hev. reflexivity.
Qed.

Lemma download_without_identifier_witness :
  Download.lambda_handler Sample.rt (PDict [("path", PStr "/download")]) PNone
    (Scenario.world_of Scenario.live_item [] Scenario.frozen)
  = (Returned (error_response Sample.rt 400 "Missing required parameter: 'pathParameters'"),
     tick (Scenario.world_of Scenario.live_item [] Scenario.frozen)) /\
  Download.lambda_handler Sample.rt (PDict [("pathParameters", PDict [("id", PStr "abc")])]) PNone
    (Scenario.world_of Scenario.live_item [] Scenario.frozen)
  = (Returned (error_response Sample.rt 400 "Missing required parameter: 'file_id'"),
     tick (Scenario.world_of Scenario.live_item [] Scenario.frozen)) /\
  Download.lambda_handler Sample.rt (PDict [("pathParameters", PNone)]) PNone
    (Scenario.world_of Scenario.live_item [] Scenario.frozen)
  = (Returned (internal_error Sample.rt),
     tick (Scenario.world_of Scenario.live_item [] Scenario.frozen)) /\
  Download.lambda_handler Sample.rt (PList []) PNone
    (Scenario.world_of Scenario.live_item [] Scenario.frozen)
  = (Returned (internal_error Sample.rt),
     tick (Scenario.world_of Scenario.live_item [] Scenario.frozen)).
Proof.
  pose proof (download_without_identifier Sample.rt PNone
                (Scenario.world_of Scenario.live_item [] Scenario.frozen))
    as (Hmissing & Hno_id & Hnot_dict & Hevent).
  split; [|split; [|split]].
  - apply Hmissing. reflexivity.
  - apply (Hno_id _ [("id", PStr "abc")]); reflexivity.
  - apply (Hnot_dict _ PNone); [reflexivity | discriminate].
  - apply Hevent. discriminate.
Defined.

(** X4.  [is_file_expired] never raises, and its verdict is: expired when
    the value is not a string, when the string does not parse, when it
    parses to a timestamp with a UTC offset, and when it parses to a naive
    timestamp strictly before the clock reading; not expired when the
    naive timestamp is the clock reading or later.  The clock is read only
    when the value parses. *)
Theorem is_file_expired_verdict (rt : runtime) (v : pyval) (w : world) :
  Download.is_file_expired rt v w =
  match v with
  | PStr s =>
      match fromisoformat rt s with
      | Some (Naive t) => (Returned (negb (clock w (reads w) <=? t)), tick w)
      | Some (Aware _ _) => (Returned true, tick w)
      | None => (Returned true, w)
      end
  | _ => (Returned true, w)
  end.
Proof.
  unfold Download.is_file_expired, try_except, bind, parse_datetime.
  destruct v; try reflexivity.
  simpl. destruct (fromisoformat rt s) as [[t|t offset]|]; try reflexivity.
  simpl. unfold tick. f_equal. f_equal.
  rewrite Z.gtb_ltb, Z.ltb_antisym. reflexivity.
Qed.

(** ** The sweeper when the client fails *)

(** X5.  The sweeper is safe whatever the client meets.  The cleanup
    handler always returns.  It answers either 500 with the text of an
    exception, and then the last client call it made is the fetch of a
    page of the listing, or 200 with a message that counts one checked
    file per item prefix of the bucket and no more deleted files than
    checked ones.  When the first fetch fails the answer is 500 and the
    bucket is as it was.  A listing of at most 1000 entries is one page:
    the answer is then 200 as soon as the first fetch goes through.  In
    every case no object is created or changed, and an object is deleted
    only if it belongs to an item that had at most 1000 objects and whose
    metadata record, as it was before the sweep, gave a naive expiration
    time that some reading of the clock has passed. *)
Theorem sweep_is_safe_under_failures (rt : runtime) (event context : pyval) (w : world) :
  exists (r : response) (w' : world),
    Cleanup.lambda_handler rt event context w = (Returned r, w') /\
    ((exists e calls,
        r = sweep_failed rt e /\ log w' = (calls ++ [ListCommonPrefixes])%list) \/
     (exists deleted_count,
        r = {| statusCode := 200;
               headers := None;
               body := json_dumps rt
                         (PDict [("message",
                                  PStr (Cleanup.completed_message
                                          (Z.of_nat (length (item_prefixes (objects w))))
                                          deleted_count))]) |} /\
        0 <= deleted_count <= Z.of_nat (length (item_prefixes (objects w))))) /\
    (forall e, call_fault w 0 = Some e -> r = sweep_failed rt e /\ objects w' = objects w) /\
    (call_fault w 0 = None ->
     (length (listing_entries (objects w)) <= PAGE_SIZE)%nat ->
     statusCode r = 200) /\
    (forall key,
       objects w' !! key = objects w !! key \/
       objects w' !! key = None /\
       exists file_id t n,
         belongs_to key file_id /\
         deletable (objects w) file_id = true /\
         expiration_of rt (objects w) file_id = Some (Naive t) /\ t < clock w n).
Proof.
  destruct (sweep_handler_spec rt event context w)
    as (r & w' & Hrun & _ & Hanswer & Hfirst & Hsingle & Hsafe & _).
  exists r, w'. auto.
Qed.

(** ** Sweeping again *)

Lemma expiration_of_metadata_present (rt : runtime) (m : gmap string s3_object)
    (stem : string) (expiration : datetime) :
  expiration_of rt m stem = Some expiration -> is_Some (m !! (stem +:+ "/metadata.json")).
Proof.
  unfold expiration_of. destruct (m !! (stem +:+ "/metadata.json")); [eauto | discriminate].
Qed.

Lemma metadata_belongs_to (stem : string) :
  common_prefix stem = None -> belongs_to (stem +:+ "/metadata.json") stem.
Proof.
  intros Hstem. unfold belongs_to.
  apply (prefix_common_prefix stem _ Hstem), metadata_key_prefix.
Qed.

(** X6.  Sweeping twice.  With a clock that stands still and a client that
    meets no failure, a second sweep right after the first finds nothing
    left to delete: it leaves the bucket as the first sweep left it. *)
Theorem second_sweep_changes_nothing (rt : runtime) (event context : pyval) (w : world)
    (now : Z) :
  faults w = [] ->
  (forall n, clock w n = now) ->
  let w1 := snd (Cleanup.lambda_handler rt event context w) in
  objects (snd (Cleanup.lambda_handler rt event context w1)) = objects w1.
Proof.
  intros Hfaults Hfrozen w1.
  destruct (sweep_handler_spec rt event context w)
    as (r & w' & Hrun & Hclock' & _ & _ & _ & Hsafe1 & Hfree1).
  destruct (Hfree1 Hfaults) as (_ & _ & Hdue1).
  subst w1. rewrite Hrun. simpl.
  destruct (sweep_handler_spec rt event context w')
    as (r2 & w2 & Hrun2 & _ & _ & _ & _ & Hsafe2 & _).
  rewrite Hrun2. simpl. apply map_eq. intros key.
  destruct (Hsafe2 key) as [Hsame|(Hnone & stem & t & n & Hbelongs & Hsmall & Hexp & Hpast)];
    [exact Hsame|].
  exfalso.
  destruct (expiration_of_metadata_present rt _ stem _ Hexp) as [obj Hobj].
  unfold belongs_to in Hbelongs.
  destruct (common_prefix_shape key _ Hbelongs) as (stem' & Heq & Hstem & _).
  apply append_slash_inj in Heq. subst stem'.
  (* the first sweep deletes all of an item or nothing of it: the record of
     this one is still there, so the item is as it was *)
  assert (Hitem : forall k, String.prefix (stem +:+ "/") k = true ->
                            objects w' !! k = objects w !! k).
  { intros k Hpre.
    destruct (Hsafe1 k) as [Hs|(_ & stem1 & t1 & n1 & Hb1 & Hsmall1 & Hexp1 & Hpast1)];
      [exact Hs|].
    exfalso. unfold belongs_to in Hb1.
    rewrite (prefix_common_prefix stem k Hstem Hpre) in Hb1. injection Hb1 as Hb1.
    apply append_slash_inj in Hb1. subst stem1.
    assert (Hgone : objects w' !! (stem +:+ "/metadata.json") = None).
    { apply (Hdue1 _ stem t1 (metadata_belongs_to stem Hstem) Hsmall1 Hexp1).
      intros m. rewrite Hfrozen. rewrite Hfrozen in Hpast1. exact Hpast1. }
    congruence. }
  assert (Hexp0 : expiration_of rt (objects w) stem = Some (Naive t)).
  { rewrite <- (expiration_of_ext rt (objects w') (objects w) stem
                  (Hitem _ (metadata_key_prefix stem))). exact Hexp. }
  assert (Hsmall0 : deletable (objects w) stem = true).
  { rewrite <- (deletable_ext (objects w') (objects w) stem Hitem). exact Hsmall. }
  assert (Hgone : objects w' !! (stem +:+ "/metadata.json") = None).
  { apply (Hdue1 _ stem t (metadata_belongs_to stem Hstem) Hsmall0 Hexp0).
    intros m. rewrite Hfrozen. rewrite Hclock', Hfrozen in Hpast. exact Hpast. }
  congruence.
Qed.

Lemma second_sweep_changes_nothing_witness :
  let w1 := snd (Cleanup.lambda_handler Sample.rt PNone PNone
                   (Scenario.world_of Scenario.mixed_items [] Scenario.frozen)) in
  objects (snd (Cleanup.lambda_handler Sample.rt PNone PNone w1)) = objects w1.
Proof.
  apply (second_sweep_changes_nothing Sample.rt PNone PNone
           (Scenario.world_of Scenario.mixed_items [] Scenario.frozen) Scenario.T2024).
  - reflexivity.
  - intros n. reflexivity.
Defined.

(** X7.  An expiration time with a UTC offset.  When the [expiration_time]
    of a metadata record parses to a timestamp that carries a UTC offset,
    the download handler answers 404 as for an expired file, whatever the
    time; the sweeper, whatever the time and whatever the client meets,
    leaves every object of the item in place. *)
Theorem offset_expiration_is_expired_yet_never_swept (rt : runtime) (event context : pyval)
    (w w1 : world) (file_id : string) (obj : s3_object) (text : string)
    (metadata : list (string * pyval)) (s : string) (t offset : Z) :
  decode_utf8 rt (Body obj) = Some text ->
  json_loads rt text = Some (PDict metadata) ->
  assoc_get "expiration_time" metadata = Some (PStr s) ->
  fromisoformat rt s = Some (Aware t offset) ->
  (requested_file_id event = Some (PStr file_id) ->
   Download.s3_get_with_retry (file_id +:+ "/metadata.json") Download.MAX_RETRIES (tick w)
   = (Returned (Some obj), w1) ->
   Download.lambda_handler rt event context w
   = (Returned (error_response rt 404 "File has expired"), tick w1)) /\
  (objects w !! (file_id +:+ "/metadata.json") = Some obj ->
   forall key,
     belongs_to key file_id ->
     objects (snd (Cleanup.lambda_handler rt event context w)) !! key = objects w !! key).
Proof.
  intros Hdec Hjson Hexp Hs. split.
  - intros Hid Hget.
    assert (Hmeta : reads_metadata rt (PStr file_id) w metadata w1).
    { exists obj, text. auto. }
    rewrite (download_with_metadata rt event context w w1 (PStr file_id) metadata Hid Hmeta).
    unfold try_except, bind, dict_get. rewrite Hexp.
    unfold Download.is_file_expired, try_except, bind, parse_datetime. rewrite Hs.
    reflexivity.
  - intros Hobj key Hbelongs.
    destruct (sweep_handler_spec rt event context w)
      as (r & w' & Hrun & _ & _ & _ & _ & Hsafe & _).
    rewrite Hrun. simpl.
    destruct (Hsafe key) as [Hsame|(_ & stem & t' & n & Hb & _ & He & _)]; [exact Hsame|].
    exfalso. unfold belongs_to in *. rewrite Hbelongs in Hb. injection Hb as Hb.
    apply append_slash_inj in Hb. subst stem.
    unfold expiration_of in He. rewrite Hobj, Hdec, Hjson, Hexp, Hs in He. discriminate.
Qed.

Lemma offset_expiration_is_expired_yet_never_swept_witness :
  let w := Scenario.world_of Scenario.item_with_offset [] Scenario.frozen in
  Download.lambda_handler Sample.rt (Scenario.download_event "abc") PNone w
  = (Returned (error_response Sample.rt 404 "File has expired"),
     tick (add_log (GetObject "abc/metadata.json") (tick w))) /\
  objects (snd (Cleanup.lambda_handler Sample.rt PNone PNone w)) !! "abc/a.txt"
  = objects w !! "abc/a.txt".
Proof.
  cbv zeta.
  pose proof (offset_expiration_is_expired_yet_never_swept Sample.rt) as H.
  split.
  - refine (proj1 (H (Scenario.download_event "abc") PNone
                     (Scenario.world_of Scenario.item_with_offset [] Scenario.frozen) _ "abc"
                     (Scenario.object_of
                        (Scenario.metadata_text "a.txt" "text/plain" "2023-01-02T00:00:00+00:00"
                           "2023-01-01T00:00:00" "100"))
                     _
                     [("original_filename", PStr "a.txt"); ("content_type", PStr "text/plain");
                      ("expiration_time", PStr "2023-01-02T00:00:00+00:00");
                      ("upload_time", PStr "2023-01-01T00:00:00"); ("file_size", PStr "100")]
                     "2023-01-02T00:00:00+00:00" (738521 * DAY) 0 _ _ _ _) _ _).
    + vm_compute. reflexivity.
    + vm_compute. reflexivity.
    + reflexivity.
    + vm_compute. reflexivity.
    + reflexivity.
    + vm_compute. reflexivity.
  - refine (proj2 (H PNone PNone
                     (Scenario.world_of Scenario.item_with_offset [] Scenario.frozen)
                     (Scenario.world_of Scenario.item_with_offset [] Scenario.frozen) "abc"
                     (Scenario.object_of
                        (Scenario.metadata_text "a.txt" "text/plain" "2023-01-02T00:00:00+00:00"
                           "2023-01-01T00:00:00" "100"))
                     _
                     [("original_filename", PStr "a.txt"); ("content_type", PStr "text/plain");
                      ("expiration_time", PStr "2023-01-02T00:00:00+00:00");
                      ("upload_time", PStr "2023-01-01T00:00:00"); ("file_size", PStr "100")]
                     "2023-01-02T00:00:00+00:00" (738521 * DAY) 0 _ _ _ _) _ "abc/a.txt" _).
    + vm_compute. reflexivity.
    + vm_compute. reflexivity.
    + reflexivity.
    + vm_compute. reflexivity.
    + vm_compute. reflexivity.
    + reflexivity.
Defined.

(** ** The sweep without failures *)

(** X17.  The sweep when the client meets no failure.  The handler answers
    200 and, with respect to the bucket it started from: every object of
    an item is deleted when the item's metadata record gives a naive
    expiration time that lies before all readings of the clock and the
    item has at most 1000 objects, the most one delete request takes;
    every object of an item is left as it was when its naive expiration
    time no reading has passed, when its expiration time carries a UTC
    offset, when its metadata record is absent, unreadable or without a
    timestamp, or when it has more than 1000 objects; so is every object
    outside the items. *)
Theorem sweep_deletes_what_is_due (rt : runtime) (event context : pyval) (w : world) :
  faults w = [] ->
  exists (r : response) (w' : world),
    Cleanup.lambda_handler rt event context w = (Returned r, w') /\
    statusCode r = 200 /\
    (forall key file_id t,
       belongs_to key file_id ->
       expiration_of rt (objects w) file_id = Some (Naive t) ->
       (forall n, t < clock w n) ->
       deletable (objects w) file_id = true ->
       objects w' !! key = None) /\
    (forall key file_id t,
       belongs_to key file_id ->
       expiration_of rt (objects w) file_id = Some (Naive t) ->
       (forall n, clock w n <= t) ->
       objects w' !! key = objects w !! key) /\
    (forall key file_id t offset,
       belongs_to key file_id ->
       expiration_of rt (objects w) file_id = Some (Aware t offset) ->
       objects w' !! key = objects w !! key) /\
    (forall key file_id,
       belongs_to key file_id ->
       expiration_of rt (objects w) file_id = None ->
       objects w' !! key = objects w !! key) /\
    (forall key file_id,
       belongs_to key file_id ->
       deletable (objects w) file_id = false ->
       objects w' !! key = objects w !! key) /\
    (forall key,
       common_prefix key = None ->
       objects w' !! key = objects w !! key).
Proof.
  intros Hfaults.
  destruct (sweep_handler_spec rt event context w)
    as (r & w' & Hrun & _ & _ & _ & _ & Hsafe & Hfree).
  destruct (Hfree Hfaults) as (_ & Hstatus & Hdue).
  exists r, w'. split; [exact Hrun|]. split; [exact Hstatus|].
  assert (Hkept : forall key,
            (forall stem t n, belongs_to key stem ->
               deletable (objects w) stem = true ->
               expiration_of rt (objects w) stem = Some (Naive t) ->
               t < clock w n -> False) ->
            objects w' !! key = objects w !! key).
  { intros key Hnot.
    destruct (Hsafe key) as [Hsame|(_ & stem & t & n & Hb & Hsmall & Hexp & Hpast)];
      [exact Hsame|].
    exfalso. apply (Hnot stem t n Hb Hsmall Hexp Hpast). }
  assert (Hitem : forall key file_id stem,
            belongs_to key file_id -> belongs_to key stem -> stem = file_id).
  { unfold belongs_to. intros key file_id stem Hb Hb'. rewrite Hb in Hb'.
    injection Hb' as Heq. symmetry. apply append_slash_inj. exact Heq. }
  split; [|split; [|split; [|split; [|split]]]].
  - intros key file_id t Hbelongs Hexp Hpast Hsmall.
    apply (Hdue key file_id t Hbelongs Hsmall Hexp Hpast).
  - intros key file_id t Hbelongs Hexp Hlive. apply Hkept.
    intros stem t' n Hb _ He Hp. rewrite (Hitem key file_id stem Hbelongs Hb) in He.
    rewrite Hexp in He. injection He as <-. specialize (Hlive n). lia.
  - intros key file_id t offset Hbelongs Hexp. apply Hkept.
    intros stem t' n Hb _ He _. rewrite (Hitem key file_id stem Hbelongs Hb) in He.
    congruence.
  - intros key file_id Hbelongs Hexp. apply Hkept.
    intros stem t' n Hb _ He _. rewrite (Hitem key file_id stem Hbelongs Hb) in He.
    congruence.
  - intros key file_id Hbelongs Hbig. apply Hkept.
    intros stem t' n Hb Hsmall _ _. rewrite (Hitem key file_id stem Hbelongs Hb) in Hsmall.
    congruence.
  - intros key Hfree'. apply Hkept.
    intros stem t' n Hb _ _ _. unfold belongs_to in Hb. congruence.
Qed.

Lemma sweep_deletes_what_is_due_witness :
  exists (r : response) (w' : world),
    let w := Scenario.world_of Scenario.mixed_items [] Scenario.frozen in
    Cleanup.lambda_handler Sample.rt PNone PNone w = (Returned r, w') /\
    statusCode r = 200 /\
    objects w' !! "old/a.txt" = None /\
    objects w' !! "old/metadata.json" = None /\
    objects w' !! "live/b.txt" = objects w !! "live/b.txt" /\
    objects w' !! "bad/c.txt" = objects w !! "bad/c.txt" /\
    objects w' !! "orphan/d.txt" = objects w !! "orphan/d.txt" /\
    objects w' !! "readme" = objects w !! "readme".
Proof.
  destruct (sweep_deletes_what_is_due Sample.rt PNone PNone
              (Scenario.world_of Scenario.mixed_items [] Scenario.frozen) eq_refl)
    as (r & w' & Hrun & Hstatus & Hexpired & Hlive & _ & Hbad & _ & Hfree).
  exists r, w'. cbv zeta.
  split; [exact Hrun|]. split; [exact Hstatus|].
  split; [|split; [|split; [|split; [|split]]]].
  - apply (Hexpired "old/a.txt" "old" (738521 * DAY));
      [reflexivity | vm_compute; reflexivity | | vm_compute; reflexivity].
    intros n. vm_compute. reflexivity.
  - apply (Hexpired "old/metadata.json" "old" (738521 * DAY));
      [reflexivity | vm_compute; reflexivity | | vm_compute; reflexivity].
    intros n. vm_compute. reflexivity.
  - apply (Hlive "live/b.txt" "live" (738885 * DAY + 12 * HOUR));
      [reflexivity | vm_compute; reflexivity|].
    intros n. vm_compute. discriminate.
  - apply (Hbad "bad/c.txt" "bad"); [reflexivity | vm_compute; reflexivity].
  - apply (Hbad "orphan/d.txt" "orphan"); [reflexivity | vm_compute; reflexivity].
  - apply Hfree. reflexivity.
Defined.

(** ** More on the upload handler *)

Lemma process_request_rejected (rt : runtime) (fields : list (string * pyval)) (w : world) :
  accepted fields = false ->
  exists message,
    Upload.process_request rt fields w = (Returned (error_response rt 400 message), w).
Proof.
  unfold accepted, Upload.process_request. intros Hrej.
  destruct (truthy (dict_get "filename" fields)); [|eexists; reflexivity].
  destruct (truthy (dict_get "content_type" fields)); [|eexists; reflexivity].
  destruct (truthy (dict_get "file_size" fields)); [|eexists; reflexivity].
  destruct (isinstance_int (dict_get "file_size" fields)); [|eexists; reflexivity].
  simpl in *. rewrite Z.gtb_ltb, Z.ltb_antisym.
  destruct (int_value (dict_get "file_size" fields) <=? Upload.MAX_FILE_SIZE);
    [|eexists; reflexivity].
  simpl in *. rewrite Hrej. eexists. reflexivity.
Qed.

Lemma process_request_accepted (rt : runtime) (fields : list (string * pyval)) (w : world) :
  accepted fields = true ->
  Upload.process_request rt fields w =
  (file_id <- uuid4 ;;
   now <- utcnow ;;
   expiration_time <- Upload.plus_24_hours now ;;
   upload_time <- utcnow ;;
   Upload.s3_put_with_retry (file_id +:+ "/metadata.json")
     (Some (json_dumps rt (metadata_record rt fields expiration_time upload_time)))
     None (Some "application/json") Upload.MAX_RETRIES ;;;
   upload_data <- Upload.generate_upload_url rt file_id (dict_get "filename" fields)
                    (dict_get "content_type" fields) (dict_get "file_size" fields) ;;
   ret {| statusCode := 200;
          headers := Some JSON_HEADERS;
          body := json_dumps rt
                    (PDict [("file_id", PStr file_id);
                            ("upload_data", upload_data);
                            ("download_path", PStr ("/download/" +:+ file_id));
                            ("expiration_time", PStr (isoformat expiration_time))]) |}) w.
Proof.
  unfold accepted, Upload.process_request. intros Hacc.
  repeat (apply andb_true_iff in Hacc; destruct Hacc as [Hacc ?]).
  rewrite Hacc. simpl.
  repeat match goal with H : _ = true |- _ => rewrite H; clear H end.
  simpl. rewrite Z.gtb_ltb, Z.ltb_antisym.
  match goal with |- context [negb (negb ?b)] => idtac | _ => idtac end.
  destruct (int_value (dict_get "file_size" fields) <=? Upload.MAX_FILE_SIZE) eqn:Hsize;
    [|discriminate].
  reflexivity.
Qed.

Lemma plus_24_hours_in_range (t : Z) (w : world) :
  t + 24 * HOUR <= DATETIME_MAX ->
  Upload.plus_24_hours t w = (Returned (t + 24 * HOUR), w).
Proof.
  intros Hok. unfold Upload.plus_24_hours.
  replace (t + 24 * HOUR >? DATETIME_MAX) with false
    by (symmetry; rewrite Z.gtb_ltb; apply Z.ltb_ge; lia).
  reflexivity.
Qed.

(** The accepted request up to the put: what remains is the put, the
    signing and the response. *)
Lemma upload_accepted_up_to_put (rt : runtime) (event context : pyval) (w : world)
    (fields : list (string * pyval)) :
  request_fields rt event = Some fields ->
  accepted fields = true ->
  clock w (S (reads w)) + 24 * HOUR <= DATETIME_MAX ->
  let file_id := uuids w (minted w) in
  let expiration_time := clock w (S (reads w)) + 24 * HOUR in
  let upload_time := clock w (S (S (reads w))) in
  Upload.lambda_handler rt event context w =
  try_except
    (Upload.s3_put_with_retry (file_id +:+ "/metadata.json")
       (Some (json_dumps rt (metadata_record rt fields expiration_time upload_time)))
       None (Some "application/json") Upload.MAX_RETRIES ;;;
     upload_data <- Upload.generate_upload_url rt file_id (dict_get "filename" fields)
                      (dict_get "content_type" fields) (dict_get "file_size" fields) ;;
     ret {| statusCode := 200;
            headers := Some JSON_HEADERS;
            body := json_dumps rt
                      (PDict [("file_id", PStr file_id);
                              ("upload_data", upload_data);
                              ("download_path", PStr ("/download/" +:+ file_id));
                              ("expiration_time", PStr (isoformat expiration_time))]) |})
    (fun e => ret (internal_error rt))
    (before_put w).
Proof.
  intros Hf Hacc Hrange file_id expiration_time upload_time.
  rewrite (upload_with_fields rt event context w fields Hf).
  unfold try_except. rewrite (process_request_accepted rt fields (tick w) Hacc).
  unfold bind at 1. unfold uuid4 at 1.
  unfold bind at 1. unfold utcnow at 1.
  unfold bind at 1.
  rewrite (plus_24_hours_in_range _ _ Hrange).
  unfold bind at 1. unfold utcnow at 1.
  reflexivity.
Qed.

Lemma upload_valid_request (rt : runtime) (event context : pyval) (w : world)
    (fields : list (string * pyval)) :
  request_fields rt event = Some fields ->
  accepted fields = true ->
  faults w = [] ->
  clock w (S (reads w)) + 24 * HOUR <= DATETIME_MAX ->
  let file_id := uuids w (minted w) in
  let expiration_time := clock w (S (reads w)) + 24 * HOUR in
  let record := metadata_object rt fields expiration_time (clock w (S (S (reads w)))) in
  Upload.lambda_handler rt event context w =
  (Returned (upload_accepted rt file_id fields expiration_time),
   add_log (PresignedPost (upload_key rt file_id fields))
     (set_objects (<[file_id +:+ "/metadata.json" := record]> (objects w))
        (add_log (PutObject (file_id +:+ "/metadata.json") record) (before_put w)))).
Proof.
  intros Hf Hacc Hfaults Hrange file_id expiration_time record.
  rewrite (upload_accepted_up_to_put rt event context w fields Hf Hacc Hrange).
  unfold try_except, bind, Upload.s3_put_with_retry, Upload.MAX_RETRIES.
  simpl Upload.put_loop. unfold try_except, bind, put_object, bind, client_call.
  simpl. rewrite Hfaults. simpl.
  unfold Upload.generate_upload_url, bind, client_call. simpl. rewrite Hfaults.
  reflexivity.
Qed.

(** X8.  An accepted upload.  The request passes the five checks, the
    client meets no failure and the expiration time is in range: the
    handler puts the metadata record at [{file_id}/metadata.json], for the
    identifier it has just minted, and nothing else in the bucket; then it
    signs a form for the key [{file_id}/{filename}], bounded by 10 MiB and
    valid 300 seconds, and answers 200 with the identifier, the form, the
    path [/download/{file_id}] and the expiration time.  The put comes
    before the signing. *)
Theorem upload_accepts_valid_request (rt : runtime) (event context : pyval) (w : world)
    (fields : list (string * pyval)) :
  request_fields rt event = Some fields ->
  accepted fields = true ->
  faults w = [] ->
  clock w (S (reads w)) + 24 * HOUR <= DATETIME_MAX ->
  let file_id := uuids w (minted w) in
  let expiration_time := clock w (S (reads w)) + 24 * HOUR in
  let record := metadata_object rt fields expiration_time (clock w (S (S (reads w)))) in
  Upload.lambda_handler rt event context w =
  (Returned (upload_accepted rt file_id fields expiration_time),
   add_log (PresignedPost (upload_key rt file_id fields))
     (set_objects (<[file_id +:+ "/metadata.json" := record]> (objects w))
        (add_log (PutObject (file_id +:+ "/metadata.json") record) (before_put w)))).
Proof.
  exact (upload_valid_request rt event context w fields).
Qed.

Lemma upload_accepts_valid_request_witness :
  let w := Scenario.world_of [] [] Scenario.ticking in
  let fields := [("filename", PStr "a.txt"); ("content_type", PStr "text/plain");
                 ("file_size", PInt 100)] in
  let record := metadata_object Sample.rt fields (Scenario.T2024 + 1 + 24 * HOUR)
                  (Scenario.T2024 + 2) in
  Upload.lambda_handler Sample.rt (Scenario.upload_event "a.txt" "text/plain" (PInt 100)) PNone w
  = (Returned (upload_accepted Sample.rt "uuid-0" fields (Scenario.T2024 + 1 + 24 * HOUR)),
     add_log (PresignedPost "uuid-0/a.txt")
       (set_objects (<["uuid-0/metadata.json" := record]> (objects w))
          (add_log (PutObject "uuid-0/metadata.json" record) (before_put w)))).
Proof.
  cbv zeta.
  apply (upload_accepts_valid_request Sample.rt
           (Scenario.upload_event "a.txt" "text/plain" (PInt 100)) PNone
           (Scenario.world_of [] [] Scenario.ticking)
           [("filename", PStr "a.txt"); ("content_type", PStr "text/plain");
            ("file_size", PInt 100)]).
  - vm_compute. reflexivity.
  - vm_compute. reflexivity.
  - reflexivity.
  - vm_compute. discriminate.
Defined.

(** A put that raises has stored nothing. *)
Lemma put_raises (key : string) (body : option string)
    (metadata : option (list (string * string))) (content_type : option string)
    (w w' : world) (e : exn) :
  Upload.s3_put_with_retry key body metadata content_type Upload.MAX_RETRIES w
  = (Raised e, w') ->
  objects w' = objects w.
Proof.
  intros Hrun. unfold Upload.s3_put_with_retry in Hrun.
  match type of Hrun with
  | Upload.put_loop _ ?obj _ _ _ = _ =>
      destruct (put_loop_spec key obj Upload.MAX_RETRIES 0 w ltac:(unfold Upload.MAX_RETRIES; lia))
        as (n & r & w2 & Hrun' & _ & _ & _ & _ & Hlast)
  end.
  rewrite Hrun in Hrun'. injection Hrun' as <- <-.
  destruct (call_fault w (n - 1)).
  - apply Hlast.
  - destruct Hlast as [Hr _]. discriminate.
Qed.

(** X9.  An upload whose metadata write fails.  When the put of an accepted
    request raises, after its retries or at once, the handler answers with
    the internal error, status 500; nothing has been written to the bucket
    and no form has been signed: the world is the one the put left. *)
Theorem upload_write_failure (rt : runtime) (event context : pyval) (w w' : world)
    (fields : list (string * pyval)) (e : exn) :
  request_fields rt event = Some fields ->
  accepted fields = true ->
  clock w (S (reads w)) + 24 * HOUR <= DATETIME_MAX ->
  Upload.s3_put_with_retry (uuids w (minted w) +:+ "/metadata.json")
    (Some (json_dumps rt (metadata_record rt fields (clock w (S (reads w)) + 24 * HOUR)
                            (clock w (S (S (reads w)))))))
    None (Some "application/json") Upload.MAX_RETRIES (before_put w) = (Raised e, w') ->
  Upload.lambda_handler rt event context w = (Returned (internal_error rt), w') /\
  objects w' = objects w.
Proof.
  intros Hf Hacc Hrange Hput. split.
  - rewrite (upload_accepted_up_to_put rt event context w fields Hf Hacc Hrange).
    unfold try_except, bind. rewrite Hput. reflexivity.
  - apply put_raises in Hput. rewrite Hput. reflexivity.
Qed.

Lemma upload_write_failure_witness :
  let w := Scenario.world_of Scenario.live_item [Some Scenario.AccessDenied] Scenario.ticking in
  Upload.lambda_handler Sample.rt (Scenario.upload_event "a.txt" "text/plain" (PInt 100)) PNone w
  = (Returned (internal_error Sample.rt),
     set_faults []
       (add_log (PutObject "uuid-0/metadata.json"
                   (metadata_object Sample.rt
                      [("filename", PStr "a.txt"); ("content_type", PStr "text/plain");
                       ("file_size", PInt 100)]
                      (Scenario.T2024 + 1 + 24 * HOUR) (Scenario.T2024 + 2)))
          (before_put w))) /\
  objects
    (set_faults []
       (add_log (PutObject "uuid-0/metadata.json"
                   (metadata_object Sample.rt
                      [("filename", PStr "a.txt"); ("content_type", PStr "text/plain");
                       ("file_size", PInt 100)]
                      (Scenario.T2024 + 1 + 24 * HOUR) (Scenario.T2024 + 2)))
          (before_put w)))
  = objects w.
Proof.
  cbv zeta.
  apply (upload_write_failure Sample.rt
           (Scenario.upload_event "a.txt" "text/plain" (PInt 100)) PNone
           (Scenario.world_of Scenario.live_item [Some Scenario.AccessDenied] Scenario.ticking)
           _
           [("filename", PStr "a.txt"); ("content_type", PStr "text/plain");
            ("file_size", PInt 100)]
           Scenario.AccessDenied).
  - vm_compute. reflexivity.
  - vm_compute. reflexivity.
  - vm_compute. discriminate.
  - vm_compute. reflexivity.
Defined.

(** X10.  An upload whose signing fails.  When the put of an accepted
    request goes through and the signing call that follows raises, the
    handler answers with the internal error, status 500, and the metadata
    record it has written stays in the bucket: nothing is rolled back. *)
Theorem upload_signing_failure_keeps_metadata (rt : runtime) (event context : pyval)
    (w : world) (fields : list (string * pyval)) (e : exn) (rest : list (option exn)) :
  request_fields rt event = Some fields ->
  accepted fields = true ->
  clock w (S (reads w)) + 24 * HOUR <= DATETIME_MAX ->
  faults w = None :: Some e :: rest ->
  let file_id := uuids w (minted w) in
  let record := metadata_object rt fields (clock w (S (reads w)) + 24 * HOUR)
                  (clock w (S (S (reads w)))) in
  exists w',
    Upload.lambda_handler rt event context w = (Returned (internal_error rt), w') /\
    objects w' = <[file_id +:+ "/metadata.json" := record]> (objects w) /\
    log w' = (log w ++ [PutObject (file_id +:+ "/metadata.json") record;
                        PresignedPost (upload_key rt file_id fields)])%list.
Proof.
  intros Hf Hacc Hrange Hfaults file_id record.
  rewrite (upload_accepted_up_to_put rt event context w fields Hf Hacc Hrange).
  unfold try_except, bind, Upload.s3_put_with_retry, Upload.MAX_RETRIES.
  simpl Upload.put_loop. unfold try_except, bind, put_object, bind, client_call.
  simpl. rewrite Hfaults. simpl.
  unfold Upload.generate_upload_url, bind, client_call. simpl.
  eexists. split; [reflexivity|]. simpl. split; [reflexivity|].
  rewrite <- app_assoc. reflexivity.
Qed.

Lemma upload_signing_failure_keeps_metadata_witness :
  let w := Scenario.world_of [] [None; Some Scenario.AccessDenied] Scenario.ticking in
  let record := metadata_object Sample.rt
                  [("filename", PStr "a.txt"); ("content_type", PStr "text/plain");
                   ("file_size", PInt 100)]
                  (Scenario.T2024 + 1 + 24 * HOUR) (Scenario.T2024 + 2) in
  exists w',
    Upload.lambda_handler Sample.rt (Scenario.upload_event "a.txt" "text/plain" (PInt 100))
      PNone w = (Returned (internal_error Sample.rt), w') /\
    objects w' = <["uuid-0/metadata.json" := record]> (objects w) /\
    log w' = (log w ++ [PutObject "uuid-0/metadata.json" record;
                        PresignedPost "uuid-0/a.txt"])%list.
Proof.
  cbv zeta.
  apply (upload_signing_failure_keeps_metadata Sample.rt
           (Scenario.upload_event "a.txt" "text/plain" (PInt 100)) PNone
           (Scenario.world_of [] [None; Some Scenario.AccessDenied] Scenario.ticking)
           [("filename", PStr "a.txt"); ("content_type", PStr "text/plain");
            ("file_size", PInt 100)]
           Scenario.AccessDenied []).
  - vm_compute. reflexivity.
  - vm_compute. reflexivity.
  - vm_compute. discriminate.
  - reflexivity.
Defined.

(** X11.  Upload requests without a usable body.  An event without [body]
    is handled as an empty request and answered 400 for the missing
    filename.  A body that is text but not JSON, a body (given or decoded)
    that is not a dict, and an event that is not a dict are answered with
    the internal error, status 500.  In all these cases the handler has
    only read the clock. *)
Theorem upload_without_usable_body (rt : runtime) (context : pyval) (w : world) :
  (forall items,
     assoc_get "body" items = None ->
     Upload.lambda_handler rt (PDict items) context w
     = (Returned (error_response rt 400 "Filename is required"), tick w)) /\
  (forall items s,
     assoc_get "body" items = Some (PStr s) ->
     json_loads rt s = None ->
     Upload.lambda_handler rt (PDict items) context w = (Returned (internal_error rt), tick w)) /\
  (forall items s v,
     assoc_get "body" items = Some (PStr s) ->
     json_loads rt s = Some v ->
     (forall fields, v <> PDict fields) ->
     Upload.lambda_handler rt (PDict items) context w = (Returned (internal_error rt), tick w)) /\
  (forall items v,
     assoc_get "body" items = Some v ->
     (forall s, v <> PStr s) ->
     (forall fields, v <> PDict fields) ->
     Upload.lambda_handler rt (PDict items) context w = (Returned (internal_error rt), tick w)) /\
  (forall event,
     (forall items, event <> PDict items) ->
     Upload.lambda_handler rt event context w = (Returned (internal_error rt), tick w)).
Proof.
  split; [|split; [|split; [|split]]].
  - intros items Hbody.
    assert (Hf : request_fields rt (PDict items) = Some []).
    { simpl. rewrite Hbody. reflexivity. }
    destruct (upload_validation rt (PDict items) context w [] Hf) as (H1 & _).
    apply H1. reflexivity.
  - intros items s Hbody Hjson. apply upload_without_fields.
    simpl. rewrite Hbody, Hjson. reflexivity.
  - intros items s v Hbody Hjson Hv. apply upload_without_fields.
    simpl. rewrite Hbody, Hjson.
    destruct v; try reflexivity. exfalso. eapply Hv. reflexivity.
  - intros items v Hbody Hs Hv. apply upload_without_fields.
    simpl. rewrite Hbody.
    destruct v; try reflexivity; exfalso; [eapply Hs | eapply Hv]; reflexivity.
  - intros event Hev. apply upload_without_fields.
    destruct event; try reflexivity. exfalso. eapply Hev. reflexivity.
Qed.

Lemma upload_without_usable_body_witness :
  let w := Scenario.world_of [] [] Scenario.ticking in
  Upload.lambda_handler Sample.rt (PDict [("httpMethod", PStr "POST")]) PNone w
  = (Returned (error_response Sample.rt 400 "Filename is required"), tick w) /\
  Upload.lambda_handler Sample.rt (PDict [("body", PStr "{{{")]) PNone w
  = (Returned (internal_error Sample.rt), tick w) /\
  Upload.lambda_handler Sample.rt (PDict [("body", PStr "[1, 2]")]) PNone w
  = (Returned (internal_error Sample.rt), tick w) /\
  Upload.lambda_handler Sample.rt (PDict [("body", PNone)]) PNone w
  = (Returned (internal_error Sample.rt), tick w) /\
  Upload.lambda_handler Sample.rt (PStr "upload") PNone w
  = (Returned (internal_error Sample.rt), tick w).
Proof.
  cbv zeta.
  pose proof (upload_without_usable_body Sample.rt PNone
                (Scenario.world_of [] [] Scenario.ticking))
    as (Hmissing & Hgarbled & Hdecoded & Hgiven & Hevent).
  split; [|split; [|split; [|split]]].
  - apply Hmissing. reflexivity.
  - apply (Hgarbled _ "{{{"); [reflexivity | vm_compute; reflexivity].
  - apply (Hdecoded _ "[1, 2]" (PList [PInt 1; PInt 2]));
      [reflexivity | vm_compute; reflexivity | discriminate].
  - apply (Hgiven _ PNone); [reflexivity | discriminate | discriminate].
  - apply Hevent. discriminate.
Defined.

(** X12.  What an upload can do to the bucket.  Whatever the event, the
    client's failures and the clock, the handler answers 200, 400 or 500.
    A request answered 400 has only had the clock read.  A request is
    answered 200 only when it passed the checks and its metadata record is
    stored at [{file_id}/metadata.json].  In every case the bucket is
    either as it was or has that one record added: the handler writes
    nothing else and deletes nothing, and a record it has written stays
    even when the answer is 500. *)
Theorem upload_writes_at_most_its_metadata_record (rt : runtime) (event context : pyval)
    (w : world) :
  let key := uuids w (minted w) +:+ "/metadata.json" in
  let stored fields (w' : world) :=
    request_fields rt event = Some fields /\ accepted fields = true /\
    objects w' =
    <[key := metadata_object rt fields (clock w (S (reads w)) + 24 * HOUR)
               (clock w (S (S (reads w))))]> (objects w) in
  exists (r : response) (w' : world),
    Upload.lambda_handler rt event context w = (Returned r, w') /\
    (statusCode r = 200 \/ statusCode r = 400 \/ statusCode r = 500) /\
    (statusCode r = 400 -> w' = tick w) /\
    (statusCode r = 200 -> exists fields, stored fields w') /\
    (objects w' = objects w \/ exists fields, stored fields w').
Proof.
  intros key stored.
  destruct (request_fields rt event) as [fields|] eqn:Hf.
  - destruct (accepted fields) eqn:Hacc.
    + destruct (Z_le_gt_dec (clock w (S (reads w)) + 24 * HOUR) DATETIME_MAX) as [Hrange|Hover].
      * rewrite (upload_accepted_up_to_put rt event context w fields Hf Hacc Hrange).
        unfold try_except. unfold bind at 1.
        destruct (Upload.s3_put_with_retry _ _ _ _ _ (before_put w)) as [[v|e] w1] eqn:Hput.
        -- apply put_returns in Hput.
           unfold Upload.generate_upload_url. unfold bind at 1. unfold bind at 1.
           destruct (client_call _ w1) as [[[]|e] w2] eqn:Hsign;
             apply client_call_objects in Hsign;
             (eexists; eexists; split; [reflexivity|]);
             assert (Hstored : stored fields w2)
               by (unfold stored; rewrite Hsign, Hput; auto);
             simpl; repeat apply conj; eauto; discriminate.
        -- apply put_raises in Hput.
           eexists. eexists. split; [reflexivity|]. simpl.
           repeat apply conj; auto; discriminate.
      * rewrite (upload_with_fields rt event context w fields Hf).
        unfold try_except. rewrite (process_request_accepted rt fields (tick w) Hacc).
        unfold bind at 1. unfold uuid4 at 1.
        unfold bind at 1. unfold utcnow at 1.
        unfold bind at 1. unfold Upload.plus_24_hours. simpl.
        replace (clock w (S (reads w)) + 24 * HOUR >? DATETIME_MAX) with true
          by (symmetry; apply Z.gtb_lt; lia).
        eexists. eexists. split; [reflexivity|]. simpl.
        repeat apply conj; auto; discriminate.
    + rewrite (upload_with_fields rt event context w fields Hf).
      unfold try_except.
      destruct (process_request_rejected rt fields (tick w) Hacc) as (message & ->).
      eexists. eexists. split; [reflexivity|]. simpl.
      repeat apply conj; auto; discriminate.
  - rewrite (upload_without_fields rt event context w Hf).
    eexists. eexists. split; [reflexivity|]. simpl.
    repeat apply conj; auto; discriminate.
Qed.

(** ** Upload, then download *)

(** X13.  An uploaded item can be downloaded.  An accepted upload is
    followed by the client storing the content under the key the form was
    signed for, a key other than that of the metadata record.  Provided
    the JSON and timestamp codecs read back the record the upload wrote,
    a download of the identifier the upload returned, made without client
    failure while the clock has not passed the expiration time, is
    answered 200: the URL is signed for the very key of the upload form,
    and the filename, the content type and the expiration time are those
    of the upload. *)
Theorem uploaded_item_is_served (rt : runtime) (upload download context : pyval)
    (w w2 : world) (fields : list (string * pyval)) (content : s3_object) (text : string) :
  let file_id := uuids w (minted w) in
  let expiration_time := clock w (S (reads w)) + 24 * HOUR in
  let record := metadata_record rt fields expiration_time (clock w (S (S (reads w)))) in
  request_fields rt upload = Some fields ->
  accepted fields = true ->
  faults w = [] ->
  expiration_time <= DATETIME_MAX ->
  decode_utf8 rt (json_dumps rt record) = Some text ->
  json_loads rt text = Some record ->
  fromisoformat rt (isoformat expiration_time) = Some (Naive expiration_time) ->
  upload_key rt file_id fields <> file_id +:+ "/metadata.json" ->
  objects w2 = <[upload_key rt file_id fields := content]>
                 (objects (snd (Upload.lambda_handler rt upload context w))) ->
  faults w2 = [] ->
  requested_file_id download = Some (PStr file_id) ->
  clock w2 (S (reads w2)) <= expiration_time ->
  fst (Download.lambda_handler rt download context w2) =
  Returned
    {| statusCode := 200;
       headers := Some JSON_HEADERS;
       body := json_dumps rt
                 (PDict [("download_url",
                          PStr (presigned_url rt (upload_key rt file_id fields)
                                  (content_disposition rt
                                     [("original_filename", dict_get "filename" fields)])
                                  Download.DOWNLOAD_URL_EXPIRY));
                         ("filename", dict_get "filename" fields);
                         ("content_type", dict_get "content_type" fields);
                         ("expiration_time", PStr (isoformat expiration_time))]) |}.
Proof.
  intros file_id expiration_time record Hf Hacc Hfaults Hrange Hdec Hjson Hiso Hname
    Hobjects Hfaults2 Hid Hlive.
  rewrite (upload_valid_request rt upload context w fields Hf Hacc Hfaults Hrange) in Hobjects.
  simpl in Hobjects.
  set (w1 := add_log (GetObject (file_id +:+ "/metadata.json")) (tick w2)).
  assert (Hmeta : objects w2 !! (file_id +:+ "/metadata.json")
                  = Some (metadata_object rt fields expiration_time
                            (clock w (S (S (reads w)))))).
  { rewrite Hobjects. rewrite lookup_insert_ne by exact Hname. apply lookup_insert_eq. }
  assert (Hreads : reads_metadata rt (PStr file_id) w2
                     [("original_filename", dict_get "filename" fields);
                      ("content_type", dict_get "content_type" fields);
                      ("expiration_time", PStr (isoformat expiration_time));
                      ("upload_time", PStr (isoformat (clock w (S (S (reads w))))));
                      ("file_size", PStr (format_value rt (dict_get "file_size" fields)))]
                     w1).
  { exists (metadata_object rt fields expiration_time (clock w (S (S (reads w))))), text.
    split; [|split; [exact Hdec | exact Hjson]].
    unfold Download.s3_get_with_retry, Download.MAX_RETRIES. simpl Download.get_loop.
    unfold try_except, bind, get_object, bind, client_call. simpl.
    rewrite Hfaults2. simpl. rewrite Hmeta. reflexivity. }
  rewrite (download_live_item rt download context w2 w1 (PStr file_id) _
             (isoformat expiration_time) expiration_time content Hid Hreads).
  - reflexivity.
  - reflexivity.
  - exact Hiso.
  - exact Hlive.
  - exact Hfaults2.
  - simpl. rewrite Hobjects. apply lookup_insert_eq.
Qed.

Lemma uploaded_item_is_served_witness :
  let w := Scenario.world_of [] [] Scenario.ticking in
  let w2 := set_objects
              (<["uuid-0/a.txt" := Scenario.object_of "hello"]>
                 (objects (snd (Upload.lambda_handler Sample.rt
                                  (Scenario.upload_event "a.txt" "text/plain" (PInt 100))
                                  PNone w))))
              (Scenario.world_of [] [] Scenario.frozen) in
  fst (Download.lambda_handler Sample.rt (Scenario.download_event "uuid-0") PNone w2) =
  Returned
    {| statusCode := 200;
       headers := Some JSON_HEADERS;
       body := Sample.json_dumps
                 (PDict [("download_url",
                          PStr "https://file-sharing-system.s3.amazonaws.com/uuid-0/a.txt");
                         ("filename", PStr "a.txt");
                         ("content_type", PStr "text/plain");
                         ("expiration_time", PStr "2024-01-02T00:00:00.000001")]) |}.
Proof.
  cbv zeta.
  refine (uploaded_item_is_served Sample.rt
            (Scenario.upload_event "a.txt" "text/plain" (PInt 100))
            (Scenario.download_event "uuid-0") PNone
            (Scenario.world_of [] [] Scenario.ticking) _
            [("filename", PStr "a.txt"); ("content_type", PStr "text/plain");
             ("file_size", PInt 100)]
            (Scenario.object_of "hello")
            (Scenario.metadata_text "a.txt" "text/plain" "2024-01-02T00:00:00.000001"
               "2024-01-01T00:00:00.000002" "100")
            _ _ _ _ _ _ _ _ _ _ _ _).
  - vm_compute. reflexivity.
  - vm_compute. reflexivity.
  - reflexivity.
  - vm_compute. discriminate.
  - vm_compute. reflexivity.
  - vm_compute. reflexivity.
  - vm_compute. reflexivity.
  - vm_compute. discriminate.
  - reflexivity.
  - reflexivity.
  - reflexivity.
  - vm_compute. discriminate.
Defined.

(** ** The time spent backing off *)

Lemma total_sleep_app (l l' : list action) :
  total_sleep (l ++ l') = total_sleep l + total_sleep l'.
Proof.
  induction l as [|a l IH]; [reflexivity|].
  destruct a; simpl; rewrite IH; lia.
Qed.

Lemma total_sleep_retry_trace (call : action) (n attempt : nat) :
  total_sleep [call] = 0 ->
  total_sleep (retry_trace call attempt (S n))
  = 2 ^ Z.of_nat (attempt + n) - 2 ^ Z.of_nat attempt.
Proof.
  intros Hcall. revert attempt.
  induction n as [|n IH]; intros attempt.
  - rewrite Nat.add_0_r. simpl retry_trace. rewrite Hcall. lia.
  - rewrite retry_trace_step by lia.
    change (call :: Sleep (2 ^ Z.of_nat attempt) :: retry_trace call (S attempt) (S n))
      with ([call] ++ Sleep (2 ^ Z.of_nat attempt) :: retry_trace call (S attempt) (S n))%list.
    rewrite total_sleep_app, Hcall.
    change (total_sleep (Sleep (2 ^ Z.of_nat attempt) :: retry_trace call (S attempt) (S n)))
      with (2 ^ Z.of_nat attempt + total_sleep (retry_trace call (S attempt) (S n))).
    rewrite IH.
    replace (S attempt + n)%nat with (attempt + S n)%nat by lia.
    replace (Z.of_nat (S attempt)) with (Z.of_nat attempt + 1) by lia.
    rewrite Z.pow_add_r by lia. lia.
Qed.

Lemma backoff_of_trace (call : action) (n max_retries : nat) (l l' : list action) :
  total_sleep [call] = 0 ->
  (n <= max_retries)%nat ->
  l' = (l ++ retry_trace call 1 n)%list ->
  total_sleep l' - total_sleep l = Z.max 0 (2 ^ Z.of_nat n - 2) /\
  total_sleep l' - total_sleep l <= Z.max 0 (2 ^ Z.of_nat max_retries - 2).
Proof.
  intros Hcall Hn ->. rewrite total_sleep_app.
  assert (Hmono : 2 ^ Z.of_nat n <= 2 ^ Z.of_nat max_retries)
    by (apply Z.pow_le_mono_r; lia).
  destruct n as [|n].
  - simpl. lia.
  - rewrite total_sleep_retry_trace by exact Hcall.
    replace (Z.of_nat (1 + n)) with (Z.of_nat (S n)) by lia.
    assert (2 ^ 1 <= 2 ^ Z.of_nat (S n)) by (apply Z.pow_le_mono_r; lia).
    change (2 ^ Z.of_nat 1) with 2. change (2 ^ 1) with 2 in *. lia.
Qed.

Lemma put_backoff (key : string) (obj : s3_object) (max_retries : nat) (w : world) :
  exists n : nat,
    (n <= max_retries)%nat /\ ((1 <= max_retries)%nat -> (1 <= n)%nat) /\
    log (snd (Upload.put_loop key obj max_retries 0 w))
    = (log w ++ retry_trace (PutObject key obj) 1 n)%list /\
    (n = 0%nat -> Upload.put_loop key obj max_retries 0 w = (Returned PNone, w)).
Proof.
  destruct max_retries as [|m].
  - exists 0%nat. simpl. rewrite app_nil_r. repeat apply conj; auto; lia.
  - destruct (put_loop_spec key obj (S m) 0 w ltac:(lia))
      as (n & r & w' & Hrun & Hn & Hlog & _).
    exists n. rewrite Hrun. simpl. repeat apply conj; auto; lia.
Qed.

Lemma get_backoff (key : string) (max_retries : nat) (w : world) :
  exists n : nat,
    (n <= max_retries)%nat /\ ((1 <= max_retries)%nat -> (1 <= n)%nat) /\
    log (snd (Download.get_loop key max_retries 0 w))
    = (log w ++ retry_trace (GetObject key) 1 n)%list /\
    (n = 0%nat -> Download.get_loop key max_retries 0 w = (Returned None, w)).
Proof.
  destruct max_retries as [|m].
  - exists 0%nat. simpl. rewrite app_nil_r. repeat apply conj; auto; lia.
  - destruct (get_loop_spec key (S m) 0 w ltac:(lia))
      as (n & r & w' & Hrun & Hn & Hlog & _).
    exists n. rewrite Hrun. simpl. repeat apply conj; auto; lia.
Qed.

(** X14.  The time spent backing off, for any [max_retries].  A put or
    get with retries makes [n] calls, at most [max_retries], and sleeps
    [2 + 4 + ... + 2 ^ (n - 1) = 2 ^ n - 2] seconds in all, so never more
    than [2 ^ max_retries - 2]: 6 seconds for the default of three.  With
    [max_retries = 0] no call is made at all and the function returns
    [None] without raising: such a put stores nothing and reports no
    failure. *)
Theorem retry_backoff_budget (key : string) (body : option string)
    (metadata : option (list (string * string))) (content_type : option string)
    (max_retries : nat) (w : world) :
  let obj := {| Body := match body with Some b => b | None => EmptyString end;
                ContentType := content_type;
                Metadata := match metadata with Some m => m | None => [] end |} in
  let put := Upload.s3_put_with_retry key body metadata content_type max_retries w in
  let get := Download.s3_get_with_retry key max_retries w in
  let slept (w' : world) := total_sleep (log w') - total_sleep (log w) in
  (exists n : nat,
     (n <= max_retries)%nat /\ ((1 <= max_retries)%nat -> (1 <= n)%nat) /\
     log (snd put) = (log w ++ retry_trace (PutObject key obj) 1 n)%list /\
     slept (snd put) = Z.max 0 (2 ^ Z.of_nat n - 2) /\
     slept (snd put) <= Z.max 0 (2 ^ Z.of_nat max_retries - 2) /\
     (n = 0%nat -> put = (Returned PNone, w))) /\
  (exists n : nat,
     (n <= max_retries)%nat /\ ((1 <= max_retries)%nat -> (1 <= n)%nat) /\
     log (snd get) = (log w ++ retry_trace (GetObject key) 1 n)%list /\
     slept (snd get) = Z.max 0 (2 ^ Z.of_nat n - 2) /\
     slept (snd get) <= Z.max 0 (2 ^ Z.of_nat max_retries - 2) /\
     (n = 0%nat -> get = (Returned None, w))).
Proof.
  intros obj put get slept. split.
  - destruct (put_backoff key obj max_retries w) as (n & Hn & Hpos & Hlog & Hnone).
    exists n.
    destruct (backoff_of_trace (PutObject key obj) n max_retries (log w) (log (snd put)))
      as [Hslept Hbound]; [reflexivity | exact Hn | exact Hlog |].
    repeat apply conj; assumption.
  - destruct (get_backoff key max_retries w) as (n & Hn & Hpos & Hlog & Hnone).
    exists n.
    destruct (backoff_of_trace (GetObject key) n max_retries (log w) (log (snd get)))
      as [Hslept Hbound]; [reflexivity | exact Hn | exact Hlog |].
    repeat apply conj; assumption.
Qed.

(** ** A file named like the metadata record *)

Lemma download_with_unreadable_metadata (rt : runtime) (event context : pyval) (w w1 : world)
    (file_id : pyval) (obj : s3_object) :
  requested_file_id event = Some file_id ->
  Download.s3_get_with_retry (format_value rt file_id +:+ "/metadata.json")
    Download.MAX_RETRIES (tick w) = (Returned (Some obj), w1) ->
  (forall text, decode_utf8 rt (Body obj) = Some text -> json_loads rt text = None) ->
  Download.lambda_handler rt event context w = (Returned (internal_error rt), w1).
Proof.
  intros Hid Hget Hbad.
  unfold requested_file_id in Hid.
  destruct event as [| | | | |l|items]; try discriminate.
  destruct (assoc_get "pathParameters" items) as [pp|] eqn:Hpp; [|discriminate].
  destruct pp as [| | | | |l|path_parameters]; try discriminate.
  unfold Download.lambda_handler, Download.lambda_handler_try, try_except, bind, utcnow.
  fold (tick w). unfold internal_error. simpl. rewrite Hpp. simpl. rewrite Hid. simpl.
  rewrite Hget. unfold read_json, bind.
  destruct (decode_utf8 rt (Body obj)) as [text|] eqn:Hdec; simpl.
  - rewrite (Hbad text eq_refl). reflexivity.
  - reflexivity.
Qed.

(** X15.  A file named like the metadata record.  The upload handler
    accepts the filename [metadata.json] like any other; the form it then
    signs is for the key of the metadata record it has just written.  So
    the content the client stores with that form replaces the record, and
    unless that content happens to be JSON text, a download of the
    identifier is answered with the internal error, status 500. *)
Theorem upload_named_like_the_record (rt : runtime) (upload download context : pyval)
    (w w2 : world) (fields : list (string * pyval)) (content : s3_object) :
  let file_id := uuids w (minted w) in
  request_fields rt upload = Some fields ->
  accepted fields = true ->
  dict_get "filename" fields = PStr "metadata.json" ->
  faults w = [] ->
  clock w (S (reads w)) + 24 * HOUR <= DATETIME_MAX ->
  objects w2 = <[upload_key rt file_id fields := content]>
                 (objects (snd (Upload.lambda_handler rt upload context w))) ->
  faults w2 = [] ->
  requested_file_id download = Some (PStr file_id) ->
  (forall text, decode_utf8 rt (Body content) = Some text -> json_loads rt text = None) ->
  upload_key rt file_id fields = file_id +:+ "/metadata.json" /\
  objects w2 = <[file_id +:+ "/metadata.json" := content]> (objects w) /\
  fst (Download.lambda_handler rt download context w2) = Returned (internal_error rt).
Proof.
  intros file_id Hf Hacc Hname Hfaults Hrange Hobjects Hfaults2 Hid Hbad.
  assert (Hkey : upload_key rt file_id fields = file_id +:+ "/metadata.json")
    by (unfold upload_key; rewrite Hname; reflexivity).
  rewrite (upload_valid_request rt upload context w fields Hf Hacc Hfaults Hrange) in Hobjects.
  simpl in Hobjects. rewrite Hkey in Hobjects.
  fold file_id in Hobjects. rewrite insert_insert_eq in Hobjects.
  split; [exact Hkey|]. split; [exact Hobjects|].
  rewrite (download_with_unreadable_metadata rt download context w2
             (add_log (GetObject (file_id +:+ "/metadata.json")) (tick w2))
             (PStr file_id) content Hid); [reflexivity | | exact Hbad].
  unfold Download.s3_get_with_retry, Download.MAX_RETRIES. simpl Download.get_loop.
  unfold try_except, bind, get_object, bind, client_call. simpl.
  rewrite Hfaults2. simpl. rewrite Hobjects, lookup_insert_eq. reflexivity.
Qed.

Lemma upload_named_like_the_record_witness :
  let w := Scenario.world_of [] [] Scenario.ticking in
  let w2 := set_objects
              (<["uuid-0/metadata.json" := Scenario.object_of "hello"]>
                 (objects (snd (Upload.lambda_handler Sample.rt
                                  (Scenario.upload_event "metadata.json" "text/plain" (PInt 5))
                                  PNone w))))
              (Scenario.world_of [] [] Scenario.frozen) in
  upload_key Sample.rt "uuid-0"
    [("filename", PStr "metadata.json"); ("content_type", PStr "text/plain");
     ("file_size", PInt 5)] = "uuid-0/metadata.json" /\
  objects w2 = <["uuid-0/metadata.json" := Scenario.object_of "hello"]> (objects w) /\
  fst (Download.lambda_handler Sample.rt (Scenario.download_event "uuid-0") PNone w2)
  = Returned (internal_error Sample.rt).
Proof.
  cbv zeta.
  refine (upload_named_like_the_record Sample.rt
            (Scenario.upload_event "metadata.json" "text/plain" (PInt 5))
            (Scenario.download_event "uuid-0") PNone
            (Scenario.world_of [] [] Scenario.ticking) _
            [("filename", PStr "metadata.json"); ("content_type", PStr "text/plain");
             ("file_size", PInt 5)]
            (Scenario.object_of "hello") _ _ _ _ _ _ _ _ _).
  - vm_compute. reflexivity.
  - vm_compute. reflexivity.
  - reflexivity.
  - reflexivity.
  - vm_compute. discriminate.
  - reflexivity.
  - reflexivity.
  - reflexivity.
  - intros text Hdec. vm_compute in Hdec. injection Hdec as <-. vm_compute. reflexivity.
Defined.

(** ** The order of the checks *)

(** X16.  The checks of the upload handler, in order.  A request is
    answered 400 with the message of the first check it fails: a missing
    or empty filename, a missing or empty content type, a file size that
    is missing, zero or not an [int], a file size above 10 MiB, a content
    type outside the allowed list.  The handler has then done nothing but
    read the clock. *)
Theorem upload_rejects_with_first_failed_check (rt : runtime) (event context : pyval)
    (w : world) (fields : list (string * pyval)) :
  request_fields rt event = Some fields ->
  let filename := dict_get "filename" fields in
  let content_type := dict_get "content_type" fields in
  let file_size := dict_get "file_size" fields in
  let rejected message :=
    Upload.lambda_handler rt event context w = (Returned (error_response rt 400 message), tick w) in
  (truthy filename = false -> rejected "Filename is required") /\
  (truthy filename = true -> truthy content_type = false ->
   rejected "Content type is required") /\
  (truthy filename = true -> truthy content_type = true ->
   truthy file_size = false \/ isinstance_int file_size = false ->
   rejected "Valid file size is required") /\
  (truthy filename = true -> truthy content_type = true ->
   truthy file_size = true -> isinstance_int file_size = true ->
   int_value file_size > Upload.MAX_FILE_SIZE ->
   rejected "File size exceeds the maximum limit of 10.0MB") /\
  (truthy filename = true -> truthy content_type = true ->
   truthy file_size = true -> isinstance_int file_size = true ->
   int_value file_size <= Upload.MAX_FILE_SIZE ->
   in_strings content_type Upload.ALLOWED_CONTENT_TYPES = false ->
   rejected ("Content type " +:+ format_value rt content_type +:+ " is not allowed")).
Proof.
  exact (upload_validation rt event context w fields).
Qed.

Lemma upload_rejects_with_first_failed_check_witness :
  let w := Scenario.world_of [] [] Scenario.ticking in
  let answer event message :=
    Upload.lambda_handler Sample.rt (PDict [("body", PDict event)]) PNone w
    = (Returned (error_response Sample.rt 400 message), tick w) in
  answer [("content_type", PStr "text/html"); ("file_size", PStr "big")]
    "Filename is required" /\
  answer [("filename", PStr "a.html"); ("content_type", PStr ""); ("file_size", PStr "big")]
    "Content type is required" /\
  answer [("filename", PStr "a.html"); ("content_type", PStr "text/html");
          ("file_size", PStr "big")]
    "Valid file size is required" /\
  answer [("filename", PStr "a.html"); ("content_type", PStr "text/html");
          ("file_size", PInt 10485761)]
    "File size exceeds the maximum limit of 10.0MB" /\
  answer [("filename", PStr "a.html"); ("content_type", PStr "text/html");
          ("file_size", PInt 10485760)]
    "Content type text/html is not allowed".
Proof.
  cbv zeta.
  split; [|split; [|split; [|split]]].
  - refine (proj1 (upload_rejects_with_first_failed_check Sample.rt
                     (PDict [("body", PDict [("content_type", PStr "text/html"); ("file_size", PStr "big")])])
                     PNone (Scenario.world_of [] [] Scenario.ticking)
                     [("content_type", PStr "text/html"); ("file_size", PStr "big")]
                     eq_refl) _).
    reflexivity.
  - refine (proj1 (proj2 (upload_rejects_with_first_failed_check Sample.rt
                     (PDict [("body", PDict [("filename", PStr "a.html"); ("content_type", PStr "");
                      ("file_size", PStr "big")])])
                     PNone (Scenario.world_of [] [] Scenario.ticking)
                     [("filename", PStr "a.html"); ("content_type", PStr "");
                      ("file_size", PStr "big")]
                     eq_refl)) _ _); reflexivity.
  - refine (proj1 (proj2 (proj2 (upload_rejects_with_first_failed_check Sample.rt
                     (PDict [("body", PDict [("filename", PStr "a.html"); ("content_type", PStr "text/html");
                      ("file_size", PStr "big")])])
                     PNone (Scenario.world_of [] [] Scenario.ticking)
                     [("filename", PStr "a.html"); ("content_type", PStr "text/html");
                      ("file_size", PStr "big")]
                     eq_refl))) _ _ _); try reflexivity.
    right. reflexivity.
  - refine (proj1 (proj2 (proj2 (proj2 (upload_rejects_with_first_failed_check Sample.rt
                     (PDict [("body", PDict [("filename", PStr "a.html"); ("content_type", PStr "text/html");
                      ("file_size", PInt 10485761)])])
                     PNone (Scenario.world_of [] [] Scenario.ticking)
                     [("filename", PStr "a.html"); ("content_type", PStr "text/html");
                      ("file_size", PInt 10485761)]
                     eq_refl)))) _ _ _ _ _); reflexivity.
  - refine (proj2 (proj2 (proj2 (proj2 (upload_rejects_with_first_failed_check Sample.rt
                     (PDict [("body", PDict [("filename", PStr "a.html"); ("content_type", PStr "text/html");
                      ("file_size", PInt 10485760)])])
                     PNone (Scenario.world_of [] [] Scenario.ticking)
                     [("filename", PStr "a.html"); ("content_type", PStr "text/html");
                      ("file_size", PInt 10485760)]
                     eq_refl)))) _ _ _ _ _ _); reflexivity.
Defined.
